(** * Selah: corpus navigation, search, reading statistics and favourites

    A shallow embedding of [app/utils/bible.py], [app/utils/history.py] and
    the favourites and history tables of [app/utils/database.py], followed by
    the properties of the position navigator, the search engine, the session
    aggregator and the favourites table.

    Python values are embedded as follows.
    - [int] is [Z]; [str] is a list of Unicode code points ([N]).
    - [float] is the primitive binary64 type of the kernel.
    - An operation that can raise returns [Res]; [Raise e] is the exception.
    - Objects with mutable state ([History], [Database]) are records that
      every method takes and returns; the wall clock is an explicit argument. *)

From Stdlib Require Import String Ascii.
From Stdlib Require Import ZArith NArith List Bool Lia DecimalString.
From Stdlib Require Import Floats Uint63.
From Stdlib Require Import Permutation Sorted DecimalPos.
From Equations Require Import Equations.
Import ListNotations.

Set Default Proof Using "Type".

(* ===================================================================== *)
(** * The Python runtime the program relies on                             *)
(* ===================================================================== *)

Module Py.

(** ** Exceptions and results *)

Inductive exn : Set :=
| IndexError
| ValueError
| OverflowError
| ZeroDivisionError
| IntegrityError.

Inductive Res (A : Type) : Type :=
| Ok (a : A)
| Raise (e : exn).
Arguments Ok {A} a.
Arguments Raise {A} e.

Definition bind {A B} (m : Res A) (k : A -> Res B) : Res B :=
  match m with
  | Ok a => k a
  | Raise e => Raise e
  end.

Definition ret {A} (a : A) : Res A := Ok a.

Definition returns {A} (m : Res A) : Prop := exists a, m = Ok a.

(** ** Integers and sequences *)

Definition len {A} (l : list A) : Z := Z.of_nat (length l).

(** [l[i]]: a negative index counts from the end, an index outside the
    list raises [IndexError]. *)
Definition getitem {A} (l : list A) (i : Z) : Res A :=
  let j := if (i <? 0)%Z then (i + len l)%Z else i in
  if (j <? 0)%Z then Raise IndexError
  else match nth_error l (Z.to_nat j) with
       | Some x => Ok x
       | None => Raise IndexError
       end.

(** ** Strings *)

Definition char : Set := N.
Definition str : Set := list char.

(** String literals of this file are written in UTF-8; [u] decodes the
    bytes of a literal to the code points Python holds. *)
Fixpoint utf8_decode (bs : list N) : str :=
  match bs with
  | [] => []
  | b0 :: r0 =>
    if (b0 <? 128)%N then b0 :: utf8_decode r0
    else if (b0 <? 224)%N then
      match r0 with
      | b1 :: r1 => ((b0 - 192) * 64 + (b1 - 128))%N :: utf8_decode r1
      | _ => []
      end
    else if (b0 <? 240)%N then
      match r0 with
      | b1 :: b2 :: r2 =>
        ((b0 - 224) * 4096 + (b1 - 128) * 64 + (b2 - 128))%N :: utf8_decode r2
      | _ => []
      end
    else
      match r0 with
      | b1 :: b2 :: b3 :: r3 =>
        ((b0 - 240) * 262144 + (b1 - 128) * 4096 + (b2 - 128) * 64 + (b3 - 128))%N
          :: utf8_decode r3
      | _ => []
      end
  end.

Definition u (s : string) : str :=
  utf8_decode (map N_of_ascii (list_ascii_of_string s)).

Fixpoint str_eqb (a b : str) : bool :=
  match a, b with
  | [], [] => true
  | x :: a', y :: b' => (x =? y)%N && str_eqb a' b'
  | _, _ => false
  end.

Fixpoint startswith (s prefix : str) : bool :=
  match prefix, s with
  | [], _ => true
  | _ :: _, [] => false
  | p :: prefix', c :: s' => (c =? p)%N && startswith s' prefix'
  end.

(** [sub in s] *)
Fixpoint contains (s sub : str) : bool :=
  startswith s sub ||
  match s with
  | [] => false
  | _ :: s' => contains s' sub
  end.

(** [str(n)] for an integer, as an f-string formats it. *)
Definition str_of_int (n : Z) : str :=
  u (DecimalString.NilZero.string_of_int (Z.to_int n)).

(** ** The Unicode character database

    The tables of code points [0 .. 255] are written out below.  Beyond
    them the database is a parameter of the development: every statement
    holds for whatever the tables of the running interpreter say there. *)

Class UnicodeData : Type := {
  ucd_isspace : char -> bool;
  ucd_isdecimal : char -> bool;
  ucd_decimal : char -> Z;
  ucd_isalnum : char -> bool;
  ucd_lower : str -> str;
  ucd_upper : str -> str;
  ucd_ieq : char -> char -> bool
}.

Definition latin1 (c : char) : bool := (c <? 256)%N.

Definition between (lo hi c : N) : bool := (lo <=? c)%N && (c <=? hi)%N.

Definition latin1_isspace (c : char) : bool :=
  between 9 13 c || between 28 32 c || (c =? 133)%N || (c =? 160)%N.

Definition latin1_isdecimal (c : char) : bool := between 48 57 c.

Definition latin1_isalnum (c : char) : bool :=
  between 48 57 c || between 65 90 c || between 97 122 c
  || (c =? 170)%N || (c =? 178)%N || (c =? 179)%N || (c =? 181)%N
  || (c =? 185)%N || (c =? 186)%N || between 188 190 c
  || between 192 214 c || between 216 246 c || between 248 255 c.

Definition latin1_lower (c : char) : char :=
  if between 65 90 c || (between 192 222 c && negb (c =? 215)%N)
  then (c + 32)%N else c.

Definition latin1_upper (c : char) : char :=
  if between 97 122 c || (between 224 254 c && negb (c =? 247)%N)
  then (c - 32)%N else c.

(** The upper case of these three leaves the table: U+00B5, U+00DF, U+00FF. *)
Definition latin1_upper_closed (c : char) : bool :=
  latin1 c && negb ((c =? 181)%N || (c =? 223)%N || (c =? 255)%N).

Section Unicode.
Context `{UnicodeData}.

(** [str.isspace] of one character, also the class [\s] of [re]. *)
Definition isspace (c : char) : bool :=
  if latin1 c then latin1_isspace c else ucd_isspace c.

(** The decimal digits, the class [\d] of [re]. *)
Definition isdecimal (c : char) : bool :=
  if latin1 c then latin1_isdecimal c else ucd_isdecimal c.

Definition decimal_value (c : char) : Z :=
  if latin1 c then (Z.of_N c - 48)%Z else ucd_decimal c.

Definition isalnum (c : char) : bool :=
  if latin1 c then latin1_isalnum c else ucd_isalnum c.

(** [s.lower()] and [s.upper()] *)
Definition lower (s : str) : str :=
  if forallb latin1 s then map latin1_lower s else ucd_lower s.

Definition upper (s : str) : str :=
  if forallb latin1_upper_closed s then map latin1_upper s else ucd_upper s.

(** [s.strip()] *)
Fixpoint lstrip (s : str) : str :=
  match s with
  | [] => []
  | c :: s' => if isspace c then lstrip s' else s
  end.

Definition rstrip (s : str) : str := rev (lstrip (rev s)).

Definition strip (s : str) : str := rstrip (lstrip s).

(** [sys.int_info.default_max_str_digits]: the longest numeral [int]
    converts; the program never changes the limit. *)
Definition int_max_str_digits : nat := 4300.

(** [int(s)] on a string of decimal digits.  Python accepts more (a sign,
    surrounding blanks, underscores); the program only converts what
    [\d+] captured, and every other string is made to raise here.
    Integers are unbounded, but a numeral of more than
    [int_max_str_digits] digits, leading zeros counted, is refused with
    a [ValueError]. *)
Definition int_of_str (s : str) : Res Z :=
  match s with
  | [] => Raise ValueError
  | _ :: _ =>
    if forallb isdecimal s
    then if (length s <=? int_max_str_digits)%nat
         then Ok (fold_left (fun acc c => (10 * acc + decimal_value c)%Z) s 0%Z)
         else Raise ValueError
    else Raise ValueError
  end.

End Unicode.

(** [s.replace(old, new)]: the occurrences of [old] are taken leftmost
    first and do not overlap; an empty [old] matches between characters. *)
Equations? replace (s old new : str) : str by wf (length s) lt :=
  replace [] old new := match old with [] => new | _ :: _ => [] end;
  replace (c :: s') old new with startswith (c :: s') old := {
    | true with old := {
      | [] := new ++ c :: replace s' old new
      | _ :: old' := new ++ replace (skipn (length old') s') old new };
    | false := c :: replace s' old new }.
Proof.
  all: simpl; rewrite ?length_skipn; lia.
Qed.

End Py.

(* ===================================================================== *)
(** * The part of the [re] module the program uses                         *)
(* ===================================================================== *)

Module Re.
Import Py.

(** A pattern is a sequence of items; repetition is only applied to a
    single character class, which is all the program's patterns need. *)
Inductive cls : Set :=
| Digit            (* \d *)
| Space            (* \s *)
| Word             (* \w *)
| Lit (c : char).  (* a literal character *)

Inductive item : Set :=
| Bos              (* ^ *)
| One (c : cls)
| Opt (c : cls)    (* c? *)
| Star (c : cls)   (* c* *)
| Plus (c : cls)   (* c+ *)
| GOpen            (* ( *)
| GClose           (* ) *)
| Eos.             (* $ *)

Definition regex : Set := list item.

(** One matched stretch of a substitution, or one character copied over. *)
Inductive piece : Set :=
| Kept (c : char)
| Matched (m : str).

Section Engine.
Context `{UnicodeData}.

(** Two characters that [re.IGNORECASE] identifies. *)
Definition ieq (p c : char) : bool :=
  if latin1 p && latin1 c
  then (latin1_lower p =? latin1_lower c)%N
  else ucd_ieq p c.

(** All the program's patterns are compiled with [re.IGNORECASE]. *)
Definition cls_match (c : cls) (x : char) : bool :=
  match c with
  | Digit => isdecimal x
  | Space => isspace x
  | Word => isalnum x || (x =? 95)%N
  | Lit l => ieq l x
  end.

Definition push (x : char) (cur : option str) : option str :=
  option_map (cons x) cur.

(** Greedy repetition of a class: the longest run is tried first, and
    the matcher backs off one character at a time when the rest of the
    pattern, [k], fails. *)
Fixpoint greedy (c : cls) (k : str -> bool -> option str -> option (list str))
    (s : str) (at_start : bool) (cur : option str) : option (list str) :=
  match s with
  | x :: s' =>
    if cls_match c x then
      match greedy c k s' false (push x cur) with
      | Some r => Some r
      | None => k s at_start cur
      end
    else k s at_start cur
  | [] => k [] at_start cur
  end.

(** The backtracking matcher.  [s] is what is left of the subject,
    [at_start] tells whether nothing was consumed yet, [cur] is the text
    of the group being captured (reversed), [caps] the groups closed so
    far.  The result is [match.groups()] of the first match in the
    matcher's order of preference. *)
Fixpoint run (p : regex) (s : str) (at_start : bool) (cur : option str)
    (caps : list str) {struct p} : option (list str) :=
  match p with
  | [] => Some caps
  | Bos :: p' => if at_start then run p' s at_start cur caps else None
  | One c :: p' =>
    match s with
    | x :: s' => if cls_match c x then run p' s' false (push x cur) caps else None
    | [] => None
    end
  | Opt c :: p' =>
    match s with
    | x :: s' =>
      if cls_match c x then
        match run p' s' false (push x cur) caps with
        | Some r => Some r
        | None => run p' s at_start cur caps
        end
      else run p' s at_start cur caps
    | [] => run p' s at_start cur caps
    end
  | Star c :: p' =>
    greedy c (fun s1 b1 cur1 => run p' s1 b1 cur1 caps) s at_start cur
  | Plus c :: p' =>
    match s with
    | x :: s' =>
      if cls_match c x
      then greedy c (fun s1 b1 cur1 => run p' s1 b1 cur1 caps) s' false (push x cur)
      else None
    | [] => None
    end
  | GOpen :: p' => run p' s at_start (Some []) caps
  | GClose :: p' =>
    match cur with
    | Some buf => run p' s at_start None (caps ++ [rev buf])
    | None => None
    end
  | Eos :: p' =>
    match s with
    | [] => run p' s at_start cur caps
    | [x] => if (x =? 10)%N then run p' s at_start cur caps else None
    | _ => None
    end
  end.

(** [re.match(pattern, s, re.IGNORECASE)], as [None] or the groups. *)
Definition re_match (p : regex) (s : str) : option (list str) :=
  run p s true None [].

(** [query] occurs at the head of [text], up to case. *)
Fixpoint imatch_head (query text : str) : bool :=
  match query, text with
  | [], _ => true
  | _ :: _, [] => false
  | q :: query', c :: text' => ieq q c && imatch_head query' text'
  end.

(** The scan of [re.compile(re.escape(query), re.IGNORECASE).sub]: matches
    are taken leftmost first and do not overlap; an empty pattern matches
    before every character and at the end. *)
Equations? scan (query text : str) : list piece by wf (length text) lt :=
  scan query [] := match query with [] => [Matched []] | _ :: _ => [] end;
  scan query (c :: text') with imatch_head query (c :: text') := {
    | true with query := {
      | [] := Matched [] :: Kept c :: scan query text'
      | _ :: query' :=
          Matched (firstn (S (length query')) (c :: text'))
            :: scan query (skipn (length query') text') };
    | false := Kept c :: scan query text' }.
Proof.
  all: simpl; rewrite ?length_skipn; lia.
Qed.

Definition piece_text (pc : piece) : str :=
  match pc with
  | Kept c => [c]
  | Matched m => m
  end.

Definition render (repl : str -> str) (pcs : list piece) : str :=
  flat_map (fun pc => match pc with Kept c => [c] | Matched m => repl m end) pcs.

(** [pattern.sub(repl, text)] for a callable [repl] that is given the
    matched text ([m.group()]). *)
Definition sub_literal (query : str) (repl : str -> str) (text : str) : str :=
  render repl (scan query text).

End Engine.

End Re.

(* ===================================================================== *)
(** * [app/utils/bible.py]                                                  *)
(* ===================================================================== *)

Module bible.
Import Py Re.

(** Abbreviation to full name, in the order the dictionary is written
    (the order in which [items()] yields it). *)
Definition BOOK_NAMES : list (str * str) := [
  (u "gn", u "Gênesis"); (u "ex", u "Êxodo"); (u "lv", u "Levítico"); (u "nm", u "Números");
  (u "dt", u "Deuteronômio"); (u "js", u "Josué"); (u "jz", u "Juízes"); (u "rt", u "Rute");
  (u "1sm", u "1 Samuel"); (u "2sm", u "2 Samuel"); (u "1rs", u "1 Reis"); (u "2rs", u "2 Reis");
  (u "1cr", u "1 Crônicas"); (u "2cr", u "2 Crônicas"); (u "ed", u "Esdras"); (u "ne", u "Neemias");
  (u "et", u "Ester"); (u "jó", u "Jó"); (u "sl", u "Salmos"); (u "pv", u "Provérbios");
  (u "ec", u "Eclesiastes"); (u "ct", u "Cânticos"); (u "is", u "Isaías"); (u "jr", u "Jeremias");
  (u "lm", u "Lamentações"); (u "ez", u "Ezequiel"); (u "dn", u "Daniel"); (u "os", u "Oséias");
  (u "jl", u "Joel"); (u "am", u "Amós"); (u "ob", u "Obadias"); (u "jn", u "Jonas");
  (u "mq", u "Miquéias"); (u "na", u "Naum"); (u "hc", u "Habacuque"); (u "sf", u "Sofonias");
  (u "ag", u "Ageu"); (u "zc", u "Zacarias"); (u "ml", u "Malaquias");
  (u "mt", u "Mateus"); (u "mc", u "Marcos"); (u "lc", u "Lucas"); (u "jo", u "João");
  (u "at", u "Atos"); (u "rm", u "Romanos"); (u "1co", u "1 Coríntios"); (u "2co", u "2 Coríntios");
  (u "gl", u "Gálatas"); (u "ef", u "Efésios"); (u "fp", u "Filipenses"); (u "cl", u "Colossenses");
  (u "1ts", u "1 Tessalonicenses"); (u "2ts", u "2 Tessalonicenses");
  (u "1tm", u "1 Timóteo"); (u "2tm", u "2 Timóteo"); (u "tt", u "Tito"); (u "fm", u "Filemom");
  (u "hb", u "Hebreus"); (u "tg", u "Tiago"); (u "1pe", u "1 Pedro"); (u "2pe", u "2 Pedro");
  (u "1jo", u "1 João"); (u "2jo", u "2 João"); (u "3jo", u "3 João"); (u "jd", u "Judas");
  (u "ap", u "Apocalipse")
].

(** [d.get(key, default)] on a dictionary of strings. *)
Fixpoint dict_get (d : list (str * str)) (key default : str) : str :=
  match d with
  | [] => default
  | (k, v) :: d' => if str_eqb k key then v else dict_get d' key default
  end.

(** One book of the loaded JSON document: an object whose keys
    ["abbrev"] and ["chapters"] the program reads; [other_keys] counts
    the keys it never looks at. *)
Record Book : Set := {
  abbrev : option str;
  chapters : option (list (list str));
  other_keys : nat
}.

(** The truth value of the dictionary: it has at least one key. *)
Definition book_truth (book : Book) : bool :=
  match abbrev book, chapters book, other_keys book with
  | None, None, O => false
  | _, _, _ => true
  end.

(** [book.get("abbrev", "")] and [book.get("chapters", [])] *)
Definition get_abbrev (book : Book) : str :=
  match abbrev book with Some a => a | None => [] end.

Definition get_chapters (book : Book) : list (list str) :=
  match chapters book with Some cs => cs | None => [] end.

Record Bible : Set := {
  books : list Book;
  version : str
}.

(** The dictionaries [search] and [search_by_reference] return; the
    latter sets no ["highlight"] key. *)
Record SearchResult : Set := {
  book_index : Z;
  chapter_index : Z;
  verse_index : Z;
  verse_text : str;
  reference : str;
  highlight : option str
}.

(** The dictionaries [get_all_books] returns, with the keys ["index"],
    ["abbrev"], ["name"] and ["chapters"]. *)
Record BookEntry : Set := {
  entry_index : Z;
  entry_abbrev : str;
  entry_name : str;
  entry_chapters : Z
}.

Declare Scope res_scope.
Delimit Scope res_scope with res.
Notation "x <- m ;; k" := (bind m (fun x => k))
  (at level 61, m at next level, right associativity) : res_scope.
Local Open Scope res_scope.
Local Open Scope Z_scope.

Section Methods.
Context `{UnicodeData}.
Variable self : Bible.

Definition get_book_count : Z := len (books self).

Definition get_book (index : Z) : Res (option Book) :=
  if (0 <=? index) && (index <? len (books self)) then
    book <- getitem (books self) index ;;
    ret (Some book)
  else ret None.

Definition get_book_name (index : Z) : Res str :=
  book <- get_book index ;;
  match book with
  | Some b =>
    if book_truth b then
      let abbrev := get_abbrev b in
      ret (dict_get BOOK_NAMES abbrev (upper abbrev))
    else ret []
  | None => ret []
  end.

Definition get_book_abbrev (index : Z) : Res str :=
  book <- get_book index ;;
  match book with
  | Some b => if book_truth b then ret (get_abbrev b) else ret []
  | None => ret []
  end.

Definition get_chapter_count (book_index : Z) : Res Z :=
  book <- get_book book_index ;;
  match book with
  | Some b => if book_truth b then ret (len (get_chapters b)) else ret 0
  | None => ret 0
  end.

Definition get_chapter (book_index chapter_index : Z) : Res (list str) :=
  book <- get_book book_index ;;
  match book with
  | Some b =>
    if book_truth b then
      let chapters := get_chapters b in
      if (0 <=? chapter_index) && (chapter_index <? len chapters)
      then getitem chapters chapter_index
      else ret []
    else ret []
  | None => ret []
  end.

Definition get_verse (book_index chapter_index verse_index : Z) : Res str :=
  chapter <- get_chapter book_index chapter_index ;;
  if (0 <=? verse_index) && (verse_index <? len chapter)
  then getitem chapter verse_index
  else ret [].

Definition get_verse_count (book_index chapter_index : Z) : Res Z :=
  chapter <- get_chapter book_index chapter_index ;;
  ret (len chapter).

(** [f"{book_name} {chapter_index + 1}:{verse_index + 1}"] *)
Definition get_reference (book_index chapter_index verse_index : Z) : Res str :=
  book_name <- get_book_name book_index ;;
  ret (book_name ++ u " " ++ str_of_int (chapter_index + 1)
                 ++ u ":" ++ str_of_int (verse_index + 1)).

Definition get_next_position (book_index chapter_index verse_index : Z)
    : Res (Z * Z * Z * bool) :=
  verse_count <- get_verse_count book_index chapter_index ;;
  if verse_index + 1 <? verse_count then
    ret (book_index, chapter_index, verse_index + 1, false)
  else
    chapter_count <- get_chapter_count book_index ;;
    if chapter_index + 1 <? chapter_count then
      ret (book_index, chapter_index + 1, 0, false)
    else if book_index + 1 <? len (books self) then
      ret (book_index + 1, 0, 0, false)
    else
      ret (book_index, chapter_index, verse_index, true).

Definition get_previous_position (book_index chapter_index verse_index : Z)
    : Res (Z * Z * Z * bool) :=
  if verse_index >? 0 then
    ret (book_index, chapter_index, verse_index - 1, false)
  else if chapter_index >? 0 then
    let new_chapter := chapter_index - 1 in
    verse_count <- get_verse_count book_index new_chapter ;;
    let last_verse := verse_count - 1 in
    ret (book_index, new_chapter, Z.max 0 last_verse, false)
  else if book_index >? 0 then
    let new_book := book_index - 1 in
    chapter_count <- get_chapter_count new_book ;;
    let last_chapter := chapter_count - 1 in
    verse_count <- get_verse_count new_book last_chapter ;;
    let last_verse := verse_count - 1 in
    ret (new_book, Z.max 0 last_chapter, Z.max 0 last_verse, false)
  else
    ret (0, 0, 0, true).

(** ** [search] *)

Section Search.
Variables (query : str) (max_results : Z) (case_sensitive : bool).

Definition search_query : str :=
  if case_sensitive then query else lower query.

Definition mark (m : str) : str := u "**" ++ m ++ u "**".

(** The three nested [for] loops over [enumerate(...)], innermost first.
    [results] is the list built so far; leaving a loop by [break] hands
    it back as it is. *)
Fixpoint search_verses (book_idx chapter_idx : Z) (verses : list str)
    (verse_idx : Z) (results : list SearchResult) : Res (list SearchResult) :=
  match verses with
  | [] => ret results
  | verse_text :: verses' =>
    if len results >=? max_results then ret results
    else
      let text_to_search := if case_sensitive then verse_text else lower verse_text in
      if contains text_to_search search_query then
        reference <- get_reference book_idx chapter_idx verse_idx ;;
        let highlight :=
          if case_sensitive
          then replace verse_text query (mark query)
          else sub_literal query mark verse_text in
        search_verses book_idx chapter_idx verses' (verse_idx + 1)
          (results ++ [ {| book_index := book_idx;
                           chapter_index := chapter_idx;
                           verse_index := verse_idx;
                           verse_text := verse_text;
                           reference := reference;
                           highlight := Some highlight |} ])
      else search_verses book_idx chapter_idx verses' (verse_idx + 1) results
  end.

Fixpoint search_chapters (book_idx : Z) (chapters : list (list str))
    (chapter_idx : Z) (results : list SearchResult) : Res (list SearchResult) :=
  match chapters with
  | [] => ret results
  | verses :: chapters' =>
    if len results >=? max_results then ret results
    else
      results' <- search_verses book_idx chapter_idx verses 0 results ;;
      search_chapters book_idx chapters' (chapter_idx + 1) results'
  end.

Fixpoint search_books (bs : list Book) (book_idx : Z)
    (results : list SearchResult) : Res (list SearchResult) :=
  match bs with
  | [] => ret results
  | book :: bs' =>
    if len results >=? max_results then ret results
    else
      let chapters := get_chapters book in
      results' <- search_chapters book_idx chapters 0 results ;;
      search_books bs' (book_idx + 1) results'
  end.

Definition search : Res (list SearchResult) :=
  match query with
  | [] => ret []
  | _ :: _ =>
    match strip query with
    | [] => ret []
    | _ :: _ => search_books (books self) 0 []
    end
  end.

End Search.

(** ** [search_by_reference] *)

(** [for idx, book in enumerate(self.books):
       if book.get("abbrev", "").lower() == key: return idx] *)
Fixpoint index_of_abbrev (bs : list Book) (idx : Z) (key : str) : option Z :=
  match bs with
  | [] => None
  | book :: bs' =>
    if str_eqb (lower (get_abbrev book)) key then Some idx
    else index_of_abbrev bs' (idx + 1) key
  end.

(** [for abbrev, full_name in BOOK_NAMES.items():
       if test(full_name): <the loop above, with key abbrev>] *)
Fixpoint index_by_name (test : str -> bool) (names : list (str * str)) : option Z :=
  match names with
  | [] => None
  | (abbrev, full_name) :: names' =>
    if test full_name then
      match index_of_abbrev (books self) 0 abbrev with
      | Some idx => Some idx
      | None => index_by_name test names'
      end
    else index_by_name test names'
  end.

Definition _find_book_index (name : str) : option Z :=
  let name_lower := strip (lower name) in
  match index_of_abbrev (books self) 0 name_lower with
  | Some idx => Some idx
  | None =>
    match index_by_name (fun full_name => str_eqb (lower full_name) name_lower)
                        BOOK_NAMES with
    | Some idx => Some idx
    | None =>
      index_by_name (fun full_name => startswith (lower full_name) name_lower)
                    BOOK_NAMES
    end
  end.

(** [^(\d?\s*\w+)\s+(\d+):(\d+)$] *)
Definition pattern_full : regex :=
  [Bos; GOpen; Opt Digit; Star Space; Plus Word; GClose; Plus Space;
   GOpen; Plus Digit; GClose; One (Lit 58%N); GOpen; Plus Digit; GClose; Eos].

(** [^(\d?\s*\w+)\s+(\d+)$] *)
Definition pattern_chapter : regex :=
  [Bos; GOpen; Opt Digit; Star Space; Plus Word; GClose; Plus Space;
   GOpen; Plus Digit; GClose; Eos].

Definition patterns : list regex := [pattern_full; pattern_chapter].

(** The second half of the loop body: from the book name and the
    0-based numbers to the result. *)
Definition locate (book_name : str) (chapter_num : Z) (verse_num : option Z)
    : Res (option SearchResult) :=
  match _find_book_index book_name with
  | None => ret None
  | Some book_idx =>
    out_of_range <-
      (if chapter_num <? 0 then ret true
       else chapter_count <- get_chapter_count book_idx ;;
            ret (chapter_num >=? chapter_count)) ;;
    if (out_of_range : bool) then ret None
    else
      match verse_num with
      | Some verse_num =>
        out_of_range <-
          (if verse_num <? 0 then ret true
           else verse_count <- get_verse_count book_idx chapter_num ;;
                ret (verse_num >=? verse_count)) ;;
        if (out_of_range : bool) then ret None
        else
          text <- get_verse book_idx chapter_num verse_num ;;
          ref <- get_reference book_idx chapter_num verse_num ;;
          ret (Some {| book_index := book_idx;
                       chapter_index := chapter_num;
                       verse_index := verse_num;
                       verse_text := text;
                       reference := ref;
                       highlight := None |})
      | None =>
        text <- get_verse book_idx chapter_num 0 ;;
        ref <- get_reference book_idx chapter_num 0 ;;
        ret (Some {| book_index := book_idx;
                     chapter_index := chapter_num;
                     verse_index := 0;
                     verse_text := text;
                     reference := ref;
                     highlight := None |})
      end
  end.

(** The body of the loop once [pattern] has matched with [groups]: the
    groups are converted, then the position is looked up. *)
Definition resolve_match (groups : list str) : Res (option SearchResult) :=
  g0 <- getitem groups 0 ;;
  let book_name := lower (strip g0) in
  g1 <- getitem groups 1 ;;
  n1 <- int_of_str g1 ;;
  let chapter_num := n1 - 1 in
  verse_num <-
    (if len groups >? 2 then
       g2 <- getitem groups 2 ;;
       n2 <- int_of_str g2 ;;
       ret (Some (n2 - 1))
     else ret None) ;;
  locate book_name chapter_num verse_num.

(** [for pattern in patterns: match = re.match(...); if match: ... return] *)
Fixpoint try_patterns (pats : list regex) (reference : str)
    : Res (option SearchResult) :=
  match pats with
  | [] => ret None
  | pattern :: pats' =>
    match re_match pattern reference with
    | Some groups => resolve_match groups
    | None => try_patterns pats' reference
    end
  end.

Definition search_by_reference (reference : str) : Res (option SearchResult) :=
  let reference := strip reference in
  try_patterns patterns reference.

(** ** [get_all_books] *)

(** [for i, book in enumerate(self.books): result.append({...})] *)
Fixpoint all_books_from (bs : list Book) (i : Z) : list BookEntry :=
  match bs with
  | [] => []
  | book :: bs' =>
    let abbrev := get_abbrev book in
    let name := dict_get BOOK_NAMES abbrev (upper abbrev) in
    let chapters := len (get_chapters book) in
    {| entry_index := i; entry_abbrev := abbrev;
       entry_name := name; entry_chapters := chapters |}
      :: all_books_from bs' (i + 1)
  end.

Definition get_all_books : list BookEntry := all_books_from (books self) 0.

End Methods.

End bible.

(* ===================================================================== *)
(** * Python's [float]                                                      *)
(* ===================================================================== *)

Module PyFloat.
Import Py.
Local Open Scope Z_scope.

(** The binary64 number nearest to the rational [a / b] (ties to even),
    with sign [neg]: the result of every correctly rounded conversion. *)
Definition nearest (neg : bool) (a b : positive) : float :=
  let '(mz, ez, lz) := SFdiv_core_binary prec emax (Zpos a) 0 (Zpos b) 0 in
  SF2Prim (binary_round_aux prec emax neg mz ez lz).

Definition of_ratio (a : Z) (b : positive) : float :=
  match a with
  | Z0 => zero
  | Zpos p => nearest false p b
  | Zneg p => nearest true p b
  end.

Definition finite_or_overflow (x : float) : Res float :=
  if is_infinity x then Raise OverflowError else Ok x.

(** [a / b] on two integers: the correctly rounded quotient. *)
Definition truediv (a b : Z) : Res float :=
  match b with
  | Z0 => Raise ZeroDivisionError
  | Zpos q => finite_or_overflow (of_ratio a q)
  | Zneg q => finite_or_overflow (of_ratio (- a) q)
  end.

(** [float(n)], and [x * n] for a float [x] and an integer [n]. *)
Definition of_int (n : Z) : Res float := finite_or_overflow (of_ratio n 1).

Definition mul_int (x : float) (n : Z) : Res float :=
  match of_int n with
  | Ok f => Ok (x * f)%float
  | Raise e => Raise e
  end.

(** [int(x)]: truncation toward zero. *)
Definition to_int (x : float) : Res Z :=
  match Prim2SF x with
  | S754_nan => Raise ValueError
  | S754_infinity _ => Raise OverflowError
  | S754_zero _ => Ok 0
  | S754_finite s m e =>
    let a := match e with
             | Zneg k => Z.shiftr (Zpos m) (Zpos k)
             | _ => Z.shiftl (Zpos m) e
             end in
    Ok (if s then - a else a)
  end.

(** The integer nearest to [a / b] for [b > 0], ties to the even one. *)
Definition div_half_even (a b : Z) : Z :=
  let q := a / b in
  let r := a mod b in
  match 2 * r ?= b with
  | Lt => q
  | Gt => q + 1
  | Eq => if Z.even q then q else q + 1
  end.

(** [round(x, 1)]: the exact value of [x] is rounded to one decimal
    (half to even) and the decimal is read back as a float; a value
    that is not finite is returned as it is. *)
Definition round1 (x : float) : float :=
  match Prim2SF x with
  | S754_finite s m e =>
    let tenths := match e with
                  | Zneg k => div_half_even (10 * Zpos m) (2 ^ Zpos k)
                  | _ => 10 * Zpos m * 2 ^ e
                  end in
    match tenths with
    | Zpos t => nearest s t 10
    | _ => if s then neg_zero else zero
    end
  | _ => x
  end.

End PyFloat.

(* ===================================================================== *)
(** * [app/utils/database.py]: the history and favourites tables            *)
(* ===================================================================== *)

Module database.
Import Py.
Local Open Scope Z_scope.

(** The columns of [favorites]. *)
Record Favorite : Set := {
  id : Z;
  book_index : Z;
  chapter_index : Z;
  verse_index : Z;
  verse_text : str;
  reference : str;
  note : option str;
  created_at : str
}.

(** The single row of [reading_stats]. *)
Record ReadingStats : Set := {
  total_verses_read : Z;
  total_time_reading : Z
}.

(** The contents of the database file.  A row of [chapters_read] is its
    pair [(book_abbrev, chapter_index)]; [favorites_seq] is the counter
    behind [AUTOINCREMENT]. *)
Record Database : Set := {
  chapters_read : list (str * Z);
  reading_stats : ReadingStats;
  favorites : list Favorite;
  favorites_seq : Z
}.

(** What [_init_database] leaves in a new file. *)
Definition _init_database : Database := {|
  chapters_read := [];
  reading_stats := {| total_verses_read := 0; total_time_reading := 0 |};
  favorites := [];
  favorites_seq := 0
|}.

(** [with self._get_connection() as conn]: commit when the body returns,
    roll back and raise again when it raises. *)
Definition _get_connection (body : Database -> Res Database) (self : Database)
    : Res unit * Database :=
  match body self with
  | Ok self' => (Ok tt, self')
  | Raise e => (Raise e, self)
  end.

Definition same_chapter (book_abbrev : str) (chapter_index : Z) (row : str * Z) : bool :=
  str_eqb (fst row) book_abbrev && (snd row =? chapter_index).

(** [INSERT OR IGNORE] under [UNIQUE(book_abbrev, chapter_index)] *)
Definition mark_chapter_read (self : Database) (book_abbrev : str) (chapter_index : Z)
    : Database :=
  snd (_get_connection (fun d =>
    if existsb (same_chapter book_abbrev chapter_index) (chapters_read d)
    then Ok d
    else Ok {| chapters_read := chapters_read d ++ [(book_abbrev, chapter_index)];
               reading_stats := reading_stats d;
               favorites := favorites d;
               favorites_seq := favorites_seq d |}) self).

Definition is_chapter_read (self : Database) (book_abbrev : str) (chapter_index : Z) : bool :=
  existsb (same_chapter book_abbrev chapter_index) (chapters_read self).

Definition get_total_chapters_read (self : Database) : Z :=
  len (chapters_read self).

Definition get_reading_stats (self : Database) : ReadingStats :=
  reading_stats self.

Definition increment_verses_read (self : Database) (count : Z) : Database :=
  {| chapters_read := chapters_read self;
     reading_stats :=
       {| total_verses_read := total_verses_read (reading_stats self) + count;
          total_time_reading := total_time_reading (reading_stats self) |};
     favorites := favorites self;
     favorites_seq := favorites_seq self |}.

Definition add_reading_time (self : Database) (seconds : Z) : Database :=
  {| chapters_read := chapters_read self;
     reading_stats :=
       {| total_verses_read := total_verses_read (reading_stats self);
          total_time_reading := total_time_reading (reading_stats self) + seconds |};
     favorites := favorites self;
     favorites_seq := favorites_seq self |}.

Definition clear_history (self : Database) : Database :=
  {| chapters_read := [];
     reading_stats := {| total_verses_read := 0; total_time_reading := 0 |};
     favorites := favorites self;
     favorites_seq := favorites_seq self |}.

Definition same_position (b c v : Z) (row : Favorite) : bool :=
  (book_index row =? b) && (chapter_index row =? c) && (verse_index row =? v).

(** [INSERT INTO favorites ...] under
    [UNIQUE(book_index, chapter_index, verse_index)]; [now] is what
    [CURRENT_TIMESTAMP] gives for the new row. *)
Definition insert_favorite (now : str) (b c v : Z) (text ref : str)
    (note : option str) (d : Database) : Res Database :=
  if existsb (same_position b c v) (favorites d) then Raise IntegrityError
  else Ok {| chapters_read := chapters_read d;
             reading_stats := reading_stats d;
             favorites := favorites d ++
               [ {| id := favorites_seq d + 1;
                    book_index := b; chapter_index := c; verse_index := v;
                    verse_text := text; reference := ref;
                    note := note; created_at := now |} ];
             favorites_seq := favorites_seq d + 1 |}.

(** The result of the call (or the exception that leaves it) and the
    database afterwards. *)
Definition add_favorite (now : str) (self : Database)
    (book_index chapter_index verse_index : Z) (verse_text reference : str)
    (note : option str) : Res bool * Database :=
  match _get_connection
          (insert_favorite now book_index chapter_index verse_index
                           verse_text reference note) self with
  | (Ok _, self') => (Ok true, self')
  | (Raise IntegrityError, self') => (Ok false, self')
  | (Raise e, self') => (Raise e, self')
  end.

Definition is_favorite (self : Database) (book_index chapter_index verse_index : Z) : bool :=
  existsb (same_position book_index chapter_index verse_index) (favorites self).

Definition get_favorites_count (self : Database) : Z :=
  len (favorites self).

Definition set_favorites (self : Database) (rows : list Favorite) : Database :=
  {| chapters_read := chapters_read self;
     reading_stats := reading_stats self;
     favorites := rows;
     favorites_seq := favorites_seq self |}.

(** [DELETE FROM favorites WHERE ...]; the result is [cursor.rowcount > 0]. *)
Definition remove_favorite (self : Database) (book_index chapter_index verse_index : Z)
    : bool * Database :=
  let hit := same_position book_index chapter_index verse_index in
  let rowcount := len (filter hit (favorites self)) in
  (rowcount >? 0,
   set_favorites self (filter (fun row => negb (hit row)) (favorites self))).

Definition set_note (note : str) (row : Favorite) : Favorite :=
  {| id := id row;
     book_index := book_index row;
     chapter_index := chapter_index row;
     verse_index := verse_index row;
     verse_text := verse_text row;
     reference := reference row;
     note := Some note;
     created_at := created_at row |}.

(** [UPDATE favorites SET note = ? WHERE ...]; the result is
    [cursor.rowcount > 0]. *)
Definition update_favorite_note (self : Database)
    (book_index chapter_index verse_index : Z) (note : str) : bool * Database :=
  let hit := same_position book_index chapter_index verse_index in
  let rowcount := len (filter hit (favorites self)) in
  (rowcount >? 0,
   set_favorites self
     (map (fun row => if hit row then set_note note row else row) (favorites self))).

(** [ORDER BY chapter_index]: ascending order of integers. *)
Fixpoint insert_ascending (x : Z) (l : list Z) : list Z :=
  match l with
  | [] => [x]
  | y :: l' => if x <=? y then x :: l else y :: insert_ascending x l'
  end.

Definition order_ascending (l : list Z) : list Z :=
  fold_right insert_ascending [] l.

(** [SELECT chapter_index FROM chapters_read WHERE book_abbrev = ?
     ORDER BY chapter_index] *)
Definition get_chapters_read_for_book (self : Database) (book_abbrev : str) : list Z :=
  order_ascending
    (map snd (filter (fun row => str_eqb (fst row) book_abbrev) (chapters_read self))).

End database.

(* ===================================================================== *)
(** * [app/utils/history.py]                                                *)
(* ===================================================================== *)

Module history.
Import Py.
Import database.
Local Open Scope Z_scope.

Record History : Set := {
  db : Database;
  _session_start : option float
}.

(** The dictionary [get_stats] returns. *)
Record Stats : Set := {
  stat_chapters_read : Z;
  total_chapters : Z;
  stat_total_verses_read : Z;
  total_time_hours : Z;
  total_time_minutes : Z;
  total_time_seconds : Z;
  progress_percent : float
}.

Definition TOTAL_CHAPTERS : Z := 1189.

(** [History(config_dir, database)] *)
Definition __init__ (database : Database) : History :=
  {| db := database; _session_start := None |}.

(** In every method [now] is the value [time.time()] returns in it. *)
Definition start_session (now : float) (self : History) : History :=
  {| db := db self; _session_start := Some now |}.

Definition end_session (now : float) (self : History) : Res History :=
  match _session_start self with
  | Some start =>
    match PyFloat.to_int (now - start)%float with
    | Ok elapsed =>
      Ok {| db := add_reading_time (db self) elapsed; _session_start := None |}
    | Raise e => Raise e
    end
  | None => Ok self
  end.

Definition is_session_active (self : History) : bool :=
  match _session_start self with
  | Some _ => true
  | None => false
  end.

Definition mark_chapter_read (self : History) (book_abbrev : str) (chapter_index : Z)
    : History :=
  {| db := database.mark_chapter_read (db self) book_abbrev chapter_index;
     _session_start := _session_start self |}.

Definition increment_verses (self : History) (count : Z) : History :=
  {| db := increment_verses_read (db self) count;
     _session_start := _session_start self |}.

(** [round(chapters_read / self.TOTAL_CHAPTERS * 100, 1)] *)
Definition percent (chapters_read : Z) : Res float :=
  match PyFloat.truediv chapters_read TOTAL_CHAPTERS with
  | Ok q =>
    match PyFloat.mul_int q 100 with
    | Ok p => Ok (PyFloat.round1 p)
    | Raise e => Raise e
    end
  | Raise e => Raise e
  end.

Definition get_stats (now : float) (self : History) : Res Stats :=
  let stats := get_reading_stats (db self) in
  let total_time := total_time_reading stats in
  match
    match _session_start self with
    | Some start =>
      match PyFloat.to_int (now - start)%float with
      | Ok elapsed => Ok (total_time + elapsed)
      | Raise e => Raise e
      end
    | None => Ok total_time
    end
  with
  | Ok total_time =>
    let hours := total_time / 3600 in
    let minutes := (total_time mod 3600) / 60 in
    let chapters_read := get_total_chapters_read (db self) in
    match percent chapters_read with
    | Ok progress =>
      Ok {| stat_chapters_read := chapters_read;
            total_chapters := TOTAL_CHAPTERS;
            stat_total_verses_read := total_verses_read stats;
            total_time_hours := hours;
            total_time_minutes := minutes;
            total_time_seconds := total_time;
            progress_percent := progress |}
    | Raise e => Raise e
    end
  | Raise e => Raise e
  end.

Definition clear_history (self : History) : History :=
  {| db := database.clear_history (db self); _session_start := None |}.

Definition is_chapter_read (self : History) (book_abbrev : str) (chapter_index : Z) : bool :=
  database.is_chapter_read (db self) book_abbrev chapter_index.

Definition get_chapters_read_for_book (self : History) (book_abbrev : str) : list Z :=
  database.get_chapters_read_for_book (db self) book_abbrev.

(** [load]: whether some chapter was read already. *)
Definition load (self : History) : bool :=
  get_total_chapters_read (db self) >? 0.

End history.

(* ===================================================================== *)
(** * Specification vocabulary                                              *)
(* ===================================================================== *)

Module re_spec.
Import Py Re.

(** The offsets in the text at which the matched pieces begin, when the
    first piece begins at [offset]. *)
Fixpoint match_starts (pcs : list piece) (offset : nat) : list nat :=
  match pcs with
  | [] => []
  | Kept _ :: pcs' => match_starts pcs' (S offset)
  | Matched m :: pcs' => offset :: match_starts pcs' (offset + length m)
  end.



(** The capture buffer after the characters [taken] were consumed. *)
Definition pushes (taken : str) (cur : option str) : option str :=
  fold_left (fun cur1 x => push x cur1) taken cur.

Section Occurrences.
Context `{UnicodeData}.

(** A non-empty string of decimal digits, what [\d+] captures. *)
Definition digits (g : str) : Prop :=
  g <> [] /\ forallb isdecimal g = true.

(** A numeral short enough for [int]. *)
Definition convertible (g : str) : bool := (length g <=? int_max_str_digits)%nat.

(** The groups of the first pattern of the list that matches. *)
Fixpoint first_match (pats : list regex) (s : str) : option (list str) :=
  match pats with
  | [] => None
  | p :: pats' =>
    match re_match p s with
    | Some groups => Some groups
    | None => first_match pats' s
    end
  end.

(** [m] is the query up to case, character by character. *)
Definition same_up_to_case (query m : str) : Prop :=
  Forall2 (fun q c => ieq q c = true) query m.


End Occurrences.

End re_spec.

Module bible_spec.
Import Py Re bible.
Local Open Scope Z_scope.

Definition in_range (i n : Z) : bool := (0 <=? i) && (i <? n).

(** The corpus read as plain data: the book, chapter and verse an index
    addresses, with nothing behind an index that is out of range. *)
Definition book_at (self : Bible) (b : Z) : option Book :=
  if in_range b (len (books self)) then nth_error (books self) (Z.to_nat b) else None.

Definition chapters_of (self : Bible) (b : Z) : list (list str) :=
  match book_at self b with
  | Some book => get_chapters book
  | None => []
  end.

Definition chapter_at (self : Bible) (b c : Z) : list str :=
  if in_range c (len (chapters_of self b))
  then nth (Z.to_nat c) (chapters_of self b) []
  else [].

Definition verse_at (self : Bible) (b c v : Z) : str :=
  if in_range v (len (chapter_at self b c))
  then nth (Z.to_nat v) (chapter_at self b c) []
  else [].

(** A position is valid when each index is in range for its level. *)
Definition valid_position (self : Bible) (b c v : Z) : Prop :=
  0 <= b < get_book_count self /\
  (exists n, get_chapter_count self b = Ok n /\ 0 <= c < n) /\
  (exists n, get_verse_count self b c = Ok n /\ 0 <= v < n).

(** The last verse of the last chapter of the last book. *)
Definition last_position (self : Bible) (b c v : Z) : Prop :=
  b = get_book_count self - 1 /\
  get_chapter_count self b = Ok (c + 1) /\
  get_verse_count self b c = Ok (v + 1).

(** Reading order on positions: by book, then chapter, then verse. *)
Definition reads_before (p q : Z * Z * Z) : Prop :=
  let '(b, c, v) := p in
  let '(b', c', v') := q in
  b < b' \/ (b = b' /\ (c < c' \/ (c = c' /\ v < v'))).

Definition entry_before (e1 e2 : Z * Z * Z * str) : Prop :=
  reads_before (fst e1) (fst e2).

(** A corpus without an empty book or an empty chapter. *)
Definition no_empty_part (self : Bible) : Prop :=
  Forall (fun book =>
            get_chapters book <> []
            /\ Forall (fun verses : list str => verses <> []) (get_chapters book))
         (books self).

(** Python's [enumerate], counting from [i]. *)
Fixpoint enumerate_from {A} (i : Z) (l : list A) : list (Z * A) :=
  match l with
  | [] => []
  | x :: l' => (i, x) :: enumerate_from (i + 1) l'
  end.

(** The verses of the corpus with their positions, in reading order:
    book by book, chapter by chapter, verse by verse. *)
Definition chapter_verses (b c : Z) (verses : list str) (i : Z)
    : list (Z * Z * Z * str) :=
  map (fun '(v, text) => (b, c, v, text)) (enumerate_from i verses).

Definition book_verses (b : Z) (chapters : list (list str)) (j : Z)
    : list (Z * Z * Z * str) :=
  flat_map (fun '(c, verses) => chapter_verses b c verses 0) (enumerate_from j chapters).

Definition corpus_verses (bs : list Book) (k : Z) : list (Z * Z * Z * str) :=
  flat_map (fun '(b, book) => book_verses b (get_chapters book) 0) (enumerate_from k bs).

Definition all_verses (self : Bible) : list (Z * Z * Z * str) :=
  corpus_verses (books self) 0.

Definition position_and_text (r : SearchResult) : Z * Z * Z * str :=
  (book_index r, chapter_index r, verse_index r, verse_text r).

Section Search.
Context `{UnicodeData}.

(** A verse matches when it contains the query; unless the search is
    case sensitive both are put in lower case first. *)
Definition verse_matches (query : str) (case_sensitive : bool) (text : str) : bool :=
  if case_sensitive then contains text query
  else contains (lower text) (lower query).

Definition hit (query : str) (case_sensitive : bool) (e : Z * Z * Z * str) : bool :=
  let '(_, _, _, text) := e in verse_matches query case_sensitive text.

Definition book_name_of (self : Bible) (b : Z) : str :=
  match book_at self b with
  | Some book => dict_get BOOK_NAMES (get_abbrev book) (upper (get_abbrev book))
  | None => []
  end.

Definition reference_of (self : Bible) (b c v : Z) : str :=
  book_name_of self b ++ u " " ++ str_of_int (c + 1) ++ u ":" ++ str_of_int (v + 1).

(** The dictionary [search] builds for a matching verse. *)
Definition result_of (self : Bible) (query : str) (case_sensitive : bool)
    (e : Z * Z * Z * str) : SearchResult :=
  let '(b, c, v, text) := e in
  {| book_index := b; chapter_index := c; verse_index := v;
     verse_text := text;
     reference := reference_of self b c v;
     highlight := Some (if case_sensitive
                        then replace text query (mark query)
                        else sub_literal query mark text) |}.

(** What a reference resolves to once it is parsed into a book name, a
    1-based chapter number and, when given, a 1-based verse number: the
    0-based position, when the book is found and the numbers are in
    range; without a verse number, the first verse of the chapter. *)
Definition found_at (self : Bible) (b c v : Z) : SearchResult :=
  {| book_index := b; chapter_index := c; verse_index := v;
     verse_text := verse_at self b c v;
     reference := reference_of self b c v;
     highlight := None |}.

Definition resolve (self : Bible) (book_name : str) (chapter : Z) (verse : option Z)
    : option SearchResult :=
  match _find_book_index self book_name with
  | None => None
  | Some b =>
    if in_range (chapter - 1) (len (chapters_of self b)) then
      match verse with
      | Some verse =>
        if in_range (verse - 1) (len (chapter_at self b (chapter - 1)))
        then Some (found_at self b (chapter - 1) (verse - 1))
        else None
      | None => Some (found_at self b (chapter - 1) 0)
      end
    else None
  end.

End Search.

End bible_spec.


Module history_spec.
Import Py history.
Local Open Scope Z_scope.



End history_spec.

Module store_spec.
Import Py database.
Local Open Scope Z_scope.

Definition position (row : Favorite) : Z * Z * Z :=
  (book_index row, chapter_index row, verse_index row).

(** The databases that the operations produce from a new file. *)
Inductive reachable : Database -> Prop :=
| reach_init : reachable _init_database
| reach_mark d a c :
    reachable d -> reachable (mark_chapter_read d a c)
| reach_verses d n :
    reachable d -> reachable (increment_verses_read d n)
| reach_time d n :
    reachable d -> reachable (add_reading_time d n)
| reach_clear d :
    reachable d -> reachable (clear_history d)
| reach_add d now b c v text ref note :
    reachable d -> reachable (snd (add_favorite now d b c v text ref note))
| reach_remove d b c v :
    reachable d -> reachable (snd (remove_favorite d b c v))
| reach_note d b c v note :
    reachable d -> reachable (snd (update_favorite_note d b c v note)).

(** No chapter is recorded twice, no two favourites share a position or
    an id, and every id was handed out by the counter. *)
Definition consistent (d : Database) : Prop :=
  NoDup (chapters_read d)
  /\ NoDup (map position (favorites d))
  /\ NoDup (map id (favorites d))
  /\ 0 <= favorites_seq d
  /\ Forall (fun row => 1 <= id row <= favorites_seq d) (favorites d).

End store_spec.

Module text_spec.
Import Py Re bible.
Local Open Scope Z_scope.

(** The code points of the digits of a decimal numeral. *)
Fixpoint digit_codes (d : Decimal.uint) : str :=
  match d with
  | Decimal.Nil => []
  | Decimal.D0 d' => 48%N :: digit_codes d'
  | Decimal.D1 d' => 49%N :: digit_codes d'
  | Decimal.D2 d' => 50%N :: digit_codes d'
  | Decimal.D3 d' => 51%N :: digit_codes d'
  | Decimal.D4 d' => 52%N :: digit_codes d'
  | Decimal.D5 d' => 53%N :: digit_codes d'
  | Decimal.D6 d' => 54%N :: digit_codes d'
  | Decimal.D7 d' => 55%N :: digit_codes d'
  | Decimal.D8 d' => 56%N :: digit_codes d'
  | Decimal.D9 d' => 57%N :: digit_codes d'
  end.

(** The value of a decimal numeral read from the left, starting from
    [acc]. *)
Fixpoint numeral_value (d : Decimal.uint) (acc : Z) : Z :=
  match d with
  | Decimal.Nil => acc
  | Decimal.D0 d' => numeral_value d' (10 * acc)
  | Decimal.D1 d' => numeral_value d' (10 * acc + 1)
  | Decimal.D2 d' => numeral_value d' (10 * acc + 2)
  | Decimal.D3 d' => numeral_value d' (10 * acc + 3)
  | Decimal.D4 d' => numeral_value d' (10 * acc + 4)
  | Decimal.D5 d' => numeral_value d' (10 * acc + 5)
  | Decimal.D6 d' => numeral_value d' (10 * acc + 6)
  | Decimal.D7 d' => numeral_value d' (10 * acc + 7)
  | Decimal.D8 d' => numeral_value d' (10 * acc + 8)
  | Decimal.D9 d' => numeral_value d' (10 * acc + 9)
  end.

Definition ascii_digit (x : char) : bool := between 48 57 x.

Section Names.
Context `{UnicodeData}.

Definition word_char (x : char) : bool := cls_match Word x.

(** A repetition of the class [c] cannot go on into [rest]. *)
Definition stops (c : cls) (rest : str) : bool :=
  match rest with
  | [] => true
  | x :: _ => negb (cls_match c x)
  end.

Fixpoint leading_spaces (s : str) : str :=
  match s with
  | [] => []
  | c :: s' => if isspace c then c :: leading_spaces s' else []
  end.

(** A book name as the first group of the reference patterns reads it:
    an optional digit, blanks, then the word. *)
Definition name_parts (name : str) : str * str * str :=
  match name with
  | [] => ([], [], [])
  | d :: rest =>
    if isdecimal d then ([d], leading_spaces rest, lstrip rest)
    else ([], leading_spaces name, lstrip name)
  end.

(** The name does not begin with a blank, and its word is not empty
    and made of word characters only. *)
Definition name_shape (name : str) : bool :=
  let '(lead, blanks, word) := name_parts name in
  match name with
  | [] => false
  | x :: _ => negb (isspace x)
  end
  && match word with [] => false | _ :: _ => true end
  && forallb word_char word.

(** What the text of a reference asks of an entry [(key, full)] of
    [BOOK_NAMES]: the key is in lower case and names [full]; [full] has
    the shape of a book name; and looking [full] up again leads to no
    other key, neither as an abbreviation nor as a full name. *)
Definition looked_up (full : str) : str := strip (lower (lower (strip full))).

Definition entry_resolves (e : str * str) : bool :=
  let '(key, full) := e in
  str_eqb (lower key) key
  && str_eqb (dict_get BOOK_NAMES key (upper key)) full
  && name_shape full
  && str_eqb (lower full) (looked_up full)
  && forallb (fun e' : str * str =>
                let '(key', full') := e' in
                (negb (str_eqb (lower full') (looked_up full)) || str_eqb key' key)
                && (negb (str_eqb key' (looked_up full)) || str_eqb key' key))
             BOOK_NAMES.

End Names.

(** A corpus whose books carry pairwise different abbreviations, all of
    them keys of [BOOK_NAMES]. *)
Definition known_books (self : Bible) : Prop :=
  NoDup (map get_abbrev (books self))
  /\ Forall (fun book => exists full, In (get_abbrev book, full) BOOK_NAMES)
            (books self).

End text_spec.

(* ===================================================================== *)
(** * Sample data                                                          *)
(* ===================================================================== *)

Module samples.
Import Py.

(** A database table that knows nothing beyond code point 255. *)
Definition latin1_only : UnicodeData := {|
  ucd_isspace := fun _ => false;
  ucd_isdecimal := fun _ => false;
  ucd_decimal := fun _ => 0%Z;
  ucd_isalnum := fun _ => false;
  ucd_lower := fun s => s;
  ucd_upper := fun s => s;
  ucd_ieq := N.eqb
|}.

Definition book (a : string) (cs : list (list string)) : bible.Book :=
  {| bible.abbrev := Some (u a);
     bible.chapters := Some (map (map u) cs);
     bible.other_keys := 0 |}.

(** The two-book corpus of the test suite. *)
Definition two_books : bible.Bible := {|
  bible.books := [
    book "gn" [
      ["No princípio, Deus criou os céus e a terra."; "A terra era sem forma e vazia."];
      ["Assim foram concluídos os céus e a terra."; "E Deus abençoou o sétimo dia."]
    ];
    book "jo" [
      ["No princípio era o Verbo."; "E o Verbo estava com Deus."];
      ["No terceiro dia, houve uma festa."; "E estava ali a mãe de Jesus."];
      ["Porque Deus amou o mundo."; "Para que todo o que nele crê não pereça."]
    ]
  ];
  bible.version := u "test"
|}%string.

(** A history whose session was opened at second 100. *)
Definition reading_since_100 : history.History := {|
  history.db := database._init_database;
  history._session_start := Some 100%float
|}.

(** A corpus whose only book is "jo", with three chapters; the third
    has sixteen verses. *)
Definition john_three : bible.Bible := {|
  bible.books := [
    {| bible.abbrev := Some (u "jo");
       bible.chapters := Some [[u "a"]; [u "b"]; repeat (u "c") 16];
       bible.other_keys := 0 |}
  ];
  bible.version := u "test"
|}.

(** The hits of a case-insensitive search for "deus" in [two_books]. *)
Definition deus_hits : list bible.SearchResult :=
  match bible.search (H := latin1_only) two_books (u "deus") 5 false with
  | Ok results => results
  | Raise _ => []
  end.

Definition no_result : bible.SearchResult := {|
  bible.book_index := 0; bible.chapter_index := 0; bible.verse_index := 0;
  bible.verse_text := []; bible.reference := []; bible.highlight := None
|}.

Definition first_deus_hit : bible.SearchResult := hd no_result deus_hits.

(** A history in which chapters 0 to 1188 of one book are marked read. *)
Definition all_read : history.History := {|
  history.db := {|
    database.chapters_read := map (fun i => (u "gn", Z.of_nat i)) (seq 0 1189);
    database.reading_stats := {| database.total_verses_read := 0;
                                 database.total_time_reading := 0 |};
    database.favorites := [];
    database.favorites_seq := 0
  |};
  history._session_start := None
|}.

(** The database after one favourite was stored at position (0, 0, 0). *)
Definition one_favorite : database.Database :=
  snd (database.add_favorite (u "2024-01-01 00:00:00") database._init_database
         0 0 0 (u "Texto") (u "Ref") None).

(** A history with one hour, two minutes and five seconds of reading
    and no open session. *)
Definition read_for_3725 : history.History :=
  history.__init__ (database.add_reading_time database._init_database 3725).

(** What the reference "João 3:16" resolves to in [john_three]. *)
Definition john_3_16 : bible.SearchResult :=
  match bible.search_by_reference (H := latin1_only) john_three (u "João 3:16") with
  | Ok (Some r) => r
  | _ => no_result
  end.

(** References with a numeral of 4301 digits, one more than [int]
    converts: as the chapter number and as the verse number. *)
Definition long_chapter_reference : str :=
  u "João " ++ repeat 57%N 4301 ++ u ":1".

Definition long_verse_reference : str :=
  u "João 1:" ++ repeat 57%N 4301.

End samples.
(* ===================================================================== *)
(** * Properties of the corpus accessors and of the navigator               *)
(* ===================================================================== *)

Module bible_nav.
Import Py Re bible bible_spec.
Local Open Scope Z_scope.

Ltac zcases :=
  repeat match goal with
  | |- context [?a >? ?b] => rewrite (Z.gtb_ltb a b)
  | |- context [?a >=? ?b] => rewrite (Z.geb_leb a b)
  | |- context [?a <=? ?b] => destruct (Z.leb_spec a b)
  | |- context [?a <? ?b] => destruct (Z.ltb_spec a b)
  end; cbn [andb orb negb].

Lemma len_nonneg {A} (l : list A) : 0 <= len l.
Proof. unfold len. lia. Qed.

Lemma getitem_nth {A} (l : list A) (i : Z) (d : A) :
  0 <= i < len l -> getitem l i = Ok (nth (Z.to_nat i) l d).
Proof.
  intros Hi. unfold getitem.
  destruct (Z.ltb_spec i 0); [lia |].
  destruct (Z.ltb_spec i 0); [lia |].
  destruct (nth_error l (Z.to_nat i)) eqn:E.
  - now rewrite (nth_error_nth _ _ d E).
  - apply nth_error_None in E. unfold len in Hi. lia.
Qed.

Lemma getitem_nth_error {A} (l : list A) (i : Z) :
  0 <= i < len l -> exists x, nth_error l (Z.to_nat i) = Some x /\ getitem l i = Ok x.
Proof.
  intros Hi. unfold getitem.
  destruct (Z.ltb_spec i 0); [lia |].
  destruct (Z.ltb_spec i 0); [lia |].
  destruct (nth_error l (Z.to_nat i)) eqn:E.
  - eauto.
  - apply nth_error_None in E. unfold len in Hi. lia.
Qed.

Lemma nth_nil_guard {A} (g : bool) (n : nat) :
  (if g then nth n (@nil (list A)) [] else []) = [].
Proof. destruct g, n; reflexivity. Qed.

Section Accessors.
Variable self : Bible.

Lemma get_book_eq b : get_book self b = Ok (book_at self b).
Proof.
  unfold get_book, book_at, in_range.
  destruct ((0 <=? b) && (b <? len (books self))) eqn:E; [| reflexivity].
  apply andb_true_iff in E as [E1 E2].
  apply Z.leb_le in E1. apply Z.ltb_lt in E2.
  destruct (getitem_nth_error (books self) b) as (x & Hx & ->); [lia |].
  now rewrite Hx.
Qed.

Lemma get_chapter_count_eq b :
  get_chapter_count self b = Ok (len (chapters_of self b)).
Proof.
  unfold get_chapter_count, chapters_of. rewrite get_book_eq. cbn.
  destruct (book_at self b) as [book |]; [| reflexivity].
  unfold book_truth, get_chapters.
  destruct (abbrev book), (chapters book), (other_keys book); reflexivity.
Qed.

Lemma get_chapter_eq b c : get_chapter self b c = Ok (chapter_at self b c).
Proof.
  unfold get_chapter, chapter_at, chapters_of, in_range. rewrite get_book_eq. cbn.
  destruct (book_at self b) as [book |].
  - assert (Hin : forall cs : list (list str),
        (if (0 <=? c) && (c <? len cs) then getitem cs c else ret [])
        = Ok (if (0 <=? c) && (c <? len cs) then nth (Z.to_nat c) cs [] else [])).
    { intros cs. destruct ((0 <=? c) && (c <? len cs)) eqn:E; [| reflexivity].
      apply andb_true_iff in E as [E1 E2].
      apply Z.leb_le in E1. apply Z.ltb_lt in E2.
      apply getitem_nth. lia. }
    destruct (book_truth book) eqn:T; [apply Hin |].
    unfold book_truth in T. unfold get_chapters.
    destruct (abbrev book), (chapters book), (other_keys book); try discriminate.
    now rewrite nth_nil_guard.
  - now rewrite nth_nil_guard.
Qed.

Lemma get_verse_count_eq b c :
  get_verse_count self b c = Ok (len (chapter_at self b c)).
Proof. unfold get_verse_count. now rewrite get_chapter_eq. Qed.

Lemma get_verse_eq b c v : get_verse self b c v = Ok (verse_at self b c v).
Proof.
  unfold get_verse, verse_at, in_range. rewrite get_chapter_eq. cbn.
  destruct ((0 <=? v) && (v <? len (chapter_at self b c))) eqn:E; [| reflexivity].
  apply andb_true_iff in E as [E1 E2].
  apply Z.leb_le in E1. apply Z.ltb_lt in E2.
  apply getitem_nth. lia.
Qed.

Lemma book_at_out b : ~ 0 <= b < len (books self) -> book_at self b = None.
Proof.
  intros Hb. unfold book_at, in_range.
  destruct (Z.leb_spec 0 b), (Z.ltb_spec b (len (books self))); cbn; try reflexivity; lia.
Qed.

Lemma chapters_of_out b : ~ 0 <= b < len (books self) -> chapters_of self b = [].
Proof. intros Hb. unfold chapters_of. now rewrite book_at_out. Qed.

Lemma chapter_at_out b c :
  ~ 0 <= b < len (books self) \/ ~ 0 <= c < len (chapters_of self b) ->
  chapter_at self b c = [].
Proof.
  intros [Hb | Hc]; unfold chapter_at, in_range.
  - rewrite chapters_of_out by assumption. apply nth_nil_guard.
  - destruct (Z.leb_spec 0 c), (Z.ltb_spec c (len (chapters_of self b)));
      cbn; try reflexivity; lia.
Qed.

Lemma verse_at_out b c v :
  ~ 0 <= b < len (books self) \/ ~ 0 <= c < len (chapters_of self b)
  \/ ~ 0 <= v < len (chapter_at self b c) ->
  verse_at self b c v = [].
Proof.
  intros Hout. unfold verse_at, in_range.
  destruct Hout as [Hb | [Hc | Hv]].
  - rewrite chapter_at_out by auto. apply nth_nil_guard.
  - rewrite chapter_at_out by auto. apply nth_nil_guard.
  - destruct (Z.leb_spec 0 v), (Z.ltb_spec v (len (chapter_at self b c)));
      cbn; try reflexivity; lia.
Qed.

(** C10: every accessor returns for arbitrary integer indices, and
    returns its empty value as soon as an index is out of range: [None]
    for the book, the empty list for the chapter, the empty string for
    the verse and zero for the two counts. *)
Theorem accessors_total (b c v : Z) :
  (returns (get_book self b) /\ returns (get_chapter_count self b)
   /\ returns (get_chapter self b c) /\ returns (get_verse self b c v)
   /\ returns (get_verse_count self b c))
  /\ (~ 0 <= b < get_book_count self ->
        get_book self b = Ok None /\ get_chapter_count self b = Ok 0
        /\ get_chapter self b c = Ok [] /\ get_verse self b c v = Ok []
        /\ get_verse_count self b c = Ok 0)
  /\ (forall n, get_chapter_count self b = Ok n -> ~ 0 <= c < n ->
        get_chapter self b c = Ok [] /\ get_verse self b c v = Ok []
        /\ get_verse_count self b c = Ok 0)
  /\ (forall n, get_verse_count self b c = Ok n -> ~ 0 <= v < n ->
        get_verse self b c v = Ok []).
Proof.
  unfold returns, get_book_count.
  rewrite get_book_eq, get_chapter_count_eq, get_chapter_eq, get_verse_eq,
    get_verse_count_eq.
  repeat split; eauto.
  - f_equal. now apply book_at_out.
  - now rewrite chapters_of_out.
  - f_equal. apply chapter_at_out. auto.
  - f_equal. apply verse_at_out. auto.
  - rewrite chapter_at_out; auto.
  - f_equal. apply chapter_at_out. right. congruence.
  - f_equal. apply verse_at_out. right. left. congruence.
  - rewrite chapter_at_out; [reflexivity |]. right. congruence.
  - intros n Hn Hv. f_equal. injection Hn as <-. apply verse_at_out. auto.
Qed.

Lemma valid_position_bounds b c v :
  valid_position self b c v ->
  0 <= b < len (books self)
  /\ 0 <= c < len (chapters_of self b)
  /\ 0 <= v < len (chapter_at self b c).
Proof.
  intros (Hb & (n & Hn & Hc) & (m & Hm & Hv)).
  rewrite get_chapter_count_eq in Hn. rewrite get_verse_count_eq in Hm.
  injection Hn as <-. injection Hm as <-. auto.
Qed.

Lemma last_position_bounds b c v :
  last_position self b c v <->
  b = len (books self) - 1
  /\ len (chapters_of self b) = c + 1
  /\ len (chapter_at self b c) = v + 1.
Proof.
  unfold last_position, get_book_count.
  rewrite get_chapter_count_eq, get_verse_count_eq.
  split; intros (Hb & Hc & Hv); repeat split; congruence.
Qed.

(** C2: from a valid position other than the last verse of the corpus,
    the previous position of the next position is the position itself,
    and neither call reports a boundary. *)
Theorem previous_of_next (b c v : Z) :
  valid_position self b c v ->
  ~ last_position self b c v ->
  exists b' c' v',
    get_next_position self b c v = Ok (b', c', v', false)
    /\ get_previous_position self b' c' v' = Ok (b, c, v, false).
Proof.
  intros Hvalid Hlast.
  apply valid_position_bounds in Hvalid as (Hb & Hc & Hv).
  rewrite last_position_bounds in Hlast.
  unfold get_next_position.
  rewrite get_verse_count_eq; cbn [bind ret].
  destruct (Z.ltb_spec (v + 1) (len (chapter_at self b c))) as [Hnv | Hnv].
  { exists b, c, (v + 1). split; [reflexivity |].
    unfold get_previous_position.
    destruct (Z.gtb_spec (v + 1) 0); [| lia].
    replace (v + 1 - 1) with v by lia. reflexivity. }
  rewrite get_chapter_count_eq; cbn [bind ret].
  destruct (Z.ltb_spec (c + 1) (len (chapters_of self b))) as [Hnc | Hnc].
  { exists b, (c + 1), 0. split; [reflexivity |].
    unfold get_previous_position.
    destruct (Z.gtb_spec 0 0); [lia |].
    destruct (Z.gtb_spec (c + 1) 0); [| lia].
    replace (c + 1 - 1) with c by lia.
    rewrite get_verse_count_eq; cbn [bind ret].
    replace (Z.max 0 (len (chapter_at self b c) - 1)) with v by lia.
    reflexivity. }
  destruct (Z.ltb_spec (b + 1) (len (books self))) as [Hnb | Hnb].
  { exists (b + 1), 0, 0. split; [reflexivity |].
    unfold get_previous_position.
    destruct (Z.gtb_spec 0 0); [lia |].
    destruct (Z.gtb_spec (b + 1) 0); [| lia].
    replace (b + 1 - 1) with b by lia.
    rewrite get_chapter_count_eq; cbn [bind ret].
    replace (len (chapters_of self b) - 1) with c by lia.
    rewrite get_verse_count_eq; cbn [bind ret].
    replace (Z.max 0 c) with c by lia.
    replace (Z.max 0 (len (chapter_at self b c) - 1)) with v by lia.
    reflexivity. }
  exfalso. apply Hlast. lia.
Qed.

(** C3: at the last verse of the last chapter of the last book the next
    position is the same triple with the end flag set, and asking again
    from the triple returned gives the same answer. *)
Theorem next_at_end (b c v : Z) :
  last_position self b c v ->
  get_next_position self b c v = Ok (b, c, v, true)
  /\ forall b' c' v' is_end,
       get_next_position self b c v = Ok (b', c', v', is_end) ->
       get_next_position self b' c' v' = Ok (b', c', v', true).
Proof.
  intros Hlast.
  assert (Hend : get_next_position self b c v = Ok (b, c, v, true)).
  { apply last_position_bounds in Hlast as (Hb & Hc & Hv).
    unfold get_next_position.
    rewrite get_verse_count_eq; cbn [bind ret].
    destruct (Z.ltb_spec (v + 1) (len (chapter_at self b c))); [lia |].
    rewrite get_chapter_count_eq; cbn [bind ret].
    destruct (Z.ltb_spec (c + 1) (len (chapters_of self b))); [lia |].
    destruct (Z.ltb_spec (b + 1) (len (books self))); [lia |].
    reflexivity. }
  split; [exact Hend |].
  intros b' c' v' is_end Hnext.
  rewrite Hend in Hnext. injection Hnext as <- <- <- <-. exact Hend.
Qed.

End Accessors.

End bible_nav.

(* ===================================================================== *)
(** * Properties of the session aggregator                                  *)
(* ===================================================================== *)

Module history_props.
Import Py database history history_spec.
Local Open Scope Z_scope.

(** C1, as stated, fails: with a session open since second 100, a call
    of [start_session] at second 160 replaces the recorded start, and the
    total reported at second 200 drops from 100 to 40 seconds. *)
Lemma start_session_not_noop :
  is_session_active samples.reading_since_100 = true
  /\ _session_start (start_session 160 samples.reading_since_100)
     <> _session_start samples.reading_since_100
  /\ (exists s, get_stats 200 samples.reading_since_100 = Ok s
                /\ total_time_seconds s = 100)
  /\ (exists s, get_stats 200 (start_session 160 samples.reading_since_100) = Ok s
                /\ total_time_seconds s = 40).
Proof.
  split; [reflexivity |]. split.
  - intros Heq.
    apply (f_equal (fun o => match o with
                             | Some x => PrimFloat.eqb x 100
                             | None => false
                             end)) in Heq.
    vm_compute in Heq. discriminate.
  - split; eexists; (split; [vm_compute; reflexivity | reflexivity]).
Qed.

(** C1, amended: [start_session] never raises and leaves the database
    alone, but it always records the current time as the session start,
    whatever the state before: the session is open afterwards, closing
    it at a later time credits the seconds elapsed since this call, and
    the statistics reported in the meantime count the time in progress
    from this call as well -- an earlier start is forgotten. *)
Theorem start_session_restarts (now later : float) (self : History) (elapsed : Z) :
  PyFloat.to_int (later - now)%float = Ok elapsed ->
  is_session_active (start_session now self) = true
  /\ db (start_session now self) = db self
  /\ end_session later (start_session now self)
     = Ok {| db := add_reading_time (db self) elapsed; _session_start := None |}
  /\ (forall progress,
        percent (get_total_chapters_read (db self)) = Ok progress ->
        let total := total_time_reading (reading_stats (db self)) + elapsed in
        get_stats later (start_session now self)
        = Ok {| stat_chapters_read := get_total_chapters_read (db self);
                total_chapters := 1189;
                stat_total_verses_read := total_verses_read (reading_stats (db self));
                total_time_hours := total / 3600;
                total_time_minutes := (total mod 3600) / 60;
                total_time_seconds := total;
                progress_percent := progress |})
  /\ (forall s, get_stats later (start_session now self) = Ok s ->
        total_time_seconds s
        = total_time_reading (reading_stats (db self)) + elapsed).
Proof.
  intros Helapsed. split; [reflexivity |]. split; [reflexivity |]. split; [| split].
  - unfold end_session, start_session. cbn [_session_start db].
    now rewrite Helapsed.
  - intros progress Hp total. unfold get_stats, start_session.
    cbn [_session_start db]. rewrite Helapsed, Hp. reflexivity.
  - intros s. unfold get_stats, start_session.
    cbn [_session_start db]. rewrite Helapsed.
    destruct (percent (get_total_chapters_read (db self))); [| discriminate].
    intros Hs. injection Hs as <-. reflexivity.
Qed.







End history_props.

(* ===================================================================== *)
(** * Properties of the favourites table                                    *)
(* ===================================================================== *)

Module favorites_props.
Import Py database.
Local Open Scope Z_scope.

Lemma same_position_refl b c v text ref note now i :
  same_position b c v
    {| id := i; book_index := b; chapter_index := c; verse_index := v;
       verse_text := text; reference := ref; note := note; created_at := now |}
  = true.
Proof. unfold same_position. cbn. now rewrite !Z.eqb_refl. Qed.

(** C9: adding a favourite at a position that already holds one returns
    [False] and leaves the table as it was; at a free position it
    returns [True] and stores one more row, at that position.  On a new
    database the first insertion at a position succeeds, the second at
    the same position is refused, and one favourite is stored. *)
Theorem add_favorite_once (now : str) (self : Database) (b c v : Z)
    (text ref : str) (note : option str) :
  (is_favorite self b c v = true ->
     add_favorite now self b c v text ref note = (Ok false, self))
  /\ (is_favorite self b c v = false ->
        exists self',
          add_favorite now self b c v text ref note = (Ok true, self')
          /\ get_favorites_count self' = get_favorites_count self + 1
          /\ is_favorite self' b c v = true)
  /\ (forall now2 text2 ref2 note2,
        let first := add_favorite now _init_database b c v text ref note in
        let second := add_favorite now2 (snd first) b c v text2 ref2 note2 in
        fst first = Ok true /\ fst second = Ok false
        /\ get_favorites_count (snd second) = 1).
Proof.
  split; [| split].
  - unfold add_favorite, _get_connection, insert_favorite, is_favorite.
    intros ->. reflexivity.
  - unfold add_favorite, _get_connection, insert_favorite, is_favorite.
    intros ->. eexists. split; [reflexivity |].
    unfold get_favorites_count, len. cbn [favorites].
    rewrite length_app, existsb_app. cbn [length existsb].
    rewrite same_position_refl. split; [lia |].
    now rewrite orb_true_r.
  - intros now2 text2 ref2 note2 first second.
    pose (row := {| id := 1; book_index := b; chapter_index := c;
                    verse_index := v; verse_text := text; reference := ref;
                    note := note; created_at := now |}).
    pose (db1 := {| chapters_read := [];
                    reading_stats := reading_stats _init_database;
                    favorites := [row]; favorites_seq := 1 |}).
    assert (Hfirst : first = (Ok true, db1)) by reflexivity.
    assert (Hsecond : second = (Ok false, db1)).
    { unfold second. rewrite Hfirst. cbn [snd].
      unfold add_favorite, _get_connection, insert_favorite.
      cbn [favorites db1 existsb]. unfold row.
      rewrite same_position_refl. reflexivity. }
    rewrite Hfirst, Hsecond. repeat split.
Qed.

End favorites_props.

(* ===================================================================== *)
(** * Properties of the substitution scan                                   *)
(* ===================================================================== *)

Module scan_props.
Import Py Re re_spec.

Section Scan.
Context `{UnicodeData}.


Lemma same_up_to_case_length query m :
  same_up_to_case query m -> length query = length m.
Proof. induction 1; cbn; congruence. Qed.





Lemma match_starts_lower_bound pcs offset a :
  In a (match_starts pcs offset) -> (offset <= a)%nat.
Proof.
  revert offset. induction pcs as [| [c | m] pcs IH]; intros offset Hin; cbn in Hin.
  - contradiction.
  - apply IH in Hin. lia.
  - destruct Hin as [<- | Hin]; [lia |]. apply IH in Hin. lia.
Qed.


End Scan.

End scan_props.

(* ===================================================================== *)
(** * Properties of the matcher                                             *)
(* ===================================================================== *)

Module match_props.
Import Py Re re_spec.

Lemma pushes_some taken buf : pushes taken (Some buf) = Some (rev taken ++ buf).
Proof.
  revert buf. induction taken as [| x taken IH]; intros buf; [reflexivity |].
  cbn. unfold pushes in IH. rewrite IH. cbn. now rewrite <- app_assoc.
Qed.

Lemma pushes_none taken : pushes taken None = None.
Proof. induction taken as [| x taken IH]; [reflexivity | exact IH]. Qed.

Section Inversion.
Context `{UnicodeData}.

(** What a successful run tells about the text an item consumed.  Each
    lemma hands the run on to the rest of the pattern. *)

Lemma greedy_inv c k s b cur r :
  greedy c k s b cur = Some r ->
  exists taken rest b',
    s = taken ++ rest
    /\ forallb (cls_match c) taken = true
    /\ k rest b' (pushes taken cur) = Some r.
Proof.
  revert b cur. induction s as [| x s IH]; intros b cur Hrun; cbn in Hrun.
  - exists [], [], b. auto.
  - destruct (cls_match c x) eqn:Hx.
    + destruct (greedy c k s false (push x cur)) as [r' |] eqn:Hmore.
      * injection Hrun as ->.
        destruct (IH _ _ Hmore) as (taken & rest & b' & -> & Hall & Hk).
        exists (x :: taken), rest, b'. cbn. rewrite Hx. auto.
      * exists [], (x :: s), b. auto.
    + exists [], (x :: s), b. auto.
Qed.

Lemma run_Bos_inv p s b cur caps r :
  run (Bos :: p) s b cur caps = Some r -> run p s b cur caps = Some r.
Proof. cbn. now destruct b. Qed.

Lemma run_One_inv c p s b cur caps r :
  run (One c :: p) s b cur caps = Some r ->
  exists x rest,
    s = x :: rest /\ cls_match c x = true
    /\ run p rest false (push x cur) caps = Some r.
Proof.
  cbn. destruct s as [| x s]; [discriminate |].
  destruct (cls_match c x) eqn:Hx; [| discriminate]. eauto.
Qed.

Lemma run_Opt_inv c p s b cur caps r :
  run (Opt c :: p) s b cur caps = Some r ->
  exists taken rest b',
    s = taken ++ rest /\ forallb (cls_match c) taken = true
    /\ run p rest b' (pushes taken cur) caps = Some r.
Proof.
  cbn. destruct s as [| x s].
  - intros Hrun. exists [], [], b. auto.
  - destruct (cls_match c x) eqn:Hx.
    + destruct (run p s false (push x cur) caps) as [r' |] eqn:Htake.
      * intros Hr. injection Hr as ->.
        exists [x], s, false. cbn. rewrite Hx. auto.
      * intros Hrun. exists [], (x :: s), b. auto.
    + intros Hrun. exists [], (x :: s), b. auto.
Qed.

Lemma run_Star_inv c p s b cur caps r :
  run (Star c :: p) s b cur caps = Some r ->
  exists taken rest b',
    s = taken ++ rest /\ forallb (cls_match c) taken = true
    /\ run p rest b' (pushes taken cur) caps = Some r.
Proof. cbn. apply greedy_inv. Qed.

Lemma run_Plus_inv c p s b cur caps r :
  run (Plus c :: p) s b cur caps = Some r ->
  exists taken rest b',
    s = taken ++ rest /\ taken <> [] /\ forallb (cls_match c) taken = true
    /\ run p rest b' (pushes taken cur) caps = Some r.
Proof.
  cbn. destruct s as [| x s]; [discriminate |].
  destruct (cls_match c x) eqn:Hx; [| discriminate].
  intros Hrun. apply greedy_inv in Hrun as (taken & rest & b' & -> & Hall & Hk).
  exists (x :: taken), rest, b'. cbn. rewrite Hx.
  repeat split; auto. discriminate.
Qed.

Lemma run_GOpen_inv p s b cur caps r :
  run (GOpen :: p) s b cur caps = Some r -> run p s b (Some []) caps = Some r.
Proof. auto. Qed.

Lemma run_GClose_inv p s b cur caps r :
  run (GClose :: p) s b cur caps = Some r ->
  exists buf, cur = Some buf /\ run p s b None (caps ++ [rev buf]) = Some r.
Proof. cbn. destruct cur as [buf |]; [eauto | discriminate]. Qed.

Lemma run_Eos_inv p s b cur caps r :
  run (Eos :: p) s b cur caps = Some r -> run p s b cur caps = Some r.
Proof.
  cbn. destruct s as [| x [| y s]]; auto; [| discriminate].
  now destruct (x =? 10)%N.
Qed.

Lemma run_nil_inv s b cur caps r :
  run [] s b cur caps = Some r -> r = caps.
Proof. cbn. congruence. Qed.

(** One step of reading a successful run backwards. *)
Ltac run_step H :=
  match type of H with
  | run (Bos :: _) _ _ _ _ = Some _ => apply run_Bos_inv in H
  | run (GOpen :: _) _ _ _ _ = Some _ => apply run_GOpen_inv in H
  | run (Eos :: _) _ _ _ _ = Some _ => apply run_Eos_inv in H
  | run (GClose :: _) _ _ _ _ = Some _ =>
    let buf := fresh "buf" in
    let E := fresh "E" in
    apply run_GClose_inv in H as (buf & E & H);
    rewrite ?pushes_some in E; injection E as <-
  | run (One _ :: _) _ _ _ _ = Some _ =>
    let x := fresh "x" in
    let rest := fresh "rest" in
    let Hx := fresh "Hx" in
    apply run_One_inv in H as (x & rest & -> & Hx & H)
  | run (Opt _ :: _) _ _ _ _ = Some _ =>
    let taken := fresh "taken" in
    let rest := fresh "rest" in
    let b' := fresh "b'" in
    let Hall := fresh "Hall" in
    apply run_Opt_inv in H as (taken & rest & b' & -> & Hall & H)
  | run (Star _ :: _) _ _ _ _ = Some _ =>
    let taken := fresh "taken" in
    let rest := fresh "rest" in
    let b' := fresh "b'" in
    let Hall := fresh "Hall" in
    apply run_Star_inv in H as (taken & rest & b' & -> & Hall & H)
  | run (Plus _ :: _) _ _ _ _ = Some _ =>
    let taken := fresh "taken" in
    let rest := fresh "rest" in
    let b' := fresh "b'" in
    let Hne := fresh "Hne" in
    let Hall := fresh "Hall" in
    apply run_Plus_inv in H as (taken & rest & b' & -> & Hne & Hall & H)
  end;
  rewrite ?pushes_some, ?pushes_none in H; cbn [push option_map] in H.

Lemma digits_taken taken :
  taken <> [] -> forallb (cls_match Digit) taken = true -> digits taken.
Proof. intros Hne Hall. split; assumption. Qed.

Lemma full_pattern_groups s groups :
  re_match [Bos; GOpen; Opt Digit; Star Space; Plus Word; GClose; Plus Space;
            GOpen; Plus Digit; GClose; One (Lit 58%N); GOpen; Plus Digit;
            GClose; Eos] s = Some groups ->
  exists g0 g1 g2, groups = [g0; g1; g2] /\ digits g1 /\ digits g2.
Proof.
  unfold re_match. intros Hrun.
  repeat run_step Hrun.
  apply run_nil_inv in Hrun. subst groups. cbn [app].
  rewrite !app_nil_r, !rev_involutive.
  eexists _, _, _. split; [reflexivity |].
  split; apply digits_taken; assumption.
Qed.

Lemma chapter_pattern_groups s groups :
  re_match [Bos; GOpen; Opt Digit; Star Space; Plus Word; GClose; Plus Space;
            GOpen; Plus Digit; GClose; Eos] s = Some groups ->
  exists g0 g1, groups = [g0; g1] /\ digits g1.
Proof.
  unfold re_match. intros Hrun.
  repeat run_step Hrun.
  apply run_nil_inv in Hrun. subst groups. cbn [app].
  rewrite !app_nil_r, !rev_involutive.
  eexists _, _. split; [reflexivity |].
  apply digits_taken; assumption.
Qed.

(** [int] on what [\d+] captured: it converts a numeral of up to 4300
    digits and refuses a longer one. *)
Lemma int_of_digits g :
  digits g ->
  if convertible g then returns (int_of_str g)
  else int_of_str g = Raise ValueError.
Proof.
  intros [Hne Hall]. unfold returns, int_of_str, convertible.
  destruct g; [congruence |]. rewrite Hall.
  destruct (length (c :: g) <=? int_max_str_digits)%nat; eauto.
Qed.

End Inversion.

End match_props.

(* ===================================================================== *)
(** * Properties of the full-text search                                    *)
(* ===================================================================== *)

Module search_props.
Import Py Re re_spec bible bible_spec bible_nav scan_props.
Local Open Scope Z_scope.

Lemma firstn_accumulate {A} (M : nat) (rs a b : list A) :
  (rs ++ firstn (M - length rs) a)
    ++ firstn (M - length (rs ++ firstn (M - length rs) a)) b
  = rs ++ firstn (M - length rs) (a ++ b).
Proof.
  rewrite <- app_assoc. f_equal.
  rewrite firstn_app. f_equal. f_equal.
  rewrite length_app, length_firstn. lia.
Qed.

Lemma in_firstn {A} (n : nat) (l : list A) (x : A) : In x (firstn n l) -> In x l.
Proof.
  intros Hin. rewrite <- (firstn_skipn n l). apply in_or_app. now left.
Qed.

Section Search.
Context `{UnicodeData}.
Variable self : Bible.

Lemma get_book_name_eq b : get_book_name self b = Ok (book_name_of self b).
Proof.
  unfold get_book_name, book_name_of. rewrite get_book_eq. cbn [bind].
  destruct (book_at self b) as [book |]; [| reflexivity].
  destruct (book_truth book) eqn:T; [reflexivity |].
  unfold book_truth in T. unfold get_abbrev.
  destruct (abbrev book), (chapters book), (other_keys book); try discriminate.
  reflexivity.
Qed.

Lemma get_reference_eq b c v : get_reference self b c v = Ok (reference_of self b c v).
Proof. unfold get_reference. now rewrite get_book_name_eq. Qed.

Lemma test_is_verse_matches (query text : str) (case_sensitive : bool) :
  contains (if case_sensitive then text else lower text)
           (search_query query case_sensitive)
  = verse_matches query case_sensitive text.
Proof. unfold search_query, verse_matches. now destruct case_sensitive. Qed.

Lemma search_unfold (query : str) (max_results : Z) (case_sensitive : bool) :
  search self query max_results case_sensitive
  = match strip query with
    | [] => Ok []
    | _ :: _ => search_books self query max_results case_sensitive (books self) 0 []
    end.
Proof. unfold search. now destruct query. Qed.

Variables (query : str) (max_results : Z) (case_sensitive : bool).

Let M : nat := Z.to_nat max_results.
Let found (l : list (Z * Z * Z * str)) : list SearchResult :=
  map (result_of self query case_sensitive) (filter (hit query case_sensitive) l).

Lemma full_iff (results : list SearchResult) :
  (len results >=? max_results) = true <-> (M <= length results)%nat.
Proof. unfold len, M. rewrite Z.geb_leb, Z.leb_le. lia. Qed.

Lemma stop_when_full (results : list SearchResult) l :
  (len results >=? max_results) = true ->
  results = results ++ firstn (M - length results) l.
Proof.
  intros Hfull. apply full_iff in Hfull.
  replace (M - length results)%nat with 0%nat by lia.
  now rewrite app_nil_r.
Qed.

Lemma search_verses_eq b c verses i results :
  search_verses self query max_results case_sensitive b c verses i results
  = Ok (results ++ firstn (M - length results) (found (chapter_verses b c verses i))).
Proof.
  revert i results. induction verses as [| text verses IH]; intros i results.
  - cbn. now rewrite firstn_nil, app_nil_r.
  - cbn [search_verses].
    destruct (len results >=? max_results) eqn:Hfull.
    { unfold ret. f_equal. now apply stop_when_full. }
    assert (Hroom : (length results < M)%nat).
    { destruct (Nat.lt_ge_cases (length results) M) as [Hlt | Hge]; [exact Hlt |].
      apply full_iff in Hge. congruence. }
    unfold found, chapter_verses. cbn [enumerate_from map filter hit].
    rewrite test_is_verse_matches.
    destruct (verse_matches query case_sensitive text).
    + rewrite get_reference_eq. cbn [bind]. rewrite IH.
      f_equal. rewrite <- app_assoc. f_equal. cbn [app map].
      rewrite length_app. cbn [length].
      destruct (M - length results)%nat as [| k] eqn:Hk; [lia |].
      cbn [firstn result_of]. f_equal.
      unfold found, chapter_verses. f_equal. lia.
    + rewrite IH. reflexivity.
Qed.

Lemma found_app l1 l2 : found (l1 ++ l2) = found l1 ++ found l2.
Proof. unfold found. now rewrite filter_app, map_app. Qed.

Lemma search_chapters_eq b chapters j results :
  search_chapters self query max_results case_sensitive b chapters j results
  = Ok (results ++ firstn (M - length results) (found (book_verses b chapters j))).
Proof.
  revert j results. induction chapters as [| verses chapters IH]; intros j results.
  - cbn. now rewrite firstn_nil, app_nil_r.
  - cbn [search_chapters].
    destruct (len results >=? max_results) eqn:Hfull.
    { unfold ret. f_equal. now apply stop_when_full. }
    rewrite search_verses_eq. cbn [bind]. rewrite IH. f_equal.
    unfold book_verses. cbn [enumerate_from flat_map].
    rewrite found_app. apply firstn_accumulate.
Qed.

Lemma search_books_eq bs k results :
  search_books self query max_results case_sensitive bs k results
  = Ok (results ++ firstn (M - length results) (found (corpus_verses bs k))).
Proof.
  revert k results. induction bs as [| book bs IH]; intros k results.
  - cbn. now rewrite firstn_nil, app_nil_r.
  - cbn [search_books].
    destruct (len results >=? max_results) eqn:Hfull.
    { unfold ret. f_equal. now apply stop_when_full. }
    rewrite search_chapters_eq. cbn [bind]. rewrite IH. f_equal.
    unfold corpus_verses. cbn [enumerate_from flat_map].
    rewrite found_app. apply firstn_accumulate.
Qed.

Lemma search_eq :
  search self query max_results case_sensitive
  = Ok (match strip query with
        | [] => []
        | _ :: _ => firstn M (found (all_verses self))
        end).
Proof.
  rewrite search_unfold.
  destruct (strip query); [reflexivity |].
  rewrite search_books_eq. cbn [app length]. now rewrite Nat.sub_0_r.
Qed.

Lemma position_of_result e :
  position_and_text (result_of self query case_sensitive e) = e.
Proof. now destruct e as [[[b c] v] text]. Qed.

(** C4: [search] returns, in reading order, the first
    [min(max_results, k)] of the [k] verses of the corpus that contain
    the query (compared in lower case unless the search is case
    sensitive); a query that is empty or blank returns the empty list. *)
Theorem search_first_matches :
  let matching := filter (hit query case_sensitive) (all_verses self) in
  (strip query = [] ->
     search self query max_results case_sensitive = Ok [])
  /\ (strip query <> [] ->
        exists results,
          search self query max_results case_sensitive = Ok results
          /\ map position_and_text results
             = firstn (Z.to_nat (Z.min max_results (len matching))) matching).
Proof.
  intros matching. rewrite search_eq. split.
  - intros ->. reflexivity.
  - intros Hq. destruct (strip query) as [| c s]; [congruence |].
    eexists. split; [reflexivity |].
    unfold found. rewrite <- firstn_map, map_map.
    rewrite (map_ext _ (fun e => e) position_of_result), map_id.
    fold matching. unfold M, len.
    destruct (Z.le_ge_cases max_results (Z.of_nat (length matching))) as [Hle | Hge].
    + now rewrite Z.min_l.
    + rewrite Z.min_r by lia. rewrite Nat2Z.id.
      rewrite firstn_all. apply firstn_all2. lia.
Qed.

End Search.

Section Highlight.
Context `{UnicodeData}.




End Highlight.

End search_props.

(* ===================================================================== *)
(** * Properties of the search by reference                                 *)
(* ===================================================================== *)

Module reference_props.
Import Py Re re_spec bible bible_spec bible_nav search_props match_props.
Local Open Scope Z_scope.

Section Reference.
Context `{UnicodeData}.
Variable self : Bible.

Lemma in_range_spec i n : in_range i n = true <-> 0 <= i < n.
Proof. unfold in_range. rewrite andb_true_iff, Z.leb_le, Z.ltb_lt. tauto. Qed.

Lemma locate_eq book_name chapter verse :
  locate self book_name (chapter - 1) (option_map (fun n => n - 1) verse)
  = Ok (resolve self book_name chapter verse).
Proof.
  unfold locate, resolve, found_at, in_range.
  destruct (_find_book_index self book_name) as [b |]; [| reflexivity].
  rewrite get_chapter_count_eq. cbn [bind ret].
  rewrite Z.geb_leb.
  destruct (Z.ltb_spec (chapter - 1) 0) as [Hc0 | Hc0]; cbn [bind].
  { destruct (Z.leb_spec 0 (chapter - 1)); [lia | reflexivity]. }
  destruct (Z.leb_spec 0 (chapter - 1)); [| lia].
  destruct (Z.leb_spec (len (chapters_of self b)) (chapter - 1)),
           (Z.ltb_spec (chapter - 1) (len (chapters_of self b)));
    try lia; cbn [andb]; [reflexivity |].
  destruct verse as [verse |]; cbn [option_map].
  - rewrite get_verse_count_eq. cbn [bind ret]. rewrite Z.geb_leb.
    destruct (Z.ltb_spec (verse - 1) 0) as [Hv0 | Hv0]; cbn [bind].
    { destruct (Z.leb_spec 0 (verse - 1)); [lia | reflexivity]. }
    destruct (Z.leb_spec 0 (verse - 1)); [| lia].
    destruct (Z.leb_spec (len (chapter_at self b (chapter - 1))) (verse - 1)),
             (Z.ltb_spec (verse - 1) (len (chapter_at self b (chapter - 1))));
      try lia; cbn [andb]; [reflexivity |].
    rewrite get_verse_eq, get_reference_eq. reflexivity.
  - rewrite get_verse_eq, get_reference_eq. reflexivity.
Qed.

Lemma resolve_match_full g0 g1 g2 chapter verse :
  int_of_str g1 = Ok chapter -> int_of_str g2 = Ok verse ->
  resolve_match self [g0; g1; g2]
  = Ok (resolve self (lower (strip g0)) chapter (Some verse)).
Proof.
  intros H1 H2. unfold resolve_match.
  change (getitem [g0; g1; g2] 0) with (Ok g0).
  change (getitem [g0; g1; g2] 1) with (Ok g1).
  change (getitem [g0; g1; g2] 2) with (Ok g2).
  change (len [g0; g1; g2] >? 2) with true.
  cbn [bind]. rewrite H1. cbn [bind]. rewrite H2. cbn [bind ret].
  apply (locate_eq _ chapter (Some verse)).
Qed.

Lemma resolve_match_chapter g0 g1 chapter :
  int_of_str g1 = Ok chapter ->
  resolve_match self [g0; g1]
  = Ok (resolve self (lower (strip g0)) chapter None).
Proof.
  intros H1. unfold resolve_match.
  change (getitem [g0; g1] 0) with (Ok g0).
  change (getitem [g0; g1] 1) with (Ok g1).
  change (len [g0; g1] >? 2) with false.
  cbn [bind]. rewrite H1. cbn [bind ret].
  apply (locate_eq _ chapter None).
Qed.

Lemma resolve_match_long_chapter g0 g1 rest :
  int_of_str g1 = Raise ValueError ->
  resolve_match self (g0 :: g1 :: rest) = Raise ValueError.
Proof.
  intros H1. unfold resolve_match.
  change (getitem (g0 :: g1 :: rest) 0) with (Ok g0).
  change (getitem (g0 :: g1 :: rest) 1) with (Ok g1).
  cbn [bind]. now rewrite H1.
Qed.

Lemma resolve_match_long_verse g0 g1 g2 chapter :
  int_of_str g1 = Ok chapter -> int_of_str g2 = Raise ValueError ->
  resolve_match self [g0; g1; g2] = Raise ValueError.
Proof.
  intros H1 H2. unfold resolve_match.
  change (getitem [g0; g1; g2] 0) with (Ok g0).
  change (getitem [g0; g1; g2] 1) with (Ok g1).
  change (getitem [g0; g1; g2] 2) with (Ok g2).
  change (len [g0; g1; g2] >? 2) with true.
  cbn [bind]. rewrite H1. cbn [bind]. now rewrite H2.
Qed.

(** What [search_by_reference] computes, read off the groups of the
    first pattern that matches: the numbers are converted first, and a
    numeral too long for [int] makes the call raise. *)
Lemma search_by_reference_eq reference :
  match first_match patterns (strip reference) with
  | None => search_by_reference self reference = Ok None
  | Some groups =>
    (exists g0 g1 g2 chapter verse,
        groups = [g0; g1; g2]
        /\ int_of_str g1 = Ok chapter /\ int_of_str g2 = Ok verse
        /\ search_by_reference self reference
           = Ok (resolve self (lower (strip g0)) chapter (Some verse)))
    \/ (exists g0 g1 chapter,
          groups = [g0; g1]
          /\ int_of_str g1 = Ok chapter
          /\ search_by_reference self reference
             = Ok (resolve self (lower (strip g0)) chapter None))
    \/ (search_by_reference self reference = Raise ValueError
        /\ exists g, In g (tl groups) /\ digits g /\ convertible g = false)
  end.
Proof.
  unfold search_by_reference, patterns. cbn [try_patterns first_match].
  destruct (re_match pattern_full (strip reference)) as [groups |] eqn:Efull.
  { apply full_pattern_groups in Efull as (g0 & g1 & g2 & -> & Hd1 & Hd2).
    pose proof (int_of_digits _ Hd1) as H1.
    pose proof (int_of_digits _ Hd2) as H2.
    destruct (convertible g1) eqn:E1.
    - destruct H1 as [chapter Hc].
      destruct (convertible g2) eqn:E2.
      + destruct H2 as [verse Hv]. left.
        exists g0, g1, g2, chapter, verse. repeat split; try assumption.
        now apply resolve_match_full.
      + right. right. split; [now apply (resolve_match_long_verse g0 g1 g2 chapter) |].
        exists g2. cbn. auto.
    - right. right. split; [now apply resolve_match_long_chapter |].
      exists g1. cbn. auto. }
  destruct (re_match pattern_chapter (strip reference)) as [groups |] eqn:Echapter.
  { apply chapter_pattern_groups in Echapter as (g0 & g1 & -> & Hd1).
    pose proof (int_of_digits _ Hd1) as H1.
    destruct (convertible g1) eqn:E1.
    - destruct H1 as [chapter Hc]. right. left.
      exists g0, g1, chapter. repeat split; try assumption.
      now apply resolve_match_chapter.
    - right. right. split; [now apply resolve_match_long_chapter |].
      exists g1. cbn. auto. }
  reflexivity.
Qed.

(** The numerals of a concrete reference are short. *)
Ltac short_numerals Hin Hlong :=
  cbn in Hin;
  repeat (destruct Hin as [<- | Hin]; [vm_compute in Hlong; discriminate |]);
  destruct Hin.

Lemma index_by_name_none test names :
  forallb (fun e => negb (test (snd e))) names = true ->
  index_by_name self test names = None.
Proof.
  induction names as [| [a full] names IH]; [reflexivity |].
  cbn. intros Hall. apply andb_true_iff in Hall as [Hhead Hall].
  apply negb_true_iff in Hhead. rewrite Hhead. auto.
Qed.

Lemma index_by_name_found test names k a full idx :
  nth_error names k = Some (a, full) ->
  forallb (fun e => negb (test (snd e))) (firstn k names) = true ->
  test full = true ->
  index_of_abbrev (books self) 0 a = Some idx ->
  index_by_name self test names = Some idx.
Proof.
  revert names. induction k as [| k IH]; intros names Hnth Hbefore Htest Hidx.
  - destruct names as [| [a' full'] names]; [discriminate |].
    injection Hnth as -> ->. cbn. now rewrite Htest, Hidx.
  - destruct names as [| [a' full'] names]; [discriminate |].
    cbn in Hnth, Hbefore. apply andb_true_iff in Hbefore as [Hhead Hbefore].
    apply negb_true_iff in Hhead. cbn. rewrite Hhead. now apply IH.
Qed.

(** No book is found for a name that is no abbreviation of the corpus
    and begins no full name of the table. *)
Lemma find_book_index_unknown name :
  index_of_abbrev (books self) 0 (strip (lower name)) = None ->
  forallb (fun e => negb (startswith (lower (snd e)) (strip (lower name))))
          BOOK_NAMES = true ->
  forallb (fun e => negb (str_eqb (lower (snd e)) (strip (lower name))))
          BOOK_NAMES = true ->
  _find_book_index self name = None.
Proof.
  intros Habbrev Hprefix Hfull. unfold _find_book_index.
  rewrite Habbrev.
  rewrite (index_by_name_none _ _ Hfull).
  now rewrite (index_by_name_none _ _ Hprefix).
Qed.

(** The book is found through the table when the name is the [k]-th
    full name, no earlier full name, and no abbreviation of the corpus. *)
Lemma find_book_index_full_name name k a full idx :
  index_of_abbrev (books self) 0 (strip (lower name)) = None ->
  nth_error BOOK_NAMES k = Some (a, full) ->
  forallb (fun e => negb (str_eqb (lower (snd e)) (strip (lower name))))
          (firstn k BOOK_NAMES) = true ->
  str_eqb (lower full) (strip (lower name)) = true ->
  index_of_abbrev (books self) 0 a = Some idx ->
  _find_book_index self name = Some idx.
Proof.
  intros Habbrev Hnth Hbefore Hfull Hidx. unfold _find_book_index.
  rewrite Habbrev.
  now rewrite (index_by_name_found _ _ k a full idx Hnth Hbefore Hfull Hidx).
Qed.

(** Away from numerals too long for [int], [search_by_reference]
    returns, and what it returns is [None] when the string matches
    neither pattern, when the book named is not found (as for
    "Livro 999:999" on a corpus without such an abbreviation), and when
    the chapter or the verse number is outside the book found. *)
Lemma search_by_reference_none_cases (reference : str) :
  ((forall groups g, first_match patterns (strip reference) = Some groups ->
                     In g (tl groups) -> convertible g = true) ->
   returns (search_by_reference self reference))
  /\ (first_match patterns (strip reference) = None ->
        search_by_reference self reference = Ok None)
  /\ (forall groups g0,
        first_match patterns (strip reference) = Some groups ->
        (forall g, In g (tl groups) -> convertible g = true) ->
        nth_error groups 0 = Some g0 ->
        _find_book_index self (lower (strip g0)) = None ->
        search_by_reference self reference = Ok None)
  /\ (forall groups g0 g1 b chapter count,
        first_match patterns (strip reference) = Some groups ->
        (forall g, In g (tl groups) -> convertible g = true) ->
        nth_error groups 0 = Some g0 ->
        nth_error groups 1 = Some g1 ->
        _find_book_index self (lower (strip g0)) = Some b ->
        int_of_str g1 = Ok chapter ->
        get_chapter_count self b = Ok count ->
        ~ 1 <= chapter <= count ->
        search_by_reference self reference = Ok None)
  /\ (forall groups g0 g1 g2 b chapter verse count,
        first_match patterns (strip reference) = Some groups ->
        (forall g, In g (tl groups) -> convertible g = true) ->
        nth_error groups 0 = Some g0 ->
        nth_error groups 1 = Some g1 ->
        nth_error groups 2 = Some g2 ->
        _find_book_index self (lower (strip g0)) = Some b ->
        int_of_str g1 = Ok chapter ->
        int_of_str g2 = Ok verse ->
        get_verse_count self b (chapter - 1) = Ok count ->
        ~ 1 <= verse <= count ->
        search_by_reference self reference = Ok None)
  /\ (index_of_abbrev (books self) 0 (u "livro") = None ->
        search_by_reference self (u "Livro 999:999") = Ok None).
Proof.
  pose proof (search_by_reference_eq reference) as Heq.
  assert (Hshort : forall groups,
             (forall g, In g (tl groups) -> convertible g = true) ->
             ~ (exists g, In g (tl groups) /\ digits g /\ convertible g = false)).
  { intros groups Hall (g & Hin & _ & Hlong). rewrite (Hall g Hin) in Hlong.
    discriminate. }
  split; [| split; [| split; [| split; [| split]]]].
  - intros Hall.
    destruct (first_match patterns (strip reference)) as [groups |].
    + destruct Heq as [(g0 & g1 & g2 & chapter & verse & _ & _ & _ & ->)
                      | [(g0 & g1 & chapter & _ & _ & ->) | (_ & Hlong)]];
        unfold returns; eauto.
      exfalso. apply (Hshort groups); [| exact Hlong].
      intros g. now apply Hall.
    + unfold returns; eauto.
  - intros Hnone. now rewrite Hnone in Heq.
  - intros groups g0 Hfm Hall Hg0 Hfind. rewrite Hfm in Heq.
    destruct Heq as [(g0' & g1 & g2 & chapter & verse & -> & _ & _ & ->)
                    | [(g0' & g1 & chapter & -> & _ & ->) | (_ & Hlong)]];
      [| | now destruct (Hshort groups Hall)];
      injection Hg0 as ->; unfold resolve; now rewrite Hfind.
  - intros groups g0 g1 b chapter count Hfm Hall Hg0 Hg1 Hfind Hchapter Hcount Hout.
    rewrite Hfm in Heq.
    rewrite get_chapter_count_eq in Hcount. injection Hcount as <-.
    assert (Hrange : in_range (chapter - 1) (len (chapters_of self b)) = false).
    { apply not_true_is_false. rewrite in_range_spec. lia. }
    destruct Heq as [(g0' & g1' & g2 & chapter' & verse & -> & Hc & _ & ->)
                    | [(g0' & g1' & chapter' & -> & Hc & ->) | (_ & Hlong)]];
      [| | now destruct (Hshort groups Hall)];
      injection Hg0 as ->; injection Hg1 as ->;
      rewrite Hchapter in Hc; injection Hc as <-;
      unfold resolve; now rewrite Hfind, Hrange.
  - intros groups g0 g1 g2 b chapter verse count
           Hfm Hall Hg0 Hg1 Hg2 Hfind Hchapter Hverse Hcount Hout.
    rewrite Hfm in Heq.
    rewrite get_verse_count_eq in Hcount. injection Hcount as <-.
    assert (Hrange : in_range (verse - 1) (len (chapter_at self b (chapter - 1))) = false).
    { apply not_true_is_false. rewrite in_range_spec. lia. }
    destruct Heq as [(g0' & g1' & g2' & chapter' & verse' & -> & Hc & Hv & ->)
                    | [(g0' & g1' & chapter' & -> & Hc & ->) | (_ & Hlong)]];
      [| discriminate | now destruct (Hshort groups Hall)].
    injection Hg0 as ->; injection Hg1 as ->; injection Hg2 as ->.
    rewrite Hchapter in Hc; injection Hc as <-.
    rewrite Hverse in Hv; injection Hv as <-.
    unfold resolve. rewrite Hfind, Hrange.
    now destruct (in_range (chapter - 1) (len (chapters_of self b))).
  - intros Hlivro. clear Heq.
    pose proof (search_by_reference_eq (u "Livro 999:999")) as Heq.
    assert (Hfm : first_match patterns (strip (u "Livro 999:999"))
                  = Some [u "Livro"; u "999"; u "999"])
      by (vm_compute; reflexivity).
    rewrite Hfm in Heq.
    destruct Heq as [(g0 & g1 & g2 & chapter & verse & Hg & _ & _ & ->)
                    | [(g0 & g1 & chapter & Hg & _) | (_ & g & Hin & _ & Hlong)]];
      [| discriminate | short_numerals Hin Hlong].
    injection Hg as <- _ _.
    unfold resolve. rewrite find_book_index_unknown; [reflexivity | | |].
    + exact Hlivro.
    + vm_compute; reflexivity.
    + vm_compute; reflexivity.
Qed.

(** When [search_by_reference] raises, the exception is the
    [ValueError] of [int], on a numeral of more than 4300 digits that
    the first matching pattern captured. *)
Lemma search_by_reference_raises (reference : str) (e : exn) :
  search_by_reference self reference = Raise e ->
  e = ValueError
  /\ exists groups g,
       first_match patterns (strip reference) = Some groups
       /\ In g (tl groups) /\ digits g /\ convertible g = false.
Proof.
  intros Hraise. pose proof (search_by_reference_eq reference) as Heq.
  destruct (first_match patterns (strip reference)) as [groups |].
  - destruct Heq as [(g0 & g1 & g2 & chapter & verse & _ & _ & _ & Heq)
                    | [(g0 & g1 & chapter & _ & _ & Heq) | (Heq & Hlong)]];
      rewrite Heq in Hraise; try discriminate.
    injection Hraise as <-. split; [reflexivity |].
    destruct Hlong as (g & Hlong). exists groups, g. tauto.
  - rewrite Heq in Hraise. discriminate.
Qed.

(** C7: the claim fails on a reference whose chapter or verse numeral
    has more than 4300 digits.  On "João ", 4301 times the digit 9, and
    ":1" -- and on "João 1:" followed by 4301 times the digit 9 -- the
    pattern matches, [int] refuses the numeral, and
    [search_by_reference] raises [ValueError] instead of returning
    [None], whatever the corpus. *)
Theorem search_by_reference_long_numeral :
  search_by_reference self samples.long_chapter_reference = Raise ValueError
  /\ search_by_reference self samples.long_verse_reference = Raise ValueError.
Proof. split; vm_compute; reflexivity. Qed.

(** C6: the chapter and verse numbers of a reference are 1-based and the
    result is 0-based.  On a corpus whose book "jo" has index [idx] and
    at least three chapters, "João 3:16" resolves to [(idx, 2, 15)] when
    the third chapter has at least sixteen verses, and "João 3"
    resolves to [(idx, 2, 0)], the first verse of that chapter. *)
Theorem search_by_reference_one_based (idx chapter_count : Z) :
  index_of_abbrev (books self) 0 (u "joão") = None ->
  index_of_abbrev (books self) 0 (u "jo") = Some idx ->
  get_chapter_count self idx = Ok chapter_count ->
  3 <= chapter_count ->
  (forall verse_count,
      get_verse_count self idx 2 = Ok verse_count ->
      16 <= verse_count ->
      exists r,
        search_by_reference self (u "João 3:16") = Ok (Some r)
        /\ book_index r = idx /\ chapter_index r = 2 /\ verse_index r = 15
        /\ get_verse self idx 2 15 = Ok (verse_text r))
  /\ (exists r,
        search_by_reference self (u "João 3") = Ok (Some r)
        /\ book_index r = idx /\ chapter_index r = 2 /\ verse_index r = 0
        /\ get_verse self idx 2 0 = Ok (verse_text r)).
Proof.
  intros Hname Hjo Hcount Hthree.
  rewrite get_chapter_count_eq in Hcount. injection Hcount as <-.
  assert (Hfind : _find_book_index self (lower (strip (u "João"))) = Some idx).
  { apply (find_book_index_full_name _ 42 (u "jo") (u "João") idx).
    - exact Hname.
    - reflexivity.
    - vm_compute; reflexivity.
    - vm_compute; reflexivity.
    - exact Hjo. }
  assert (Hchapter : in_range (3 - 1) (len (chapters_of self idx)) = true).
  { apply in_range_spec. lia. }
  split.
  - intros verse_count Hverses Hsixteen.
    rewrite get_verse_count_eq in Hverses. injection Hverses as <-.
    pose proof (search_by_reference_eq (u "João 3:16")) as Heq.
    assert (Hfm : first_match patterns (strip (u "João 3:16"))
                  = Some [u "João"; u "3"; u "16"])
      by (vm_compute; reflexivity).
    rewrite Hfm in Heq.
    destruct Heq as [(g0 & g1 & g2 & chapter & verse & Hg & Hc & Hv & ->)
                    | [(g0 & g1 & chapter & Hg & _) | (_ & g & Hin & _ & Hlong)]];
      [| discriminate | short_numerals Hin Hlong].
    injection Hg as <- <- <-.
    assert (H3 : int_of_str (u "3") = Ok 3) by (vm_compute; reflexivity).
    assert (H16 : int_of_str (u "16") = Ok 16) by (vm_compute; reflexivity).
    rewrite H3 in Hc. injection Hc as <-.
    rewrite H16 in Hv. injection Hv as <-.
    unfold resolve. rewrite Hfind, Hchapter.
    assert (Hverse : in_range (16 - 1) (len (chapter_at self idx (3 - 1))) = true).
    { apply in_range_spec. change (3 - 1) with 2. lia. }
    rewrite Hverse. eexists. split; [reflexivity |].
    cbn [found_at book_index chapter_index verse_index verse_text].
    repeat split. apply get_verse_eq.
  - pose proof (search_by_reference_eq (u "João 3")) as Heq.
    assert (Hfm : first_match patterns (strip (u "João 3"))
                  = Some [u "João"; u "3"])
      by (vm_compute; reflexivity).
    rewrite Hfm in Heq.
    destruct Heq as [(g0 & g1 & g2 & chapter & verse & Hg & _)
                    | [(g0 & g1 & chapter & Hg & Hc & ->) | (_ & g & Hin & _ & Hlong)]];
      [discriminate | | short_numerals Hin Hlong].
    injection Hg as <- <-.
    assert (H3 : int_of_str (u "3") = Ok 3) by (vm_compute; reflexivity).
    rewrite H3 in Hc. injection Hc as <-.
    unfold resolve. rewrite Hfind, Hchapter.
    eexists. split; [reflexivity |].
    cbn [found_at book_index chapter_index verse_index verse_text].
    repeat split. apply get_verse_eq.
Qed.

End Reference.

End reference_props.

(* ===================================================================== *)
(** * More on the navigator                                                 *)
(* ===================================================================== *)

Module nav_more.
Import Py Re bible bible_spec bible_nav.
Local Open Scope Z_scope.

Section Navigator.
Variable self : Bible.

Lemma next_position_cases b c v :
  get_next_position self b c v
  = Ok (if v + 1 <? len (chapter_at self b c) then (b, c, v + 1, false)
        else if c + 1 <? len (chapters_of self b) then (b, c + 1, 0, false)
        else if b + 1 <? len (books self) then (b + 1, 0, 0, false)
        else (b, c, v, true)).
Proof.
  unfold get_next_position.
  rewrite get_verse_count_eq; cbn [bind ret].
  destruct (v + 1 <? len (chapter_at self b c)); [reflexivity |].
  rewrite get_chapter_count_eq; cbn [bind ret].
  destruct (c + 1 <? len (chapters_of self b)); [reflexivity |].
  now destruct (b + 1 <? len (books self)).
Qed.

Lemma previous_position_cases b c v :
  get_previous_position self b c v
  = Ok (if v >? 0 then (b, c, v - 1, false)
        else if c >? 0 then
          (b, c - 1, Z.max 0 (len (chapter_at self b (c - 1)) - 1), false)
        else if b >? 0 then
          (b - 1, Z.max 0 (len (chapters_of self (b - 1)) - 1),
           Z.max 0 (len (chapter_at self (b - 1) (len (chapters_of self (b - 1)) - 1)) - 1),
           false)
        else (0, 0, 0, true)).
Proof.
  unfold get_previous_position.
  destruct (v >? 0); [reflexivity |].
  destruct (c >? 0).
  { rewrite get_verse_count_eq; reflexivity. }
  destruct (b >? 0); [| reflexivity].
  rewrite get_chapter_count_eq; cbn [bind ret].
  rewrite get_verse_count_eq; reflexivity.
Qed.

(** X1: [get_previous_position] raises the start flag exactly when no
    index is positive, and the position it returns is then the origin,
    also for indices below zero. *)
Theorem previous_start_flag (b c v : Z) :
  exists b' c' v' is_start,
    get_previous_position self b c v = Ok (b', c', v', is_start)
    /\ (is_start = true <-> b <= 0 /\ c <= 0 /\ v <= 0)
    /\ (is_start = true -> (b', c', v') = (0, 0, 0)).
Proof.
  rewrite previous_position_cases.
  destruct (Z.gtb_spec v 0); [| destruct (Z.gtb_spec c 0); [| destruct (Z.gtb_spec b 0)]];
    eexists _, _, _, _; (split; [reflexivity |]);
    (split; [split; [discriminate || (intros _; lia) | intros; (reflexivity || lia)]
            | intros; (reflexivity || discriminate)]).
Qed.

(** X2: the navigator moves strictly along the reading order: unless it
    reports the end, the next position comes after the given one, and
    unless it reports the start, the previous position comes before it;
    at the end the position is returned unchanged.  This holds for
    arbitrary integers, valid position or not. *)
Theorem navigation_is_strict (b c v : Z) :
  (exists b' c' v' is_end,
      get_next_position self b c v = Ok (b', c', v', is_end)
      /\ (is_end = false -> reads_before (b, c, v) (b', c', v'))
      /\ (is_end = true -> (b', c', v') = (b, c, v)))
  /\ (exists b' c' v' is_start,
        get_previous_position self b c v = Ok (b', c', v', is_start)
        /\ (is_start = false -> reads_before (b', c', v') (b, c, v))).
Proof.
  rewrite next_position_cases, previous_position_cases. split.
  - destruct (v + 1 <? len (chapter_at self b c));
      [| destruct (c + 1 <? len (chapters_of self b));
         [| destruct (b + 1 <? len (books self))]];
      eexists _, _, _, _; (split; [reflexivity |]);
      (split; [intros; cbn; try discriminate; lia | intros; (discriminate || reflexivity)]).
  - destruct (Z.gtb_spec v 0); [| destruct (Z.gtb_spec c 0); [| destruct (Z.gtb_spec b 0)]];
      eexists _, _, _, _; (split; [reflexivity |]);
      intros; cbn; try discriminate; lia.
Qed.

(** X3: from a valid position other than the origin, the next position
    of the previous position is the position itself -- also across an
    empty chapter or an empty book. *)
Theorem next_of_previous (b c v : Z) :
  valid_position self b c v ->
  (b, c, v) <> (0, 0, 0) ->
  exists b' c' v',
    get_previous_position self b c v = Ok (b', c', v', false)
    /\ get_next_position self b' c' v' = Ok (b, c, v, false).
Proof.
  intros Hvalid Horigin.
  apply valid_position_bounds in Hvalid as (Hb & Hc & Hv).
  rewrite previous_position_cases.
  destruct (Z.gtb_spec v 0) as [Hv0 | Hv0].
  { eexists _, _, _. split; [reflexivity |].
    rewrite next_position_cases.
    destruct (Z.ltb_spec (v - 1 + 1) (len (chapter_at self b c))); [| lia].
    repeat f_equal. lia. }
  assert (v = 0) by lia. subst v.
  destruct (Z.gtb_spec c 0) as [Hc0 | Hc0].
  { eexists _, _, _. split; [reflexivity |].
    rewrite next_position_cases.
    pose proof (len_nonneg (chapter_at self b (c - 1))).
    destruct (Z.ltb_spec (Z.max 0 (len (chapter_at self b (c - 1)) - 1) + 1)
                         (len (chapter_at self b (c - 1)))); [lia |].
    destruct (Z.ltb_spec (c - 1 + 1) (len (chapters_of self b))); [| lia].
    repeat f_equal. lia. }
  assert (c = 0) by lia. subst c.
  destruct (Z.gtb_spec b 0) as [Hb0 | Hb0].
  { eexists _, _, _. split; [reflexivity |].
    rewrite next_position_cases.
    set (cc := len (chapters_of self (b - 1))).
    set (vc := len (chapter_at self (b - 1) (cc - 1))).
    assert (Hcc : 0 <= cc) by apply len_nonneg.
    assert (Hvc : 0 <= vc) by apply len_nonneg.
    assert (Hlast : len (chapter_at self (b - 1) (Z.max 0 (cc - 1))) = vc).
    { destruct (Z.eq_dec cc 0) as [Hz | Hnz].
      - unfold vc. rewrite Hz. change (Z.max 0 (0 - 1)) with 0.
        rewrite !chapter_at_out; [reflexivity | |]; right; fold cc; lia.
      - replace (Z.max 0 (cc - 1)) with (cc - 1) by lia. reflexivity. }
    rewrite Hlast. fold cc.
    destruct (Z.ltb_spec (Z.max 0 (vc - 1) + 1) vc); [lia |].
    destruct (Z.ltb_spec (Z.max 0 (cc - 1) + 1) cc); [lia |].
    destruct (Z.ltb_spec (b - 1 + 1) (len (books self))); [| lia].
    repeat f_equal. lia. }
  exfalso. apply Horigin. repeat f_equal. lia.
Qed.

Lemma book_at_in b book : book_at self b = Some book -> In book (books self).
Proof.
  unfold book_at. destruct (in_range b (len (books self))); [| discriminate].
  apply nth_error_In.
Qed.

Lemma book_at_some b :
  0 <= b < len (books self) -> exists book, book_at self b = Some book.
Proof.
  intros Hb. unfold book_at, in_range.
  destruct (Z.leb_spec 0 b); [| lia].
  destruct (Z.ltb_spec b (len (books self))); [| lia]. cbn.
  destruct (nth_error (books self) (Z.to_nat b)) eqn:E; [eauto |].
  apply nth_error_None in E. unfold len in Hb. lia.
Qed.

Lemma chapter_at_in b c :
  0 <= c < len (chapters_of self b) -> In (chapter_at self b c) (chapters_of self b).
Proof.
  intros Hc. unfold chapter_at, in_range.
  destruct (Z.leb_spec 0 c); [| lia].
  destruct (Z.ltb_spec c (len (chapters_of self b))); [| lia]. cbn.
  apply nth_In. unfold len in Hc. lia.
Qed.

Lemma nonempty_len {A} (l : list A) : l <> [] -> 0 < len l.
Proof. destruct l; [congruence | unfold len; cbn; lia]. Qed.

Lemma no_empty_book b :
  no_empty_part self -> 0 <= b < len (books self) -> 0 < len (chapters_of self b).
Proof.
  intros Hdense Hb. destruct (book_at_some b Hb) as [book Hbook].
  unfold chapters_of. rewrite Hbook.
  unfold no_empty_part in Hdense. rewrite Forall_forall in Hdense.
  apply nonempty_len, (Hdense book). eapply book_at_in; eassumption.
Qed.

Lemma no_empty_chapter b c :
  no_empty_part self ->
  0 <= b < len (books self) -> 0 <= c < len (chapters_of self b) ->
  0 < len (chapter_at self b c).
Proof.
  intros Hdense Hb Hc. pose proof (chapter_at_in b c Hc) as Hin.
  destruct (book_at_some b Hb) as [book Hbook].
  unfold chapters_of in Hin. rewrite Hbook in Hin.
  unfold no_empty_part in Hdense. rewrite Forall_forall in Hdense.
  destruct (Hdense book (book_at_in _ _ Hbook)) as [_ Hverses].
  rewrite Forall_forall in Hverses. apply nonempty_len, Hverses, Hin.
Qed.

Lemma valid_position_of_bounds b c v :
  0 <= b < len (books self) ->
  0 <= c < len (chapters_of self b) ->
  0 <= v < len (chapter_at self b c) ->
  valid_position self b c v.
Proof.
  intros Hb Hc Hv. split; [exact Hb |]. split.
  - exists (len (chapters_of self b)). split; [apply get_chapter_count_eq | exact Hc].
  - exists (len (chapter_at self b c)). split; [apply get_verse_count_eq | exact Hv].
Qed.

(** X4: on a corpus without an empty book or chapter the navigator
    never leaves the valid positions: the next and the previous position
    of a valid position are valid. *)
Theorem navigation_stays_valid (b c v : Z) :
  no_empty_part self ->
  valid_position self b c v ->
  (exists b' c' v' is_end,
      get_next_position self b c v = Ok (b', c', v', is_end)
      /\ valid_position self b' c' v')
  /\ (exists b' c' v' is_start,
        get_previous_position self b c v = Ok (b', c', v', is_start)
        /\ valid_position self b' c' v').
Proof.
  intros Hdense Hvalid.
  pose proof Hvalid as Hbounds.
  apply valid_position_bounds in Hbounds as (Hb & Hc & Hv).
  rewrite next_position_cases, previous_position_cases. split.
  - destruct (Z.ltb_spec (v + 1) (len (chapter_at self b c)));
      [| destruct (Z.ltb_spec (c + 1) (len (chapters_of self b)));
         [| destruct (Z.ltb_spec (b + 1) (len (books self)))]];
      eexists _, _, _, _; (split; [reflexivity |]).
    + apply valid_position_of_bounds; lia.
    + assert (0 < len (chapter_at self b (c + 1)))
        by (apply no_empty_chapter; [assumption | lia | lia]).
      apply valid_position_of_bounds; lia.
    + assert (0 < len (chapters_of self (b + 1)))
        by (apply no_empty_book; [assumption | lia]).
      assert (0 < len (chapter_at self (b + 1) 0))
        by (apply no_empty_chapter; [assumption | lia | lia]).
      apply valid_position_of_bounds; lia.
    + exact Hvalid.
  - destruct (Z.gtb_spec v 0); [| destruct (Z.gtb_spec c 0); [| destruct (Z.gtb_spec b 0)]];
      eexists _, _, _, _; (split; [reflexivity |]).
    + apply valid_position_of_bounds; lia.
    + assert (0 < len (chapter_at self b (c - 1)))
        by (apply no_empty_chapter; [assumption | lia | lia]).
      apply valid_position_of_bounds; lia.
    + assert (Hcc : 0 < len (chapters_of self (b - 1)))
        by (apply no_empty_book; [assumption | lia]).
      assert (0 < len (chapter_at self (b - 1) (len (chapters_of self (b - 1)) - 1)))
        by (apply no_empty_chapter; [assumption | lia | lia]).
      replace (Z.max 0 (len (chapters_of self (b - 1)) - 1))
        with (len (chapters_of self (b - 1)) - 1) by lia.
      apply valid_position_of_bounds; lia.
    + replace b with 0 in * by lia. replace c with 0 in * by lia.
      apply valid_position_of_bounds; lia.
Qed.

(** X22: the navigator skips no verse.  Every valid position that
    comes after the given one is the next position or comes after it,
    and the end is reported only when no valid position follows; every
    valid position before the given one is the previous position or
    comes before it, and the start is reported only when no valid
    position precedes.  The given position may be any triple of
    integers. *)
Theorem navigation_skips_nothing (b c v : Z) :
  (exists b' c' v' is_end,
      get_next_position self b c v = Ok (b', c', v', is_end)
      /\ forall qb qc qv,
           valid_position self qb qc qv ->
           reads_before (b, c, v) (qb, qc, qv) ->
           is_end = false
           /\ ((qb, qc, qv) = (b', c', v') \/ reads_before (b', c', v') (qb, qc, qv)))
  /\ (exists b' c' v' is_start,
        get_previous_position self b c v = Ok (b', c', v', is_start)
        /\ forall qb qc qv,
             valid_position self qb qc qv ->
             reads_before (qb, qc, qv) (b, c, v) ->
             is_start = false
             /\ ((qb, qc, qv) = (b', c', v') \/ reads_before (qb, qc, qv) (b', c', v'))).
Proof.
  rewrite next_position_cases, previous_position_cases. split.
  - destruct (Z.ltb_spec (v + 1) (len (chapter_at self b c)));
      [| destruct (Z.ltb_spec (c + 1) (len (chapters_of self b)));
         [| destruct (Z.ltb_spec (b + 1) (len (books self)))]];
      eexists _, _, _, _; (split; [reflexivity |]);
      intros qb qc qv Hq Hafter;
      apply valid_position_bounds in Hq as (Hqb & Hqc & Hqv);
      cbn in Hafter |- *;
      destruct Hafter as [Hlt | [<- [Hlt | [<- Hlt]]]]; try lia.
    all: split; [reflexivity |].
    all: try (right; lia).
    + destruct (Z.eq_dec qv (v + 1)) as [-> | Hne]; [now left | right; lia].
    + destruct (Z.eq_dec qc (c + 1)) as [-> | Hne]; [| right; lia].
      destruct (Z.eq_dec qv 0) as [-> | Hne]; [now left | right; lia].
    + destruct (Z.eq_dec qb (b + 1)) as [-> | Hne]; [| right; lia].
      destruct (Z.eq_dec qc 0) as [-> | Hne]; [| right; lia].
      destruct (Z.eq_dec qv 0) as [-> | Hne]; [now left | right; lia].
  - destruct (Z.gtb_spec v 0); [| destruct (Z.gtb_spec c 0); [| destruct (Z.gtb_spec b 0)]];
      eexists _, _, _, _; (split; [reflexivity |]);
      intros qb qc qv Hq Hbefore;
      apply valid_position_bounds in Hq as (Hqb & Hqc & Hqv);
      cbn in Hbefore |- *;
      destruct Hbefore as [Hlt | [-> [Hlt | [-> Hlt]]]]; try lia.
    all: split; [reflexivity |].
    all: try (right; lia).
    + destruct (Z.eq_dec qv (v - 1)) as [-> | Hne]; [now left | right; lia].
    + destruct (Z.eq_dec qc (c - 1)) as [-> | Hne]; [| right; lia].
      destruct (Z.eq_dec qv (len (chapter_at self b (c - 1)) - 1)) as [Heq | Hne];
        [left; apply (f_equal2 pair); [apply (f_equal2 pair) |]; lia | right; lia].
    + destruct (Z.eq_dec qb (b - 1)) as [-> | Hne]; [| right; lia].
      destruct (Z.eq_dec qc (len (chapters_of self (b - 1)) - 1)) as [-> | Hne];
        [| right; lia].
      destruct (Z.eq_dec qv (len (chapter_at self (b - 1)
                                    (len (chapters_of self (b - 1)) - 1)) - 1))
        as [Heq | Hne]; [left; apply (f_equal2 pair); [apply (f_equal2 pair) |]; lia | right; lia].
Qed.

End Navigator.

End nav_more.

(* ===================================================================== *)
(** * More on the history and favourites tables                             *)
(* ===================================================================== *)

Module store_more.
Import Py database store_spec.
Local Open Scope Z_scope.

Lemma str_eqb_eq (a b : str) : str_eqb a b = true <-> a = b.
Proof.
  revert b. induction a as [| x a IH]; intros [| y b]; cbn; try (split; congruence).
  rewrite andb_true_iff, N.eqb_eq, IH. split.
  - intros [-> ->]. reflexivity.
  - intros Heq. injection Heq as -> ->. auto.
Qed.

Lemma str_eqb_refl (a : str) : str_eqb a a = true.
Proof. now apply str_eqb_eq. Qed.

Lemma same_chapter_eq a c row : same_chapter a c row = true <-> row = (a, c).
Proof.
  unfold same_chapter. destruct row as [a' c']. cbn.
  rewrite andb_true_iff, str_eqb_eq, Z.eqb_eq. split.
  - intros [-> ->]. reflexivity.
  - intros Heq. injection Heq as -> ->. auto.
Qed.

Lemma chapter_recorded_iff rows a c :
  existsb (same_chapter a c) rows = true <-> In (a, c) rows.
Proof.
  rewrite existsb_exists. split.
  - intros (row & Hin & Hrow). apply same_chapter_eq in Hrow. now subst row.
  - intros Hin. exists (a, c). split; [exact Hin | now apply same_chapter_eq].
Qed.

Lemma same_position_eq b c v row :
  same_position b c v row = true <-> position row = (b, c, v).
Proof.
  unfold same_position, position.
  rewrite !andb_true_iff, !Z.eqb_eq. split.
  - intros [[-> ->] ->]. reflexivity.
  - intros Heq. injection Heq as -> -> ->. auto.
Qed.

Lemma favorite_stored_iff rows b c v :
  existsb (same_position b c v) rows = true <-> In (b, c, v) (map position rows).
Proof.
  rewrite existsb_exists, in_map_iff. split.
  - intros (row & Hin & Hrow). apply same_position_eq in Hrow. eauto.
  - intros (row & Hrow & Hin). exists row. split; [exact Hin |].
    now apply same_position_eq.
Qed.

Lemma same_position_refl_row b c v text ref n now i :
  same_position b c v
    {| id := i; book_index := b; chapter_index := c; verse_index := v;
       verse_text := text; reference := ref; note := n; created_at := now |}
  = true.
Proof. now apply same_position_eq. Qed.

Lemma rowcount_positive {A} (p : A -> bool) (l : list A) :
  (len (filter p l) >? 0) = existsb p l.
Proof.
  induction l as [| x l IH]; [reflexivity |].
  cbn [filter existsb]. destruct (p x); cbn [orb].
  - unfold len. cbn [length]. apply Z.gtb_lt. lia.
  - exact IH.
Qed.

Lemma NoDup_map_filter {Row Col} (column : Row -> Col) (keep : Row -> bool)
    (rows : list Row) :
  NoDup (map column rows) -> NoDup (map column (filter keep rows)).
Proof.
  induction rows as [| row rows IH]; cbn; [auto |].
  intros Hnd. apply NoDup_cons_iff in Hnd as [Hnotin Hrest].
  destruct (keep row); [| auto]. cbn. constructor; [| auto].
  rewrite in_map_iff in *. intros (row' & Hsame & Hin). apply Hnotin.
  exists row'. split; [exact Hsame |]. apply filter_In in Hin. tauto.
Qed.

Lemma map_note_keeps {B} (f : Favorite -> B) (hit : Favorite -> bool) (n : str)
    (rows : list Favorite) :
  (forall row, f (set_note n row) = f row) ->
  map f (map (fun row => if hit row then set_note n row else row) rows) = map f rows.
Proof.
  intros Hkeep. rewrite map_map. apply map_ext. intros row.
  destruct (hit row); [apply Hkeep | reflexivity].
Qed.

Lemma mark_chapter_read_nodup (d : Database) (a : str) (c : Z) :
  NoDup (chapters_read d) -> NoDup (chapters_read (mark_chapter_read d a c)).
Proof.
  intros Hch. unfold mark_chapter_read, _get_connection.
  destruct (existsb (same_chapter a c) (chapters_read d)) eqn:E; cbn [snd];
    [exact Hch |]. cbn.
  apply NoDup_app; [exact Hch | repeat constructor; auto |].
  intros row Hin [<- | []].
  apply chapter_recorded_iff in Hin. congruence.
Qed.

Lemma reachable_chapters_nodup (d : Database) :
  reachable d -> NoDup (chapters_read d).
Proof.
  induction 1 as [| d a c _ IH | d n _ IH | d n _ IH | d _ IH
                  | d now b c v text ref note _ IH | d b c v _ IH
                  | d b c v n _ IH]; try exact IH.
  - constructor.
  - now apply mark_chapter_read_nodup.
  - constructor.
  - unfold add_favorite, _get_connection, insert_favorite.
    destruct (existsb (same_position b c v) (favorites d)); exact IH.
Qed.

Lemma one_favorite_consistent : consistent samples.one_favorite.
Proof.
  unfold consistent. cbn.
  repeat split; try lia; repeat constructor; cbn; try lia; intros [].
Qed.

(** X5: on every database that the operations produce from a new file,
    no chapter is recorded twice, no two favourites share a position or
    an id, and every id lies between 1 and the counter of the table. *)
Theorem reachable_is_consistent (d : Database) : reachable d -> consistent d.
Proof.
  induction 1 as [| d a c _ IH | d n _ IH | d n _ IH | d _ IH
                  | d now b c v text ref note _ IH | d b c v _ IH
                  | d b c v n _ IH].
  - repeat split; cbn; try constructor. lia.
  - destruct IH as (Hch & Hrest).
    unfold mark_chapter_read, _get_connection.
    destruct (existsb (same_chapter a c) (chapters_read d)) eqn:E; cbn [snd].
    { split; assumption. }
    split; [| exact Hrest]. cbn.
    apply NoDup_app; [exact Hch | repeat constructor; auto |].
    intros row Hin [<- | []].
    apply chapter_recorded_iff in Hin. congruence.
  - exact IH.
  - exact IH.
  - destruct IH as (_ & Hrest). split; [constructor | exact Hrest].
  - destruct IH as (Hch & Hpos & Hid & Hnonneg & Hseq).
    unfold add_favorite, _get_connection, insert_favorite.
    destruct (existsb (same_position b c v) (favorites d)) eqn:E; cbn [snd].
    { repeat split; assumption. }
    split; [exact Hch |]. cbn [favorites favorites_seq]. split; [| split; [| split]].
    + rewrite map_app. apply NoDup_app; [exact Hpos | repeat constructor; auto |].
      intros p Hin [Heq | []]. cbn in Heq. subst p.
      apply favorite_stored_iff in Hin. cbn in Hin. congruence.
    + rewrite map_app. apply NoDup_app; [exact Hid | repeat constructor; auto |].
      intros i Hin [Heq | []]. cbn in Heq. subst i.
      apply in_map_iff in Hin as (row & Hrow & Hin).
      rewrite Forall_forall in Hseq. specialize (Hseq row Hin). lia.
    + lia.
    + apply Forall_app. split.
      * eapply Forall_impl; [| exact Hseq]. cbn. intros; lia.
      * repeat constructor; cbn; lia.
  - destruct IH as (Hch & Hpos & Hid & Hnonneg & Hseq).
    split; [exact Hch |]. cbn. split; [| split; [| split]].
    + now apply NoDup_map_filter.
    + now apply NoDup_map_filter.
    + exact Hnonneg.
    + apply Forall_forall. intros row Hin. apply filter_In in Hin as [Hin _].
      rewrite Forall_forall in Hseq. auto.
  - destruct IH as (Hch & Hpos & Hid & Hnonneg & Hseq).
    split; [exact Hch |]. cbn. split; [| split; [| split]].
    + now rewrite map_note_keeps.
    + now rewrite map_note_keeps.
    + exact Hnonneg.
    + apply Forall_forall. intros row Hin. apply in_map_iff in Hin as (r0 & <- & Hin).
      rewrite Forall_forall in Hseq. specialize (Hseq r0 Hin).
      now destruct (same_position b c v r0).
Qed.

(** ** Favourites *)

Lemma filter_none {A} (p : A -> bool) (l : list A) :
  existsb p l = false -> filter (fun x => negb (p x)) l = l /\ filter p l = [].
Proof.
  induction l as [| x l IH]; [auto |].
  cbn. intros Hnone. apply orb_false_iff in Hnone as [Hx Hl].
  rewrite Hx. cbn. destruct (IH Hl) as [-> ->]. auto.
Qed.

Lemma filter_split_length {A} (p : A -> bool) (l : list A) :
  (length (filter (fun x => negb (p x)) l) + length (filter p l) = length l)%nat.
Proof.
  induction l as [| x l IH]; [reflexivity |].
  cbn. destruct (p x); cbn; lia.
Qed.

Lemma at_most_one_hit (rows : list Favorite) b c v :
  NoDup (map position rows) ->
  (length (filter (same_position b c v) rows) <= 1)%nat.
Proof.
  induction rows as [| row rows IH]; cbn; [lia |].
  intros Hnd. inversion Hnd as [| ? ? Hnotin Hrest]; subst.
  destruct (same_position b c v row) eqn:Hrow; [| auto].
  apply same_position_eq in Hrow. rewrite Hrow in Hnotin.
  assert (Hnone : existsb (same_position b c v) rows = false).
  { apply not_true_is_false. rewrite favorite_stored_iff. exact Hnotin. }
  destruct (filter_none _ _ Hnone) as [_ ->]. cbn. lia.
Qed.

(** X6: [remove_favorite] reports whether the position held a
    favourite; afterwards it holds none, every other position is as
    before, and the chapters read and the counters are untouched.  On a
    table without two favourites at one position the count goes down by
    one exactly when the call reports [True]. *)
Theorem remove_favorite_removes (self : Database) (b c v : Z) :
  let removed := fst (remove_favorite self b c v) in
  let self' := snd (remove_favorite self b c v) in
  removed = is_favorite self b c v
  /\ is_favorite self' b c v = false
  /\ (forall b' c' v',
        (b', c', v') <> (b, c, v) ->
        is_favorite self' b' c' v' = is_favorite self b' c' v')
  /\ chapters_read self' = chapters_read self
  /\ reading_stats self' = reading_stats self
  /\ (consistent self ->
        get_favorites_count self'
        = get_favorites_count self - (if removed then 1 else 0)).
Proof.
  cbn zeta. unfold remove_favorite, is_favorite, get_favorites_count.
  cbn [fst snd set_favorites favorites chapters_read reading_stats].
  rewrite rowcount_positive.
  split; [reflexivity |]. split; [| split; [| split; [reflexivity | split; [reflexivity |]]]].
  - apply not_true_is_false. rewrite existsb_exists.
    intros (row & Hin & Hrow). apply filter_In in Hin as [_ Hneg].
    rewrite Hrow in Hneg. discriminate.
  - intros b' c' v' Hother.
    apply eq_true_iff_eq. rewrite !existsb_exists. split.
    + intros (row & Hin & Hrow). apply filter_In in Hin as [Hin _]. eauto.
    + intros (row & Hin & Hrow). exists row. split; [| exact Hrow].
      apply filter_In. split; [exact Hin |].
      apply negb_true_iff, not_true_is_false. intros Hhit.
      apply same_position_eq in Hrow, Hhit. congruence.
  - intros (_ & Hpos & _).
    pose proof (filter_split_length (same_position b c v) (favorites self)) as Hlen.
    pose proof (at_most_one_hit (favorites self) b c v Hpos) as Hone.
    destruct (existsb (same_position b c v) (favorites self)) eqn:E.
    + assert (length (filter (same_position b c v) (favorites self)) <> 0)%nat.
      { intros Hz. apply length_zero_iff_nil in Hz.
        apply existsb_exists in E as (row & Hin & Hrow).
        assert (Hf : In row (filter (same_position b c v) (favorites self)))
          by (apply filter_In; auto).
        rewrite Hz in Hf. exact Hf. }
      unfold len. lia.
    + destruct (filter_none _ _ E) as [-> _]. lia.
Qed.

(** X7: [update_favorite_note] reports whether the position holds a
    favourite; every favourite at the position then carries the new
    note, and nothing else changes: the same rows in the same order with
    the same ids, positions, texts and dates, and the same notes away
    from the position. *)
Theorem update_favorite_note_updates (self : Database) (b c v : Z) (n : str) :
  let updated := fst (update_favorite_note self b c v n) in
  let self' := snd (update_favorite_note self b c v n) in
  updated = is_favorite self b c v
  /\ get_favorites_count self' = get_favorites_count self
  /\ Forall2 (fun old new =>
                id new = id old /\ position new = position old
                /\ verse_text new = verse_text old
                /\ reference new = reference old
                /\ created_at new = created_at old
                /\ note new = (if same_position b c v old then Some n else note old))
             (favorites self) (favorites self')
  /\ chapters_read self' = chapters_read self
  /\ reading_stats self' = reading_stats self.
Proof.
  cbn zeta. unfold update_favorite_note, is_favorite, get_favorites_count.
  cbn [fst snd set_favorites favorites chapters_read reading_stats].
  rewrite rowcount_positive.
  split; [reflexivity |]. split; [| split; [| split; reflexivity]].
  - unfold len. now rewrite length_map.
  - induction (favorites self) as [| row rows IH]; cbn [map]; constructor; [| exact IH].
    destruct (same_position b c v row); repeat split.
Qed.

(** X8: storing a favourite at a free position and removing it again
    gives back the rows the table had: only the counter moved on, so
    that the id is not handed out a second time. *)
Theorem add_then_remove (now : str) (self : Database) (b c v : Z)
    (text ref : str) (n : option str) :
  is_favorite self b c v = false ->
  let added := snd (add_favorite now self b c v text ref n) in
  let self' := snd (remove_favorite added b c v) in
  fst (remove_favorite added b c v) = true
  /\ favorites self' = favorites self
  /\ favorites_seq self' = favorites_seq self + 1
  /\ chapters_read self' = chapters_read self
  /\ reading_stats self' = reading_stats self.
Proof.
  unfold is_favorite. intros Hfree. cbn zeta.
  unfold add_favorite, _get_connection, insert_favorite. rewrite Hfree.
  cbn [snd]. unfold remove_favorite.
  cbn [fst snd set_favorites favorites favorites_seq chapters_read reading_stats].
  rewrite rowcount_positive, existsb_app, filter_app.
  destruct (filter_none _ _ Hfree) as [-> _].
  cbn [existsb filter]. rewrite same_position_refl_row. cbn.
  rewrite orb_true_r, app_nil_r. repeat split.
Qed.

End store_more.

(* ===================================================================== *)
(** * More on the session aggregator                                        *)
(* ===================================================================== *)

Module history_more.
Import Py database history store_spec store_more.
Local Open Scope Z_scope.

Lemma db_mark_eq (d : Database) (a : str) (c : Z) :
  database.mark_chapter_read d a c
  = if existsb (same_chapter a c) (chapters_read d) then d
    else {| chapters_read := chapters_read d ++ [(a, c)];
            reading_stats := reading_stats d;
            favorites := favorites d;
            favorites_seq := favorites_seq d |}.
Proof.
  unfold database.mark_chapter_read, _get_connection.
  now destruct (existsb (same_chapter a c) (chapters_read d)).
Qed.

(** X9: marking a chapter read is idempotent.  The chapter is read
    afterwards, a second call changes nothing, the number of chapters
    read grows by one exactly when the chapter was not read before, and
    no other chapter changes its status. *)
Theorem mark_chapter_read_once (self : History) (a : str) (c : Z) :
  let self' := mark_chapter_read self a c in
  is_chapter_read self' a c = true
  /\ mark_chapter_read self' a c = self'
  /\ get_total_chapters_read (db self')
     = get_total_chapters_read (db self)
       + (if is_chapter_read self a c then 0 else 1)
  /\ (forall a' c',
        (a', c') <> (a, c) ->
        is_chapter_read self' a' c' = is_chapter_read self a' c').
Proof.
  cbn zeta. unfold mark_chapter_read, is_chapter_read, get_total_chapters_read.
  cbn [db _session_start]. unfold database.is_chapter_read.
  rewrite !db_mark_eq.
  destruct (existsb (same_chapter a c) (chapters_read (db self))) eqn:E.
  - rewrite E. repeat split; lia.
  - cbn [chapters_read]. rewrite existsb_app. cbn [existsb].
    assert (Hself : same_chapter a c (a, c) = true) by now apply same_chapter_eq.
    rewrite Hself, orb_true_r.
    split; [reflexivity |]. split; [reflexivity |]. split.
    + unfold len. rewrite length_app. cbn [length]. lia.
    + intros a' c' Hother. rewrite existsb_app. cbn [existsb].
      assert (Hno : same_chapter a' c' (a, c) = false).
      { apply not_true_is_false. rewrite same_chapter_eq. congruence. }
      rewrite Hno. now rewrite !orb_false_r.
Qed.

Lemma insert_ascending_perm x l : Permutation (x :: l) (insert_ascending x l).
Proof.
  induction l as [| y l IH]; cbn; [reflexivity |].
  destruct (x <=? y); [reflexivity |].
  rewrite perm_swap. now constructor.
Qed.

Lemma order_ascending_perm l : Permutation l (order_ascending l).
Proof.
  induction l as [| x l IH]; cbn; [constructor |].
  rewrite <- insert_ascending_perm. now constructor.
Qed.

Lemma insert_ascending_sorted x l :
  StronglySorted Z.le l -> StronglySorted Z.le (insert_ascending x l).
Proof.
  induction 1 as [| y l Hsorted IH Hall]; cbn.
  - repeat constructor.
  - destruct (Z.leb_spec x y).
    + constructor; [now constructor |].
      constructor; [assumption |].
      eapply Forall_impl; [| exact Hall]. cbn. intros; lia.
    + constructor; [exact IH |].
      eapply Permutation_Forall; [apply insert_ascending_perm |].
      constructor; [lia | exact Hall].
Qed.

Lemma order_ascending_sorted l : StronglySorted Z.le (order_ascending l).
Proof.
  induction l as [| x l IH]; cbn; [constructor | now apply insert_ascending_sorted].
Qed.

Lemma strictly_sorted l :
  StronglySorted Z.le l -> NoDup l -> StronglySorted Z.lt l.
Proof.
  induction 1 as [| x l Hsorted IH Hall]; intros Hnd; constructor;
    inversion Hnd as [| ? ? Hnotin Hrest]; subst; [auto |].
  rewrite Forall_forall in *. intros y Hy.
  specialize (Hall y Hy). assert (x <> y) by congruence. lia.
Qed.

Lemma chapters_of_book_nodup (rows : list (str * Z)) a :
  NoDup rows ->
  NoDup (map snd (filter (fun row => str_eqb (fst row) a) rows)).
Proof.
  induction rows as [| [a' c'] rows IH]; cbn; [constructor |].
  intros Hnd. inversion Hnd as [| ? ? Hnotin Hrest]; subst.
  destruct (str_eqb a' a) eqn:Ea; [| auto].
  cbn. constructor; [| auto].
  apply str_eqb_eq in Ea. subst a'.
  rewrite in_map_iff. intros ([a'' c''] & Hc & Hin). cbn in Hc. subst c''.
  apply filter_In in Hin as [Hin Ha]. cbn in Ha. apply str_eqb_eq in Ha. subst a''.
  contradiction.
Qed.

(** X10: the chapters read of a book are listed in ascending order, and
    a chapter is in the list exactly when it is marked read for that
    book; on a database reached through the operations no chapter is
    listed twice, so the order is strict. *)
Theorem chapters_read_for_book_listing (self : History) (a : str) :
  let listed := get_chapters_read_for_book self a in
  StronglySorted Z.le listed
  /\ (forall c, In c listed <-> is_chapter_read self a c = true)
  /\ (reachable (db self) -> StronglySorted Z.lt listed).
Proof.
  cbn zeta.
  unfold get_chapters_read_for_book, database.get_chapters_read_for_book,
    is_chapter_read, database.is_chapter_read.
  split; [apply order_ascending_sorted |]. split.
  - intros c. rewrite chapter_recorded_iff. split.
    + intros Hin.
      apply (Permutation_in _ (Permutation_sym
                                             (order_ascending_perm _))) in Hin.
      apply in_map_iff in Hin as ([a' c'] & Hc & Hin). cbn in Hc. subst c'.
      apply filter_In in Hin as [Hin Ha]. cbn in Ha. apply str_eqb_eq in Ha.
      now subst a'.
    + intros Hin.
      apply (Permutation_in _ (order_ascending_perm _)).
      apply in_map_iff. exists (a, c). split; [reflexivity |].
      apply filter_In. split; [exact Hin | apply str_eqb_refl].
  - intros Hreach. apply store_more.reachable_chapters_nodup in Hreach as Hnd.
    apply strictly_sorted; [apply order_ascending_sorted |].
    eapply Permutation_NoDup; [apply order_ascending_perm |].
    now apply chapters_of_book_nodup.
Qed.

(** X11: [clear_history] empties the history and closes the session
    without crediting it: no chapter is read any more, every figure of
    [get_stats] is zero -- and the favourites are kept. *)
Theorem clear_history_resets (now : float) (self : History) :
  let self' := clear_history self in
  is_session_active self' = false
  /\ (forall a c, is_chapter_read self' a c = false)
  /\ get_chapters_read_for_book self' = (fun _ => [])
  /\ get_stats now self'
     = Ok {| stat_chapters_read := 0; total_chapters := 1189;
             stat_total_verses_read := 0; total_time_hours := 0;
             total_time_minutes := 0; total_time_seconds := 0;
             progress_percent := 0 |}
  /\ favorites (db self') = favorites (db self)
  /\ favorites_seq (db self') = favorites_seq (db self).
Proof.
  cbn zeta. repeat split.
Qed.

(** X12: [end_session] without an open session changes nothing.  With
    one it closes the session, so that a second call changes nothing
    either; it touches neither the chapters read, nor the verse counter,
    nor the favourites; and the statistics reported at the moment of
    closing are the statistics reported ever after. *)
Theorem end_session_closes (now : float) (self : History) :
  (is_session_active self = false -> end_session now self = Ok self)
  /\ forall self', end_session now self = Ok self' ->
       is_session_active self' = false
       /\ (forall later, end_session later self' = Ok self')
       /\ chapters_read (db self') = chapters_read (db self)
       /\ total_verses_read (reading_stats (db self'))
          = total_verses_read (reading_stats (db self))
       /\ favorites (db self') = favorites (db self)
       /\ (forall later s, get_stats now self = Ok s -> get_stats later self' = Ok s).
Proof.
  unfold end_session, is_session_active, get_stats. split.
  - destruct (_session_start self); [discriminate | reflexivity].
  - intros self' Hend.
    destruct (_session_start self) as [start |] eqn:Hstart.
    + destruct (PyFloat.to_int (now - start)%float) as [elapsed | e]; [| discriminate].
      injection Hend as <-. cbn. repeat split.
      intros later s Hs. exact Hs.
    + injection Hend as <-. rewrite Hstart. repeat split.
      intros later s Hs. exact Hs.
Qed.

(** X13: the hours and minutes of [get_stats] split the total of
    seconds: the minutes are between 0 and 59 and, with the hours, they
    are within a minute below the total. *)
Theorem stats_time_split (now : float) (self : History) (s : Stats) :
  get_stats now self = Ok s ->
  0 <= total_time_minutes s < 60
  /\ 3600 * total_time_hours s + 60 * total_time_minutes s <= total_time_seconds s
  /\ total_time_seconds s < 3600 * total_time_hours s + 60 * total_time_minutes s + 60.
Proof.
  unfold get_stats. intros Hs.
  destruct (match _session_start self with
            | Some start =>
              match PyFloat.to_int (now - start)%float with
              | Ok elapsed => Ok (total_time_reading (get_reading_stats (db self)) + elapsed)
              | Raise e => Raise e
              end
            | None => Ok (total_time_reading (get_reading_stats (db self)))
            end) as [total | e]; [| discriminate].
  destruct (percent (get_total_chapters_read (db self))); [| discriminate].
  injection Hs as <-.
  cbn [total_time_minutes total_time_hours total_time_seconds].
  pose proof (Z.div_mod total 3600 ltac:(lia)).
  pose proof (Z.mod_pos_bound total 3600 ltac:(lia)).
  pose proof (Z.div_mod (total mod 3600) 60 ltac:(lia)).
  pose proof (Z.mod_pos_bound (total mod 3600) 60 ltac:(lia)).
  assert ((total mod 3600) / 60 < 60) by (apply Z.div_lt_upper_bound; lia).
  assert (0 <= (total mod 3600) / 60) by (apply Z.div_pos; lia).
  lia.
Qed.

End history_more.

(* ===================================================================== *)
(** * More on the search                                                    *)
(* ===================================================================== *)

Module search_more.
Import Py Re re_spec bible bible_spec bible_nav search_props reference_props nav_more.
Local Open Scope Z_scope.

Lemma in_enumerate_from {A} (l : list A) (k i : Z) (x : A) :
  In (i, x) (enumerate_from k l) ->
  k <= i < k + len l /\ nth_error l (Z.to_nat (i - k)) = Some x.
Proof.
  revert k. induction l as [| y l IH]; intros k; cbn; [contradiction |].
  intros [Heq | Hin].
  - injection Heq as <- <-. rewrite Z.sub_diag. unfold len. cbn. split; [lia | reflexivity].
  - apply IH in Hin as [Hi Hnth]. unfold len in *. cbn [length]. split; [lia |].
    replace (Z.to_nat (i - k)) with (S (Z.to_nat (i - (k + 1)))) by lia.
    exact Hnth.
Qed.

Lemma nth_error_nth_in_range {A} (l : list A) (i : Z) (x d : A) :
  0 <= i -> nth_error l (Z.to_nat i) = Some x ->
  i < len l /\ nth (Z.to_nat i) l d = x.
Proof.
  intros Hi Hnth. split.
  - assert (Z.to_nat i < length l)%nat by (apply nth_error_Some; congruence).
    unfold len. lia.
  - now apply nth_error_nth.
Qed.

Section Hits.
Context `{UnicodeData}.
Variable self : Bible.

(** Every entry of the enumeration is a verse of the corpus at a valid
    position. *)
Lemma all_verses_sound b c v text :
  In (b, c, v, text) (all_verses self) ->
  0 <= b < len (books self)
  /\ 0 <= c < len (chapters_of self b)
  /\ 0 <= v < len (chapter_at self b c)
  /\ verse_at self b c v = text.
Proof.
  unfold all_verses, corpus_verses. rewrite in_flat_map.
  intros ([b' book] & Hbook & Hin).
  apply in_enumerate_from in Hbook as [Hb Hbook]. rewrite Z.sub_0_r in Hbook.
  unfold book_verses in Hin. rewrite in_flat_map in Hin.
  destruct Hin as ([c' verses] & Hverses & Hin).
  apply in_enumerate_from in Hverses as [Hc Hverses]. rewrite Z.sub_0_r in Hverses.
  unfold chapter_verses in Hin. rewrite in_map_iff in Hin.
  destruct Hin as ([v' text'] & Heq & Hin). injection Heq as -> -> -> ->.
  apply in_enumerate_from in Hin as [Hv Htext]. rewrite Z.sub_0_r in Htext.
  assert (Hbook_at : book_at self b = Some book).
  { unfold book_at, in_range.
    destruct (Z.leb_spec 0 b); [| lia].
    destruct (Z.ltb_spec b (len (books self))); [exact Hbook | lia]. }
  assert (Hchapters : chapters_of self b = get_chapters book).
  { unfold chapters_of. now rewrite Hbook_at. }
  assert (Hchapter : chapter_at self b c = verses).
  { unfold chapter_at, in_range. rewrite Hchapters.
    destruct (Z.leb_spec 0 c); [| lia].
    destruct (Z.ltb_spec c (len (get_chapters book))); [| lia]. cbn.
    now apply nth_error_nth. }
  rewrite Hchapters, Hchapter. repeat split; try lia.
  unfold verse_at, in_range. rewrite Hchapter.
  destruct (Z.leb_spec 0 v); [| lia].
  destruct (Z.ltb_spec v (len verses)); [| lia]. cbn.
  now apply nth_error_nth.
Qed.

(** X14: every hit of [search] addresses a valid position of the
    corpus; the text and the reference it carries are those the
    accessors give for that position, and the text matches the query. *)
Theorem search_hits_are_verses (query : str) (max_results : Z) (case_sensitive : bool)
    (results : list SearchResult) (r : SearchResult) :
  search self query max_results case_sensitive = Ok results ->
  In r results ->
  valid_position self (book_index r) (chapter_index r) (verse_index r)
  /\ get_verse self (book_index r) (chapter_index r) (verse_index r)
     = Ok (verse_text r)
  /\ get_reference self (book_index r) (chapter_index r) (verse_index r)
     = Ok (reference r)
  /\ verse_matches query case_sensitive (verse_text r) = true.
Proof.
  intros Hsearch Hin. rewrite search_eq in Hsearch. injection Hsearch as <-.
  destruct (strip query) as [| c0 s0]; [contradiction |].
  apply in_firstn, in_map_iff in Hin as ([[[b c] v] text] & <- & Hin).
  apply filter_In in Hin as [Hin Hhit].
  apply all_verses_sound in Hin as (Hb & Hc & Hv & Htext).
  cbn [result_of book_index chapter_index verse_index verse_text reference].
  split; [now apply valid_position_of_bounds |].
  split; [rewrite get_verse_eq; now rewrite Htext |].
  split; [apply get_reference_eq | exact Hhit].
Qed.

(** X15: a larger [max_results] only adds hits at the end: the result
    for a smaller limit is the beginning of the result for a larger one,
    and no result is longer than its limit. *)
Theorem search_limit_is_prefix (query : str) (small large : Z) (case_sensitive : bool) :
  small <= large ->
  exists few many,
    search self query small case_sensitive = Ok few
    /\ search self query large case_sensitive = Ok many
    /\ few = firstn (Z.to_nat small) many
    /\ len few <= Z.max 0 small.
Proof.
  intros Hle. rewrite !search_eq. eexists _, _.
  split; [reflexivity |]. split; [reflexivity |].
  destruct (strip query) as [| c0 s0].
  - split; [now rewrite firstn_nil | unfold len; cbn; lia].
  - split.
    + rewrite firstn_firstn. f_equal. lia.
    + unfold len. rewrite length_firstn. lia.
Qed.

Lemma index_of_abbrev_sound (bs : list Book) (k : Z) (key : str) (i : Z) :
  index_of_abbrev bs k key = Some i ->
  k <= i < k + len bs
  /\ exists book, nth_error bs (Z.to_nat (i - k)) = Some book
                  /\ str_eqb (lower (get_abbrev book)) key = true.
Proof.
  revert k. induction bs as [| book bs IH]; intros k; cbn; [discriminate |].
  destruct (str_eqb (lower (get_abbrev book)) key) eqn:E.
  - intros Heq. injection Heq as <-. rewrite Z.sub_diag. unfold len. cbn.
    split; [lia | eauto].
  - intros Hfound. apply IH in Hfound as [Hi (b' & Hnth & Hb')].
    unfold len in *. cbn [length]. split; [lia |].
    exists b'. split; [| exact Hb'].
    replace (Z.to_nat (i - k)) with (S (Z.to_nat (i - (k + 1)))) by lia.
    exact Hnth.
Qed.

Lemma index_by_name_sound (test : str -> bool) (names : list (str * str)) (i : Z) :
  index_by_name self test names = Some i ->
  exists key full,
    In (key, full) names /\ test full = true
    /\ index_of_abbrev (books self) 0 key = Some i.
Proof.
  induction names as [| [key full] names IH]; cbn; [discriminate |].
  destruct (test full) eqn:Etest.
  - destruct (index_of_abbrev (books self) 0 key) as [j |] eqn:Eidx.
    + intros Heq. injection Heq as <-. exists key, full. auto.
    + intros Hrest. destruct (IH Hrest) as (k' & f' & Hin & Ht & Hi).
      exists k', f'. auto.
  - intros Hrest. destruct (IH Hrest) as (k' & f' & Hin & Ht & Hi).
    exists k', f'. auto.
Qed.

Lemma str_eqb_startswith (a b : str) : str_eqb a b = true -> startswith a b = true.
Proof.
  revert b. induction a as [| x a IH]; intros [| y b]; cbn; try congruence.
  rewrite !andb_true_iff. intros [Hxy Hab]. split; [exact Hxy | auto].
Qed.

Lemma find_book_index_bounds (name : str) (i : Z) :
  _find_book_index self name = Some i -> 0 <= i < get_book_count self.
Proof.
  unfold _find_book_index, get_book_count.
  assert (Hbook : forall key,
             index_of_abbrev (books self) 0 key = Some i -> 0 <= i < len (books self)).
  { intros key Hidx. apply index_of_abbrev_sound in Hidx as [Hi _]. lia. }
  destruct (index_of_abbrev (books self) 0 (strip (lower name))) as [j |] eqn:Eabbrev.
  { intros Heq. injection Heq as ->. eauto. }
  destruct (index_by_name self _ BOOK_NAMES) as [j |] eqn:Efull.
  { intros Heq. injection Heq as ->.
    apply index_by_name_sound in Efull as (key & full & _ & _ & Hidx). eauto. }
  intros Hprefix.
  apply index_by_name_sound in Hprefix as (key & full & _ & _ & Hidx). eauto.
Qed.

(** X16: the index [_find_book_index] returns is the index of a book of
    the corpus, and that book's abbreviation is, in lower case, either
    the name looked up or the key of a table entry whose full name
    begins with the name. *)
Theorem find_book_index_sound (name : str) (i : Z) :
  _find_book_index self name = Some i ->
  0 <= i < get_book_count self
  /\ exists book,
       get_book self i = Ok (Some book)
       /\ (lower (get_abbrev book) = strip (lower name)
           \/ exists key full,
                In (key, full) BOOK_NAMES
                /\ lower (get_abbrev book) = key
                /\ startswith (lower full) (strip (lower name)) = true).
Proof.
  unfold _find_book_index, get_book_count.
  assert (Hbook : forall key,
             index_of_abbrev (books self) 0 key = Some i ->
             0 <= i < len (books self)
             /\ exists book, get_book self i = Ok (Some book)
                             /\ lower (get_abbrev book) = key).
  { intros key Hidx. apply index_of_abbrev_sound in Hidx as [Hi (book & Hnth & Hkey)].
    rewrite Z.sub_0_r in Hnth. split; [lia |].
    exists book. split.
    - rewrite get_book_eq. unfold book_at, in_range.
      destruct (Z.leb_spec 0 i); [| lia].
      destruct (Z.ltb_spec i (len (books self))); [| lia]. cbn. now rewrite Hnth.
    - now apply store_more.str_eqb_eq. }
  destruct (index_of_abbrev (books self) 0 (strip (lower name))) as [j |] eqn:Eabbrev.
  { intros Heq. injection Heq as ->.
    destruct (Hbook _ Eabbrev) as [Hi (book & Hget & Hkey)].
    split; [exact Hi |]. exists book. auto. }
  destruct (index_by_name self _ BOOK_NAMES) as [j |] eqn:Efull.
  { intros Heq. injection Heq as ->.
    apply index_by_name_sound in Efull as (key & full & Hin & Htest & Hidx).
    destruct (Hbook _ Hidx) as [Hi (book & Hget & Hkey)].
    split; [exact Hi |]. exists book. split; [exact Hget |].
    right. exists key, full. repeat split; try assumption.
    now apply str_eqb_startswith. }
  intros Hprefix.
  apply index_by_name_sound in Hprefix as (key & full & Hin & Htest & Hidx).
  destruct (Hbook _ Hidx) as [Hi (book & Hget & Hkey)].
  split; [exact Hi |]. exists book. split; [exact Hget |].
  right. exists key, full. auto.
Qed.

(** X17: a reference that resolves addresses an existing chapter of an
    existing book, and the verse it names exists; when no verse is
    named the verse index is 0.  The text and the reference of the
    result are those of the accessors, and there is no highlight. *)
Theorem search_by_reference_in_range (reference : str) (r : SearchResult) :
  search_by_reference self reference = Ok (Some r) ->
  0 <= book_index r < get_book_count self
  /\ (exists n, get_chapter_count self (book_index r) = Ok n
                /\ 0 <= chapter_index r < n)
  /\ (verse_index r = 0
      \/ exists n, get_verse_count self (book_index r) (chapter_index r) = Ok n
                   /\ 0 <= verse_index r < n)
  /\ get_verse self (book_index r) (chapter_index r) (verse_index r)
     = Ok (verse_text r)
  /\ get_reference self (book_index r) (chapter_index r) (verse_index r)
     = Ok (bible.reference r)
  /\ highlight r = None.
Proof.
  intros Hfound.
  assert (Hresolve : exists name chapter verse, resolve self name chapter verse = Some r).
  { pose proof (search_by_reference_eq self reference) as Heq.
    destruct (first_match patterns (strip reference)) as [groups |].
    - destruct Heq as [(g0 & g1 & g2 & chapter & verse & _ & _ & _ & Heq)
                      | [(g0 & g1 & chapter & _ & _ & Heq) | (Heq & _)]];
        rewrite Heq in Hfound; [| | discriminate];
        injection Hfound as Hfound; eauto.
    - rewrite Heq in Hfound. discriminate. }
  destruct Hresolve as (name & chapter & verse & Hresolve).
  unfold resolve in Hresolve.
  destruct (_find_book_index self name) as [b |] eqn:Ebook; [| discriminate].
  apply find_book_index_bounds in Ebook as Hb.
  destruct (in_range (chapter - 1) (len (chapters_of self b))) eqn:Ec; [| discriminate].
  apply in_range_spec in Ec.
  assert (Hshape : forall v, (v = 0 \/ 0 <= v < len (chapter_at self b (chapter - 1))) ->
                   r = found_at self b (chapter - 1) v ->
                   0 <= book_index r < get_book_count self
                   /\ (exists n, get_chapter_count self (book_index r) = Ok n
                                 /\ 0 <= chapter_index r < n)
                   /\ (verse_index r = 0
                       \/ exists n, get_verse_count self (book_index r) (chapter_index r) = Ok n
                                    /\ 0 <= verse_index r < n)
                   /\ get_verse self (book_index r) (chapter_index r) (verse_index r)
                      = Ok (verse_text r)
                   /\ get_reference self (book_index r) (chapter_index r) (verse_index r)
                      = Ok (bible.reference r)
                   /\ highlight r = None).
  { intros v Hv ->. cbn [found_at book_index chapter_index verse_index verse_text
                           bible.reference highlight].
    split; [exact Hb |]. split.
    { eexists. split; [apply get_chapter_count_eq | exact Ec]. }
    split.
    { destruct Hv as [-> | Hv]; [now left | right].
      eexists. split; [apply get_verse_count_eq | exact Hv]. }
    split; [apply get_verse_eq |]. split; [apply get_reference_eq | reflexivity]. }
  destruct verse as [verse |].
  - destruct (in_range (verse - 1) (len (chapter_at self b (chapter - 1)))) eqn:Ev;
      [| discriminate].
    apply in_range_spec in Ev. injection Hresolve as <-.
    apply (Hshape (verse - 1)); [now right | reflexivity].
  - injection Hresolve as <-. apply (Hshape 0); [now left | reflexivity].
Qed.

Lemma all_books_from_nth (bs : list Book) (k i : Z) :
  0 <= i < len bs ->
  exists book e,
    nth_error bs (Z.to_nat i) = Some book
    /\ nth_error (all_books_from bs k) (Z.to_nat i) = Some e
    /\ entry_index e = k + i
    /\ entry_abbrev e = get_abbrev book
    /\ entry_name e = dict_get BOOK_NAMES (get_abbrev book) (upper (get_abbrev book))
    /\ entry_chapters e = len (get_chapters book).
Proof.
  revert k i. induction bs as [| book bs IH]; intros k i Hi.
  - unfold len in Hi. cbn in Hi. lia.
  - destruct (Z.eq_dec i 0) as [-> | Hnz].
    + exists book. eexists. change (Z.to_nat 0) with 0%nat.
      cbn [nth_error all_books_from].
      split; [reflexivity |]. split; [reflexivity |].
      cbn [entry_index entry_abbrev entry_name entry_chapters].
      repeat split. lia.
    + unfold len in Hi. cbn [length] in Hi.
      destruct (IH (k + 1) (i - 1)) as (b' & e & Hb & He & Hidx & Hrest);
        [unfold len; lia |].
      exists b', e.
      replace (Z.to_nat i) with (S (Z.to_nat (i - 1))) by lia.
      cbn [nth_error all_books_from].
      split; [exact Hb |]. split; [exact He |]. split; [lia | exact Hrest].
Qed.

Lemma all_books_from_length (bs : list Book) (k : Z) :
  length (all_books_from bs k) = length bs.
Proof. revert k. induction bs; intros k; cbn; auto. Qed.

(** X18: [get_all_books] lists the books of the corpus in order, one
    entry each: the entry at [i] carries the index [i] and agrees with
    [get_book_abbrev], [get_book_name] and [get_chapter_count] at [i]. *)
Theorem get_all_books_agrees :
  len (get_all_books self) = get_book_count self
  /\ forall i, 0 <= i < get_book_count self ->
       exists e,
         getitem (get_all_books self) i = Ok e
         /\ entry_index e = i
         /\ get_book_abbrev self i = Ok (entry_abbrev e)
         /\ get_book_name self i = Ok (entry_name e)
         /\ get_chapter_count self i = Ok (entry_chapters e).
Proof.
  unfold get_all_books, get_book_count. split.
  { unfold len. now rewrite all_books_from_length. }
  intros i Hi.
  destruct (all_books_from_nth (books self) 0 i Hi)
    as (book & e & Hbook & He & Hidx & Habbrev & Hname & Hchapters).
  exists e.
  assert (Hat : book_at self i = Some book).
  { unfold book_at, in_range.
    destruct (Z.leb_spec 0 i); [| lia].
    destruct (Z.ltb_spec i (len (books self))); [exact Hbook | lia]. }
  split.
  { unfold getitem. destruct (Z.ltb_spec i 0); [lia |].
    destruct (Z.ltb_spec i 0); [lia |]. now rewrite He. }
  split; [lia |]. split; [| split].
  - unfold get_book_abbrev. rewrite get_book_eq, Hat. cbn [bind].
    rewrite Habbrev. destruct (book_truth book) eqn:T; [reflexivity |].
    unfold book_truth in T. unfold get_abbrev.
    destruct (abbrev book), (chapters book), (other_keys book); try discriminate.
    reflexivity.
  - rewrite get_book_name_eq. unfold book_name_of. now rewrite Hat, Hname.
  - rewrite get_chapter_count_eq. unfold chapters_of. now rewrite Hat, Hchapters.
Qed.

Lemma enumerate_from_in {A} (l : list A) (k : Z) (n : nat) (x : A) :
  nth_error l n = Some x -> In (k + Z.of_nat n, x) (enumerate_from k l).
Proof.
  revert k n. induction l as [| y l IH]; intros k [| n]; cbn; try discriminate.
  - intros Heq. injection Heq as ->. left. f_equal. lia.
  - intros Hnth. right.
    replace (k + Z.pos (Pos.of_succ_nat n)) with (k + 1 + Z.of_nat n) by lia.
    now apply IH.
Qed.

(** Every verse at a valid position is in the enumeration. *)
Lemma all_verses_complete b c v :
  0 <= b < len (books self) ->
  0 <= c < len (chapters_of self b) ->
  0 <= v < len (chapter_at self b c) ->
  In (b, c, v, verse_at self b c v) (all_verses self).
Proof.
  intros Hb Hc Hv.
  destruct (book_at_some self b Hb) as [book Hbook].
  assert (Hchapters : chapters_of self b = get_chapters book).
  { unfold chapters_of. now rewrite Hbook. }
  unfold book_at, in_range in Hbook.
  destruct (Z.leb_spec 0 b); [| lia].
  destruct (Z.ltb_spec b (len (books self))); [| lia]. cbn in Hbook.
  unfold all_verses, corpus_verses. apply in_flat_map.
  exists (b, book). split.
  { replace b with (0 + Z.of_nat (Z.to_nat b)) at 1 by lia.
    now apply enumerate_from_in. }
  unfold book_verses. apply in_flat_map.
  exists (c, chapter_at self b c). split.
  { replace c with (0 + Z.of_nat (Z.to_nat c)) at 1 by lia.
    apply enumerate_from_in. rewrite <- Hchapters.
    unfold chapter_at, in_range.
    destruct (Z.leb_spec 0 c); [| lia].
    destruct (Z.ltb_spec c (len (chapters_of self b))); [| lia]. cbn.
    apply nth_error_nth'. unfold len in Hc. lia. }
  unfold chapter_verses. apply in_map_iff.
  exists (v, verse_at self b c v). split; [reflexivity |].
  replace v with (0 + Z.of_nat (Z.to_nat v)) at 1 by lia.
  apply enumerate_from_in.
  unfold verse_at, in_range.
  destruct (Z.leb_spec 0 v); [| lia].
  destruct (Z.ltb_spec v (len (chapter_at self b c))); [| lia]. cbn.
  apply nth_error_nth'. unfold len in Hv. lia.
Qed.

(** X19: while the limit is not reached, [search] misses nothing: every
    verse at a valid position that matches a query that is not blank is
    among the hits. *)
Theorem search_is_complete (query : str) (max_results : Z) (case_sensitive : bool)
    (results : list SearchResult) (b c v : Z) (text : str) :
  strip query <> [] ->
  search self query max_results case_sensitive = Ok results ->
  len results < max_results ->
  valid_position self b c v ->
  get_verse self b c v = Ok text ->
  verse_matches query case_sensitive text = true ->
  exists r, In r results /\ position_and_text r = (b, c, v, text).
Proof.
  intros Hq Hsearch Hroom Hvalid Htext Hmatch.
  rewrite search_eq in Hsearch. injection Hsearch as <-.
  destruct (strip query) as [| c0 s0]; [congruence |].
  apply valid_position_bounds in Hvalid as (Hb & Hc & Hv).
  rewrite get_verse_eq in Htext. injection Htext as <-.
  set (hits := map (result_of self query case_sensitive)
                   (filter (hit query case_sensitive) (all_verses self))) in *.
  assert (Hall : firstn (Z.to_nat max_results) hits = hits).
  { apply firstn_all2. unfold len in Hroom. rewrite length_firstn in Hroom. lia. }
  rewrite Hall.
  exists (result_of self query case_sensitive (b, c, v, verse_at self b c v)).
  split; [| apply position_of_result].
  apply in_map, filter_In. split; [now apply all_verses_complete | exact Hmatch].
Qed.

Lemma sorted_app {A} (R : A -> A -> Prop) (l1 l2 : list A) :
  StronglySorted R l1 -> StronglySorted R l2 ->
  (forall x y, In x l1 -> In y l2 -> R x y) ->
  StronglySorted R (l1 ++ l2).
Proof.
  induction 1 as [| x l1 Hs IH Hall]; intros Hl2 Hcross; cbn; [exact Hl2 |].
  constructor.
  - apply IH; [exact Hl2 |]. intros; apply Hcross; [now right | assumption].
  - apply Forall_app. split; [exact Hall |].
    apply Forall_forall. intros y Hy. apply Hcross; [now left | exact Hy].
Qed.

Lemma sorted_filter {A} (R : A -> A -> Prop) (p : A -> bool) (l : list A) :
  StronglySorted R l -> StronglySorted R (filter p l).
Proof.
  induction 1 as [| x l Hs IH Hall]; cbn; [constructor |].
  destruct (p x); [| exact IH]. constructor; [exact IH |].
  rewrite Forall_forall in *. intros y Hy. apply filter_In in Hy. apply Hall. tauto.
Qed.

Lemma sorted_firstn {A} (R : A -> A -> Prop) (n : nat) (l : list A) :
  StronglySorted R l -> StronglySorted R (firstn n l).
Proof.
  intros Hs. revert n. induction Hs as [| x l Hs IH Hall]; intros [| n]; cbn;
    try constructor; [apply IH |].
  rewrite Forall_forall in *. intros y Hy. apply Hall. eapply in_firstn; eassumption.
Qed.

Lemma sorted_map {A B} (R : A -> A -> Prop) (R' : B -> B -> Prop) (f : A -> B)
    (l : list A) :
  (forall x y, R x y -> R' (f x) (f y)) ->
  StronglySorted R l -> StronglySorted R' (map f l).
Proof.
  intros Hf. induction 1 as [| x l Hs IH Hall]; cbn; constructor; [exact IH |].
  rewrite Forall_forall in *. intros y Hy.
  apply in_map_iff in Hy as (z & <- & Hz). auto.
Qed.

Lemma chapter_verses_sorted b c verses i :
  StronglySorted entry_before (chapter_verses b c verses i)
  /\ forall e, In e (chapter_verses b c verses i) ->
       exists v text, e = (b, c, v, text) /\ i <= v.
Proof.
  revert i. induction verses as [| text verses IH]; intros i.
  - split; [constructor | intros e []].
  - destruct (IH (i + 1)) as [Hs Hin]. unfold chapter_verses in *.
    cbn [enumerate_from map]. split.
    + constructor; [exact Hs |].
      apply Forall_forall. intros e He.
      destruct (Hin e He) as (v & t & -> & Hv). cbn. lia.
    + intros e [<- | He]; [exists i, text; split; [reflexivity | lia] |].
      destruct (Hin e He) as (v & t & -> & Hv). exists v, t. split; [reflexivity | lia].
Qed.

Lemma book_verses_sorted b chapters j :
  StronglySorted entry_before (book_verses b chapters j)
  /\ forall e, In e (book_verses b chapters j) ->
       exists c v text, e = (b, c, v, text) /\ j <= c.
Proof.
  revert j. induction chapters as [| verses chapters IH]; intros j.
  - split; [constructor | intros e []].
  - destruct (IH (j + 1)) as [Hs Hin]. unfold book_verses in *.
    cbn [enumerate_from flat_map].
    destruct (chapter_verses_sorted b j verses 0) as [Hs0 Hin0]. split.
    + apply sorted_app; [exact Hs0 | exact Hs |].
      intros x y Hx Hy.
      destruct (Hin0 x Hx) as (v & t & -> & _).
      destruct (Hin y Hy) as (c' & v' & t' & -> & Hc). cbn. lia.
    + intros e He. apply in_app_or in He as [He | He].
      * destruct (Hin0 e He) as (v & t & -> & _). exists j, v, t. split; [reflexivity | lia].
      * destruct (Hin e He) as (c' & v' & t' & -> & Hc).
        exists c', v', t'. split; [reflexivity | lia].
Qed.

Lemma corpus_verses_sorted bs k :
  StronglySorted entry_before (corpus_verses bs k)
  /\ forall e, In e (corpus_verses bs k) ->
       exists b c v text, e = (b, c, v, text) /\ k <= b.
Proof.
  revert k. induction bs as [| book bs IH]; intros k.
  - split; [constructor | intros e []].
  - destruct (IH (k + 1)) as [Hs Hin]. unfold corpus_verses in *.
    cbn [enumerate_from flat_map].
    destruct (book_verses_sorted k (get_chapters book) 0) as [Hs0 Hin0]. split.
    + apply sorted_app; [exact Hs0 | exact Hs |].
      intros x y Hx Hy.
      destruct (Hin0 x Hx) as (c & v & t & -> & _).
      destruct (Hin y Hy) as (b' & c' & v' & t' & -> & Hb). cbn. lia.
    + intros e He. apply in_app_or in He as [He | He].
      * destruct (Hin0 e He) as (c & v & t & -> & _).
        exists k, c, v, t. split; [reflexivity | lia].
      * destruct (Hin e He) as (b' & c' & v' & t' & -> & Hb).
        exists b', c', v', t'. split; [reflexivity | lia].
Qed.

(** X20: the hits of [search] come in reading order, each position
    strictly after the one before: no verse is reported twice. *)
Theorem search_hits_in_reading_order (query : str) (max_results : Z)
    (case_sensitive : bool) (results : list SearchResult) :
  search self query max_results case_sensitive = Ok results ->
  StronglySorted
    (fun r1 r2 =>
       reads_before (book_index r1, chapter_index r1, verse_index r1)
                    (book_index r2, chapter_index r2, verse_index r2))
    results.
Proof.
  intros Hsearch. rewrite search_eq in Hsearch. injection Hsearch as <-.
  destruct (strip query) as [| c0 s0]; [constructor |].
  apply sorted_firstn.
  apply (sorted_map entry_before).
  - intros [[[b c] v] t] [[[b' c'] v'] t'] Hbefore. exact Hbefore.
  - apply sorted_filter. apply corpus_verses_sorted.
Qed.

End Hits.

End search_more.

(* ===================================================================== *)
(** * From a reference text back to the position                            *)
(* ===================================================================== *)

Module round_trip.
Import Py Re re_spec bible bible_spec text_spec.
Import bible_nav search_props match_props reference_props nav_more search_more.
Local Open Scope Z_scope.

(** ** Numerals *)

Lemma utf8_decode_ascii (x : N) (rest : list N) :
  (x < 128)%N -> utf8_decode (x :: rest) = x :: utf8_decode rest.
Proof.
  intros Hx. cbn [utf8_decode]. apply N.ltb_lt in Hx. now rewrite Hx.
Qed.

Lemma u_string_of_uint (d : Decimal.uint) :
  u (DecimalString.NilEmpty.string_of_uint d) = digit_codes d.
Proof.
  unfold u. induction d; cbn [DecimalString.NilEmpty.string_of_uint
                              list_ascii_of_string map digit_codes];
    [reflexivity | ..];
    (rewrite utf8_decode_ascii; [now rewrite IHd | cbn; lia]).
Qed.

Lemma numeral_value_acc (d : Decimal.uint) (p : positive) :
  Z.pos (Pos.of_uint_acc d p) = numeral_value d (Z.pos p).
Proof.
  revert p. induction d; intros p; cbn [Pos.of_uint_acc numeral_value];
    [reflexivity | ..]; rewrite IHd; f_equal; lia.
Qed.

Lemma numeral_value_0 (d : Decimal.uint) :
  Z.of_N (Pos.of_uint d) = numeral_value d 0.
Proof.
  induction d; cbn [Pos.of_uint numeral_value]; [reflexivity | exact IHd | ..];
    cbn [Z.of_N]; rewrite numeral_value_acc; reflexivity.
Qed.

Lemma digit_codes_ascii (d : Decimal.uint) :
  forallb ascii_digit (digit_codes d) = true.
Proof. induction d; cbn; auto. Qed.

Lemma digit_codes_nonnil (d : Decimal.uint) :
  d <> Decimal.Nil -> digit_codes d <> [].
Proof. destruct d; cbn; congruence. Qed.

Lemma ascii_digit_cases (x : char) :
  ascii_digit x = true ->
  In x [48; 49; 50; 51; 52; 53; 54; 55; 56; 57]%N.
Proof.
  unfold ascii_digit, between. rewrite andb_true_iff, !N.leb_le. intros [Hlo Hhi].
  cbn. lia.
Qed.

Section Numerals.
Context `{UnicodeData}.

Lemma ascii_digit_classes (x : char) :
  ascii_digit x = true ->
  isdecimal x = true /\ isspace x = false /\ word_char x = true
  /\ ieq 58%N x = false /\ decimal_value x = Z.of_N x - 48.
Proof.
  intros Hx. apply ascii_digit_cases in Hx.
  repeat (destruct Hx as [<- | Hx]; [repeat split |]); contradiction.
Qed.

Lemma decimal_value_latin1 (x : char) :
  (x < 256)%N -> decimal_value x = Z.of_N x - 48.
Proof.
  intros Hx. unfold decimal_value, latin1. apply N.ltb_lt in Hx. now rewrite Hx.
Qed.

Lemma fold_digit_codes (d : Decimal.uint) (acc : Z) :
  fold_left (fun a c => 10 * a + decimal_value c) (digit_codes d) acc
  = numeral_value d acc.
Proof.
  revert acc. induction d; intros acc; cbn [digit_codes fold_left numeral_value];
    [reflexivity | ..]; rewrite <- IHd; f_equal;
    rewrite decimal_value_latin1 by (cbn; lia); cbn [Z.of_N]; lia.
Qed.

Lemma digits_are_decimal (s : str) :
  forallb ascii_digit s = true -> forallb isdecimal s = true.
Proof.
  induction s as [| x s IH]; cbn; [reflexivity |].
  rewrite !andb_true_iff. intros [Hx Hs]. split; [| auto].
  now apply ascii_digit_classes.
Qed.

(** The text of a positive integer is a numeral, and reading it gives
    the integer back, unless the numeral is too long for [int]. *)
Lemma str_of_int_positive (n : Z) :
  0 < n ->
  str_of_int n <> []
  /\ forallb ascii_digit (str_of_int n) = true
  /\ int_of_str (str_of_int n)
     = if convertible (str_of_int n) then Ok n else Raise ValueError.
Proof.
  intros Hn. destruct n as [| p |]; try lia.
  unfold str_of_int. cbn [Z.to_int DecimalString.NilZero.string_of_int].
  assert (Hnil : Pos.to_uint p <> Decimal.Nil) by apply DecimalPos.Unsigned.to_uint_nonnil.
  assert (Hs : u (DecimalString.NilZero.string_of_uint (Pos.to_uint p))
               = digit_codes (Pos.to_uint p)).
  { rewrite <- u_string_of_uint. unfold DecimalString.NilZero.string_of_uint.
    now destruct (Pos.to_uint p). }
  rewrite Hs. split; [now apply digit_codes_nonnil |].
  split; [apply digit_codes_ascii |].
  unfold int_of_str, convertible.
  destruct (digit_codes (Pos.to_uint p)) eqn:E.
  { now apply digit_codes_nonnil in E. }
  rewrite <- E, digits_are_decimal by apply digit_codes_ascii.
  destruct (length (digit_codes (Pos.to_uint p)) <=? int_max_str_digits)%nat;
    [| reflexivity].
  rewrite fold_digit_codes, <- numeral_value_0, DecimalPos.Unsigned.of_to.
  reflexivity.
Qed.

End Numerals.

(** ** The matcher, run forwards

    When the longest run of every repetition lets the rest of the
    pattern match, the matcher succeeds without backing off.  Each lemma
    moves one item of the pattern. *)

Section Forwards.
Context `{UnicodeData}.

Lemma greedy_munch c (k : str -> bool -> option str -> option (list str))
    taken rest cur r :
  forallb (cls_match c) taken = true ->
  stops c rest = true ->
  (forall b, k rest b (pushes taken cur) = Some r) ->
  forall b, greedy c k (taken ++ rest) b cur = Some r.
Proof.
  intros Hall Hstop Hk. revert cur Hk.
  induction taken as [| x taken IH]; intros cur Hk b.
  - cbn [app]. destruct rest as [| y rest]; cbn [greedy]; [apply Hk |].
    cbn in Hstop. apply negb_true_iff in Hstop. rewrite Hstop. apply Hk.
  - cbn in Hall. apply andb_true_iff in Hall as [Hx Hall].
    cbn [app greedy]. rewrite Hx. now rewrite (IH Hall (push x cur) Hk false).
Qed.

Lemma fwd_One c p x rest cur caps r :
  cls_match c x = true ->
  (forall b, run p rest b (push x cur) caps = Some r) ->
  forall b, run (One c :: p) (x :: rest) b cur caps = Some r.
Proof. intros Hx Hp b. cbn [run]. now rewrite Hx. Qed.

Lemma fwd_Opt_take c p x rest cur caps r :
  cls_match c x = true ->
  (forall b, run p rest b (push x cur) caps = Some r) ->
  forall b, run (Opt c :: p) (x :: rest) b cur caps = Some r.
Proof. intros Hx Hp b. cbn [run]. now rewrite Hx, Hp. Qed.

Lemma fwd_Opt_skip c p s cur caps r :
  stops c s = true ->
  (forall b, run p s b cur caps = Some r) ->
  forall b, run (Opt c :: p) s b cur caps = Some r.
Proof.
  intros Hstop Hp b. cbn [run]. destruct s as [| x s]; [apply Hp |].
  cbn in Hstop. apply negb_true_iff in Hstop. rewrite Hstop. apply Hp.
Qed.

Lemma fwd_Star c p taken rest cur caps r :
  forallb (cls_match c) taken = true ->
  stops c rest = true ->
  (forall b, run p rest b (pushes taken cur) caps = Some r) ->
  forall b, run (Star c :: p) (taken ++ rest) b cur caps = Some r.
Proof.
  intros Hall Hstop Hp b. cbn [run].
  now apply (greedy_munch c (fun s1 b1 cur1 => run p s1 b1 cur1 caps)).
Qed.

Lemma fwd_Plus c p taken rest cur caps r :
  taken <> [] ->
  forallb (cls_match c) taken = true ->
  stops c rest = true ->
  (forall b, run p rest b (pushes taken cur) caps = Some r) ->
  forall b, run (Plus c :: p) (taken ++ rest) b cur caps = Some r.
Proof.
  intros Hne Hall Hstop Hp b. destruct taken as [| x taken]; [congruence |].
  cbn in Hall. apply andb_true_iff in Hall as [Hx Hall].
  cbn [app run]. rewrite Hx.
  now apply (greedy_munch c (fun s1 b1 cur1 => run p s1 b1 cur1 caps)).
Qed.

Lemma fwd_GClose p s buf caps r :
  (forall b, run p s b None (caps ++ [rev buf]) = Some r) ->
  forall b, run (GClose :: p) s b (Some buf) caps = Some r.
Proof. intros Hp b. apply Hp. Qed.

Lemma fwd_GOpen p s cur caps r :
  (forall b, run p s b (Some []) caps = Some r) ->
  forall b, run (GOpen :: p) s b cur caps = Some r.
Proof. intros Hp b. apply Hp. Qed.

Lemma digits_stop_spaces (D t : str) :
  D <> [] -> forallb ascii_digit D = true -> stops Space (D ++ t) = true.
Proof.
  destruct D as [| x D]; [congruence |]. cbn. intros _ Hall.
  apply andb_true_iff in Hall as [Hx _].
  apply ascii_digit_classes in Hx as (_ & Hspace & _). now rewrite Hspace.
Qed.

Lemma digits_match (D : str) :
  forallb ascii_digit D = true -> forallb (cls_match Digit) D = true.
Proof. apply digits_are_decimal. Qed.

(** The full pattern on a name followed by a blank, a numeral, a colon
    and a numeral. *)
Lemma match_reference_text (lead blanks word D1 D2 : str) :
  forallb (cls_match Space) blanks = true ->
  word <> [] ->
  forallb (cls_match Word) word = true ->
  (forall t, stops Space (word ++ t) = true) ->
  (lead = [] /\ (forall t, stops Digit (blanks ++ word ++ t) = true)
   \/ exists d, lead = [d] /\ cls_match Digit d = true) ->
  D1 <> [] -> forallb ascii_digit D1 = true ->
  D2 <> [] -> forallb ascii_digit D2 = true ->
  re_match pattern_full (lead ++ blanks ++ word ++ [32%N] ++ D1 ++ [58%N] ++ D2)
  = Some [lead ++ blanks ++ word; D1; D2].
Proof.
  intros Hblanks Hword Hwordc Hwstop Hlead HD1 HD1d HD2 HD2d.
  assert (Hrest : forall buf,
             forall b, run [Plus Word; GClose; Plus Space; GOpen; Plus Digit; GClose;
                            One (Lit 58%N); GOpen; Plus Digit; GClose; Eos]
                           (word ++ [32%N] ++ D1 ++ [58%N] ++ D2) b (Some buf) []
                       = Some [rev buf ++ word; D1; D2]).
  { intros buf. apply fwd_Plus; [assumption | assumption | reflexivity |].
    rewrite pushes_some. apply fwd_GClose.
    apply (fwd_Plus Space _ [32%N]); [discriminate | reflexivity | |].
    { now apply digits_stop_spaces. }
    cbn [pushes fold_left push option_map]. apply fwd_GOpen.
    apply fwd_Plus; [assumption | now apply digits_match | reflexivity |].
    rewrite pushes_some. apply fwd_GClose.
    apply fwd_One; [reflexivity |]. cbn [push option_map]. apply fwd_GOpen.
    intros b. revert b.
    replace (run [Plus Digit; GClose; Eos] D2)
      with (run [Plus Digit; GClose; Eos] (D2 ++ [])) by now rewrite app_nil_r.
    apply fwd_Plus; [assumption | now apply digits_match | reflexivity |].
    rewrite pushes_some. apply fwd_GClose.
    intros b. cbn [run app].
    rewrite !app_nil_r, !rev_app_distr, !rev_involutive. reflexivity. }
  enough (Hall : forall b,
             run [Opt Digit; Star Space; Plus Word; GClose; Plus Space; GOpen;
                  Plus Digit; GClose; One (Lit 58%N); GOpen; Plus Digit; GClose; Eos]
                 (lead ++ blanks ++ word ++ [32%N] ++ D1 ++ [58%N] ++ D2) b (Some []) []
             = Some [lead ++ blanks ++ word; D1; D2])
    by exact (Hall true).
  destruct Hlead as [[-> Hdstop] | (d & -> & Hd)].
  - cbn [app]. apply fwd_Opt_skip; [apply Hdstop |].
    apply fwd_Star; [assumption | apply Hwstop |].
    rewrite pushes_some, app_nil_r. intros b.
    rewrite Hrest. now rewrite rev_involutive.
  - cbn [app]. apply fwd_Opt_take; [assumption |]. cbn [push option_map].
    apply fwd_Star; [assumption | apply Hwstop |].
    rewrite pushes_some. intros b.
    rewrite Hrest. rewrite rev_app_distr, rev_involutive. reflexivity.
Qed.

End Forwards.

(** ** Book names *)

Section Names.
Context `{UnicodeData}.

Lemma lstrip_nonspace x t : isspace x = false -> lstrip (x :: t) = x :: t.
Proof. intros Hx. cbn. now rewrite Hx. Qed.

(** A text that begins with no blank and ends with a digit has nothing
    to strip. *)
Lemma strip_fixed (x : char) (t D : str) :
  isspace x = false -> D <> [] -> forallb ascii_digit D = true ->
  strip (x :: t ++ D) = x :: t ++ D.
Proof.
  intros Hx HD Hall. unfold strip, rstrip.
  rewrite (lstrip_nonspace x _ Hx).
  destruct (exists_last HD) as (D' & y & ->).
  rewrite forallb_app in Hall. apply andb_true_iff in Hall as [_ Hy].
  cbn in Hy. rewrite andb_true_r in Hy.
  apply ascii_digit_classes in Hy as (_ & Hspace & _).
  change (x :: t ++ D' ++ [y]) with ((x :: t) ++ D' ++ [y]).
  rewrite !app_assoc. remember ((x :: t) ++ D') as body.
  rewrite rev_app_distr. cbn [rev app].
  rewrite (lstrip_nonspace y _ Hspace). cbn [rev].
  now rewrite rev_involutive.
Qed.

Lemma leading_spaces_split s : s = leading_spaces s ++ lstrip s.
Proof.
  induction s as [| x s IH]; [reflexivity |]. cbn.
  destruct (isspace x); cbn; congruence.
Qed.

Lemma leading_spaces_are_spaces s :
  forallb (cls_match Space) (leading_spaces s) = true.
Proof.
  induction s as [| x s IH]; [reflexivity |]. cbn.
  destruct (isspace x) eqn:Ex; [| reflexivity]. cbn. now rewrite Ex.
Qed.

Lemma lstrip_stops s t : lstrip s <> [] -> stops Space (lstrip s ++ t) = true.
Proof.
  induction s as [| x s IH]; cbn; [congruence |].
  destruct (isspace x) eqn:Ex; [exact IH |]. intros _. cbn. now rewrite Ex.
Qed.

Lemma name_shape_parts name :
  name_shape name = true ->
  exists lead blanks word x t,
    name = lead ++ blanks ++ word
    /\ name = x :: t /\ isspace x = false
    /\ forallb (cls_match Space) blanks = true
    /\ word <> [] /\ forallb (cls_match Word) word = true
    /\ (forall t', stops Space (word ++ t') = true)
    /\ (lead = [] /\ (forall t', stops Digit (blanks ++ word ++ t') = true)
        \/ exists d, lead = [d] /\ cls_match Digit d = true).
Proof.
  unfold name_shape, name_parts. destruct name as [| x rest]; [discriminate |].
  destruct (isspace x) eqn:Ex.
  { destruct (isdecimal x); discriminate. }
  destruct (isdecimal x) eqn:Ed.
  - intros Hs. apply andb_true_iff in Hs as [Hs Hw].
    apply andb_true_iff in Hs as [_ Hne].
    assert (Hword : lstrip rest <> []) by (destruct (lstrip rest); congruence).
    exists [x], (leading_spaces rest), (lstrip rest), x, rest.
    split; [cbn; f_equal; apply leading_spaces_split |].
    split; [reflexivity |]. split; [exact Ex |].
    split; [apply leading_spaces_are_spaces |].
    split; [exact Hword |]. split; [exact Hw |].
    split; [intros t'; now apply lstrip_stops |].
    right. exists x. auto.
  - rewrite (lstrip_nonspace x rest Ex).
    intros Hs. apply andb_true_iff in Hs as [_ Hw].
    exists [], [], (x :: rest), x, rest.
    split; [reflexivity |]. split; [reflexivity |]. split; [exact Ex |].
    split; [reflexivity |]. split; [discriminate |]. split; [exact Hw |].
    split; [intros t'; cbn; now rewrite Ex |].
    left. split; [reflexivity |]. intros t'. cbn. now rewrite Ed.
Qed.

Lemma match_reference_name (name D1 D2 : str) :
  name_shape name = true ->
  D1 <> [] -> forallb ascii_digit D1 = true ->
  D2 <> [] -> forallb ascii_digit D2 = true ->
  re_match pattern_full (name ++ [32%N] ++ D1 ++ [58%N] ++ D2) = Some [name; D1; D2].
Proof.
  intros Hshape HD1 HD1d HD2 HD2d.
  destruct (name_shape_parts name Hshape)
    as (lead & blanks & word & x & t & Hparts & _ & _ & Hblanks & Hword &
        Hwordc & Hwstop & Hlead).
  subst name. rewrite <- !app_assoc. now apply match_reference_text.
Qed.

(** Every entry of the table passes the check. *)
Lemma table_resolves : forallb entry_resolves BOOK_NAMES = true.
Proof. vm_compute. reflexivity. Qed.

Lemma entry_facts (a full : str) :
  In (a, full) BOOK_NAMES ->
  lower a = a
  /\ dict_get BOOK_NAMES a (upper a) = full
  /\ name_shape full = true
  /\ lower full = looked_up full
  /\ (forall a' full', In (a', full') BOOK_NAMES ->
                       lower full' = looked_up full -> a' = a)
  /\ (forall a' full', In (a', full') BOOK_NAMES -> a' = looked_up full -> a' = a).
Proof.
  intros Hin. pose proof table_resolves as Htable.
  rewrite forallb_forall in Htable. specialize (Htable _ Hin).
  unfold entry_resolves in Htable.
  apply andb_true_iff in Htable as [Htable Hothers].
  apply andb_true_iff in Htable as [Htable Hfull].
  apply andb_true_iff in Htable as [Htable Hshape].
  apply andb_true_iff in Htable as [Hlow Hget].
  apply store_more.str_eqb_eq in Hlow, Hget, Hfull.
  rewrite forallb_forall in Hothers.
  repeat split; try assumption.
  - intros a' full' Hin' Hsame. specialize (Hothers _ Hin'). cbn in Hothers.
    apply andb_true_iff in Hothers as [Hname _].
    apply (proj2 (store_more.str_eqb_eq _ _)) in Hsame. rewrite Hsame in Hname.
    now apply store_more.str_eqb_eq.
  - intros a' full' Hin' Hsame. specialize (Hothers _ Hin'). cbn in Hothers.
    apply andb_true_iff in Hothers as [_ Hkey].
    apply (proj2 (store_more.str_eqb_eq _ _)) in Hsame. rewrite Hsame in Hkey.
    now apply store_more.str_eqb_eq.
Qed.

Lemma index_of_abbrev_first (bs : list Book) (i : Z) (n : nat) (book : Book) (key : str) :
  nth_error bs n = Some book ->
  lower (get_abbrev book) = key ->
  NoDup (map get_abbrev bs) ->
  (forall book', In book' bs -> lower (get_abbrev book') = key ->
                 get_abbrev book' = get_abbrev book) ->
  index_of_abbrev bs i key = Some (i + Z.of_nat n).
Proof.
  revert i n. induction bs as [| b0 bs IH]; intros i [| n];
    cbn [nth_error index_of_abbrev]; try discriminate.
  - intros Heq Hk _ _. injection Heq as ->.
    rewrite (proj2 (store_more.str_eqb_eq _ _) Hk). f_equal. lia.
  - intros Hnth Hk Hnd Hsame. cbn [map] in Hnd.
    apply NoDup_cons_iff in Hnd as [Hnotin Hnd].
    destruct (str_eqb (lower (get_abbrev b0)) key) eqn:E.
    + apply store_more.str_eqb_eq in E. exfalso. apply Hnotin.
      rewrite (Hsame b0 (or_introl eq_refl) E). apply in_map.
      now apply nth_error_In with n.
    + rewrite (IH (i + 1) n Hnth Hk Hnd); [f_equal; lia |].
      intros book' Hin'. apply Hsame. now right.
Qed.

Variable self : Bible.

Lemma index_by_name_unique (test : str -> bool) (names : list (str * str))
    (a full : str) (b : Z) :
  In (a, full) names -> test full = true ->
  (forall a' full', In (a', full') names -> test full' = true -> a' = a) ->
  index_of_abbrev (books self) 0 a = Some b ->
  index_by_name self test names = Some b.
Proof.
  intros Hin Ht Hu Hidx.
  induction names as [| [a' full'] names IH]; cbn [index_by_name]; [destruct Hin |].
  destruct (test full') eqn:E.
  - rewrite (Hu a' full' (or_introl eq_refl) E), Hidx. reflexivity.
  - destruct Hin as [Heq | Hin]; [injection Heq as -> ->; congruence |].
    apply IH; [exact Hin |]. intros a2 full2 Hin2. apply Hu. now right.
Qed.

(** The full name of the book at [b] leads back to [b]. *)
Lemma find_book_index_of_full_name (b : Z) (book : Book) (full : str) :
  known_books self ->
  book_at self b = Some book ->
  In (get_abbrev book, full) BOOK_NAMES ->
  _find_book_index self (lower (strip full)) = Some b.
Proof.
  intros [Hnd Hknown] Hb Hin.
  destruct (entry_facts _ _ Hin) as (Hlow & Hget & Hshape & Hfull & Hnames & Hkeys).
  rewrite Forall_forall in Hknown.
  assert (Hkeylow : forall book', In book' (books self) ->
                                  lower (get_abbrev book') = get_abbrev book').
  { intros book' Hin'. destruct (Hknown _ Hin') as [full' Hentry].
    now destruct (entry_facts _ _ Hentry) as (Hlow' & _). }
  assert (Hfirst : index_of_abbrev (books self) 0 (get_abbrev book) = Some b).
  { unfold book_at, in_range in Hb.
    destruct (Z.leb_spec 0 b) as [Hb0 |]; [| discriminate].
    destruct (b <? len (books self)); [| discriminate]. cbn in Hb.
    rewrite (index_of_abbrev_first (books self) 0 (Z.to_nat b) book);
      [f_equal; lia | exact Hb | exact Hlow | exact Hnd |].
    intros book' Hin' Hsame. now rewrite <- (Hkeylow _ Hin'). }
  unfold _find_book_index. fold (looked_up full).
  destruct (index_of_abbrev (books self) 0 (looked_up full)) as [i |] eqn:E.
  - pose proof E as Hsound.
    apply search_more.index_of_abbrev_sound in Hsound as [Hi (book' & Hnth & Hk)].
    apply store_more.str_eqb_eq in Hk.
    assert (Hin' : In book' (books self)) by now apply nth_error_In in Hnth.
    rewrite (Hkeylow _ Hin') in Hk.
    destruct (Hknown _ Hin') as [full' Hentry].
    rewrite <- Hk, (Hkeys _ _ Hentry Hk) in E. congruence.
  - rewrite (index_by_name_unique _ BOOK_NAMES (get_abbrev book) full b);
      [reflexivity | exact Hin | now apply store_more.str_eqb_eq | | exact Hfirst].
    intros a' full' Hin' Htest. apply store_more.str_eqb_eq in Htest.
    now apply (Hnames a' full').
Qed.

(** X21: on a corpus whose books carry pairwise different abbreviations
    of the table of book names, the reference that [get_reference]
    writes for a valid position is read back by [search_by_reference] as
    that very position: same indices, the text of the verse, and the
    reference itself.  Only where a number needs more than the 4300
    digits that [int] converts does reading the reference raise. *)
Theorem reference_round_trip (b c v : Z) :
  known_books self ->
  valid_position self b c v ->
  exists ref text,
    get_reference self b c v = Ok ref
    /\ get_verse self b c v = Ok text
    /\ search_by_reference self ref
       = if convertible (str_of_int (c + 1)) && convertible (str_of_int (v + 1))
         then Ok (Some {| book_index := b; chapter_index := c; verse_index := v;
                          verse_text := text; reference := ref; highlight := None |})
         else Raise ValueError.
Proof.
  intros Hknown Hvalid.
  destruct (valid_position_bounds self b c v Hvalid) as (Hb & Hc & Hv).
  destruct (nav_more.book_at_some self b Hb) as [book Hbook].
  pose proof Hknown as [_ Hall]. rewrite Forall_forall in Hall.
  destruct (Hall book (nav_more.book_at_in self b book Hbook)) as [full Hin].
  destruct (entry_facts _ _ Hin) as (_ & Hget & Hshape & _).
  destruct (str_of_int_positive (c + 1)) as (HD1 & HD1d & HD1v); [lia |].
  destruct (str_of_int_positive (v + 1)) as (HD2 & HD2d & HD2v); [lia |].
  exists (reference_of self b c v), (verse_at self b c v).
  split; [apply get_reference_eq |]. split; [apply get_verse_eq |].
  pose proof (search_by_reference_eq self (reference_of self b c v)) as Hsearch.
  assert (Hname : book_name_of self b = full).
  { unfold book_name_of. now rewrite Hbook. }
  destruct (name_shape_parts full Hshape)
    as (_ & _ & _ & x & t & _ & Hhead & Hx & _).
  assert (Hstrip : strip (reference_of self b c v) = reference_of self b c v).
  { unfold reference_of. rewrite Hname, Hhead.
    change (u " ") with [32%N]. change (u ":") with [58%N].
    change ((x :: t) ++ [32%N] ++ str_of_int (c + 1) ++ [58%N] ++ str_of_int (v + 1))
      with (x :: t ++ [32%N] ++ str_of_int (c + 1) ++ [58%N] ++ str_of_int (v + 1)).
    replace (t ++ [32%N] ++ str_of_int (c + 1) ++ [58%N] ++ str_of_int (v + 1))
      with ((t ++ [32%N] ++ str_of_int (c + 1) ++ [58%N]) ++ str_of_int (v + 1))
      by now rewrite <- !app_assoc.
    now apply strip_fixed. }
  rewrite Hstrip in Hsearch.
  assert (Hmatch : first_match patterns (reference_of self b c v)
                   = Some [full; str_of_int (c + 1); str_of_int (v + 1)]).
  { unfold reference_of, patterns. cbn [first_match]. rewrite Hname.
    change (u " ") with [32%N]. change (u ":") with [58%N].
    now rewrite match_reference_name. }
  rewrite Hmatch in Hsearch.
  destruct Hsearch as [(g0 & g1 & g2 & chapter & verse & Hg & Hch & Hve & Hres)
                      | [(g0 & g1 & chapter & Hg & _)
                        | (Hraise & g & Hlong & _ & Hg)]]; [| discriminate |].
  - injection Hg as <- <- <-.
    rewrite HD1v in Hch. rewrite HD2v in Hve.
    destruct (convertible (str_of_int (c + 1))); [| discriminate].
    destruct (convertible (str_of_int (v + 1))); [| discriminate].
    injection Hch as <-. injection Hve as <-.
    rewrite Hres. unfold resolve.
    rewrite (find_book_index_of_full_name b book full Hknown Hbook Hin).
    replace (c + 1 - 1) with c by lia. replace (v + 1 - 1) with v by lia.
    rewrite (proj2 (in_range_spec c _) Hc), (proj2 (in_range_spec v _) Hv).
    reflexivity.
  - rewrite Hraise. cbn in Hlong.
    destruct Hlong as [<- | [<- | []]]; rewrite Hg;
      [reflexivity | now rewrite andb_false_r].
Qed.

End Names.

End round_trip.

(* ===================================================================== *)
(** * The statements at work on the sample data                             *)
(* ===================================================================== *)

Module examples.
Import Py Re re_spec bible bible_spec samples.
Local Open Scope Z_scope.

Lemma accessors_total_example :
  get_book two_books 5 = Ok None
  /\ get_chapter two_books 0 7 = Ok []
  /\ get_verse two_books 0 0 9 = Ok [].
Proof.
  split; [| split].
  - apply (bible_nav.accessors_total two_books 5 0 0).
    unfold get_book_count, len. cbn. lia.
  - apply (proj1 (proj2 (proj2 (bible_nav.accessors_total two_books 0 7 0))) 2).
    + reflexivity.
    + lia.
  - apply (proj2 (proj2 (proj2 (bible_nav.accessors_total two_books 0 0 9))) 2).
    + reflexivity.
    + lia.
Defined.

Lemma previous_of_next_example :
  exists b' c' v',
    get_next_position two_books 0 1 1 = Ok (b', c', v', false)
    /\ get_previous_position two_books b' c' v' = Ok (0, 1, 1, false).
Proof.
  apply bible_nav.previous_of_next.
  - split; [| split].
    + unfold get_book_count, len. cbn. lia.
    + exists 2. split; [reflexivity | lia].
    + exists 2. split; [reflexivity | lia].
  - intros (Hbook & _). unfold get_book_count, len in Hbook. cbn in Hbook. lia.
Defined.

Lemma next_at_end_example :
  get_next_position two_books 1 2 1 = Ok (1, 2, 1, true)
  /\ forall b' c' v' is_end,
       get_next_position two_books 1 2 1 = Ok (b', c', v', is_end) ->
       get_next_position two_books b' c' v' = Ok (b', c', v', true).
Proof.
  apply (bible_nav.next_at_end two_books 1 2 1).
  split; [| split]; reflexivity.
Defined.

Lemma search_first_matches_example :
  search (H := latin1_only) two_books (u "   ") 5 false = Ok []
  /\ exists results,
       search (H := latin1_only) two_books (u "deus") 2 false = Ok results
       /\ map position_and_text results
          = firstn (Z.to_nat (Z.min 2 (len (filter (hit (H := latin1_only) (u "deus") false)
                                                  (all_verses two_books)))))
                   (filter (hit (H := latin1_only) (u "deus") false) (all_verses two_books)).
Proof.
  split.
  - apply (search_props.search_first_matches (H := latin1_only) two_books (u "   ") 5 false).
    reflexivity.
  - apply (search_props.search_first_matches (H := latin1_only) two_books (u "deus") 2 false).
    vm_compute. discriminate.
Defined.


Lemma search_by_reference_one_based_example :
  (exists r,
     search_by_reference (H := latin1_only) john_three (u "João 3:16") = Ok (Some r)
     /\ book_index r = 0 /\ chapter_index r = 2 /\ verse_index r = 15
     /\ get_verse john_three 0 2 15 = Ok (verse_text r))
  /\ (exists r,
        search_by_reference (H := latin1_only) john_three (u "João 3") = Ok (Some r)
        /\ book_index r = 0 /\ chapter_index r = 2 /\ verse_index r = 0
        /\ get_verse john_three 0 2 0 = Ok (verse_text r)).
Proof.
  destruct (reference_props.search_by_reference_one_based
              (H := latin1_only) john_three 0 3
              eq_refl eq_refl eq_refl ltac:(lia)) as [Hverse Hchapter].
  split; [| exact Hchapter].
  apply (Hverse 16); [reflexivity | lia].
Defined.

Lemma start_session_restarts_example :
  history.end_session 200 (history.start_session 160 reading_since_100)
  = Ok {| history.db := database.add_reading_time (history.db reading_since_100) 40;
          history._session_start := None |}
  /\ exists s,
       history.get_stats 200 (history.start_session 160 reading_since_100) = Ok s
       /\ history.total_time_seconds s = 40.
Proof.
  destruct (history_props.start_session_restarts 160 200 reading_since_100 40)
    as (_ & _ & Hend & Hstats & _).
  { vm_compute. reflexivity. }
  split; [exact Hend |].
  eexists. split; [apply (Hstats 0%float); vm_compute; reflexivity | reflexivity].
Defined.


Lemma add_favorite_once_example :
  fst (database.add_favorite (u "2024-01-02 00:00:00") one_favorite
         0 0 0 (u "Texto") (u "Ref") None) = Ok false
  /\ exists self',
       database.add_favorite (u "2024-01-02 00:00:00") one_favorite
         1 1 1 (u "Texto") (u "Ref") None = (Ok true, self')
       /\ database.get_favorites_count self' = database.get_favorites_count one_favorite + 1
       /\ database.is_favorite self' 1 1 1 = true.
Proof.
  split.
  - rewrite (proj1 (favorites_props.add_favorite_once
                      (u "2024-01-02 00:00:00") one_favorite 0 0 0
                      (u "Texto") (u "Ref") None) eq_refl).
    reflexivity.
  - apply (favorites_props.add_favorite_once
             (u "2024-01-02 00:00:00") one_favorite 1 1 1 (u "Texto") (u "Ref") None).
    reflexivity.
Defined.

End examples.

(* ===================================================================== *)
(** * Further statements at work on the sample data                         *)
(* ===================================================================== *)

Module examples_more.
Import Py Re re_spec bible bible_spec store_spec text_spec samples.
Local Open Scope Z_scope.

Lemma two_books_valid_1_2_1 : valid_position two_books 1 2 1.
Proof.
  split; [| split].
  - unfold get_book_count, len. cbn. lia.
  - exists 3. split; [reflexivity | lia].
  - exists 2. split; [reflexivity | lia].
Defined.

Lemma previous_start_flag_example :
  exists b' c' v' is_start,
    get_previous_position two_books 0 (-3) 0 = Ok (b', c', v', is_start)
    /\ (is_start = true <-> 0 <= 0 /\ -3 <= 0 /\ 0 <= 0)
    /\ (is_start = true -> (b', c', v') = (0, 0, 0)).
Proof. apply (nav_more.previous_start_flag two_books 0 (-3) 0). Defined.

Lemma navigation_is_strict_example :
  (exists b' c' v' is_end,
      get_next_position two_books 0 1 1 = Ok (b', c', v', is_end)
      /\ (is_end = false -> reads_before (0, 1, 1) (b', c', v'))
      /\ (is_end = true -> (b', c', v') = (0, 1, 1)))
  /\ (exists b' c' v' is_start,
        get_previous_position two_books 0 1 1 = Ok (b', c', v', is_start)
        /\ (is_start = false -> reads_before (b', c', v') (0, 1, 1))).
Proof. apply (nav_more.navigation_is_strict two_books 0 1 1). Defined.

Lemma next_of_previous_example :
  exists b' c' v',
    get_previous_position two_books 1 0 0 = Ok (b', c', v', false)
    /\ get_next_position two_books b' c' v' = Ok (1, 0, 0, false).
Proof.
  apply (nav_more.next_of_previous two_books 1 0 0).
  - split; [| split].
    + unfold get_book_count, len. cbn. lia.
    + exists 3. split; [reflexivity | lia].
    + exists 2. split; [reflexivity | lia].
  - discriminate.
Defined.

Lemma navigation_stays_valid_example :
  (exists b' c' v' is_end,
      get_next_position two_books 1 2 1 = Ok (b', c', v', is_end)
      /\ valid_position two_books b' c' v')
  /\ (exists b' c' v' is_start,
        get_previous_position two_books 1 2 1 = Ok (b', c', v', is_start)
        /\ valid_position two_books b' c' v').
Proof.
  apply (nav_more.navigation_stays_valid two_books 1 2 1).
  - unfold no_empty_part. cbn.
    repeat (constructor; try (split; [discriminate |]); try discriminate).
  - exact two_books_valid_1_2_1.
Defined.

Lemma navigation_skips_nothing_example :
  exists b' c' v' is_end,
    get_next_position two_books 0 1 1 = Ok (b', c', v', is_end)
    /\ is_end = false
    /\ ((1, 2, 1) = (b', c', v') \/ reads_before (b', c', v') (1, 2, 1)).
Proof.
  destruct (proj1 (nav_more.navigation_skips_nothing two_books 0 1 1))
    as (b' & c' & v' & is_end & Hnext & Hafter).
  exists b', c', v', is_end. split; [exact Hnext |].
  apply Hafter; [exact two_books_valid_1_2_1 |].
  cbn. lia.
Defined.

Lemma reachable_is_consistent_example : consistent one_favorite.
Proof.
  apply (store_more.reachable_is_consistent one_favorite).
  unfold one_favorite. apply reach_add. apply reach_init.
Defined.

Lemma remove_favorite_removes_example :
  fst (database.remove_favorite one_favorite 0 0 0) = true
  /\ database.get_favorites_count (snd (database.remove_favorite one_favorite 0 0 0)) = 0.
Proof.
  destruct (store_more.remove_favorite_removes one_favorite 0 0 0)
    as (Hremoved & _ & _ & _ & _ & Hcount).
  split; [exact Hremoved |].
  apply (Hcount store_more.one_favorite_consistent).
Defined.

Lemma add_then_remove_example :
  fst (database.remove_favorite one_favorite 0 0 0) = true
  /\ database.favorites (snd (database.remove_favorite one_favorite 0 0 0))
     = database.favorites database._init_database
  /\ database.favorites_seq (snd (database.remove_favorite one_favorite 0 0 0))
     = database.favorites_seq database._init_database + 1
  /\ database.chapters_read (snd (database.remove_favorite one_favorite 0 0 0))
     = database.chapters_read database._init_database
  /\ database.reading_stats (snd (database.remove_favorite one_favorite 0 0 0))
     = database.reading_stats database._init_database.
Proof.
  apply (store_more.add_then_remove (u "2024-01-01 00:00:00") database._init_database
           0 0 0 (u "Texto") (u "Ref") None).
  reflexivity.
Defined.

Lemma mark_chapter_read_once_example :
  history.is_chapter_read
    (history.mark_chapter_read (history.__init__ database._init_database) (u "gn") 0)
    (u "jo") 0
  = history.is_chapter_read (history.__init__ database._init_database) (u "jo") 0.
Proof.
  apply (history_more.mark_chapter_read_once
           (history.__init__ database._init_database) (u "gn") 0).
  vm_compute. discriminate.
Defined.

Lemma chapters_read_for_book_listing_example :
  StronglySorted Z.le (history.get_chapters_read_for_book all_read (u "gn"))
  /\ In 5 (history.get_chapters_read_for_book all_read (u "gn")).
Proof.
  destruct (history_more.chapters_read_for_book_listing all_read (u "gn"))
    as (Hsorted & Hlisted & _).
  split; [exact Hsorted |].
  apply Hlisted. vm_compute. reflexivity.
Defined.

Lemma end_session_closes_example :
  exists self',
    history.end_session 200 reading_since_100 = Ok self'
    /\ history.is_session_active self' = false
    /\ history.end_session 300 self' = Ok self'.
Proof.
  assert (Hend : history.end_session 200 reading_since_100
                 = Ok {| history.db :=
                           database.add_reading_time (history.db reading_since_100) 100;
                         history._session_start := None |})
    by (vm_compute; reflexivity).
  eexists. split; [exact Hend |].
  destruct (proj2 (history_more.end_session_closes 200 reading_since_100) _ Hend)
    as (Hclosed & Hagain & _).
  split; [exact Hclosed | apply Hagain].
Defined.

Lemma stats_time_split_example :
  exists s,
    history.get_stats 0 read_for_3725 = Ok s
    /\ history.total_time_hours s = 1
    /\ 0 <= history.total_time_minutes s < 60
    /\ 3600 * history.total_time_hours s + 60 * history.total_time_minutes s
       <= history.total_time_seconds s
    /\ history.total_time_seconds s
       < 3600 * history.total_time_hours s + 60 * history.total_time_minutes s + 60.
Proof.
  eexists. split; [vm_compute; reflexivity |]. split; [reflexivity |].
  apply (history_more.stats_time_split 0 read_for_3725).
  vm_compute. reflexivity.
Defined.

Lemma search_hits_are_verses_example :
  valid_position two_books (book_index first_deus_hit) (chapter_index first_deus_hit)
    (verse_index first_deus_hit)
  /\ get_verse two_books (book_index first_deus_hit) (chapter_index first_deus_hit)
       (verse_index first_deus_hit)
     = Ok (verse_text first_deus_hit)
  /\ get_reference (H := latin1_only) two_books (book_index first_deus_hit)
       (chapter_index first_deus_hit) (verse_index first_deus_hit)
     = Ok (reference first_deus_hit)
  /\ verse_matches (H := latin1_only) (u "deus") false (verse_text first_deus_hit) = true.
Proof.
  apply (search_more.search_hits_are_verses
           (H := latin1_only) two_books (u "deus") 5 false deus_hits first_deus_hit).
  - vm_compute. reflexivity.
  - vm_compute. left. reflexivity.
Defined.

Lemma search_limit_is_prefix_example :
  exists few many,
    search (H := latin1_only) two_books (u "deus") 1 false = Ok few
    /\ search (H := latin1_only) two_books (u "deus") 3 false = Ok many
    /\ few = firstn (Z.to_nat 1) many
    /\ len few <= Z.max 0 1.
Proof.
  apply (search_more.search_limit_is_prefix (H := latin1_only) two_books (u "deus") 1 3 false).
  lia.
Defined.

Lemma find_book_index_sound_example :
  0 <= 1 < get_book_count two_books
  /\ exists book,
       get_book two_books 1 = Ok (Some book)
       /\ (lower (H := latin1_only) (get_abbrev book)
           = strip (H := latin1_only) (lower (H := latin1_only) (u "João"))
           \/ exists key full,
                In (key, full) BOOK_NAMES
                /\ lower (H := latin1_only) (get_abbrev book) = key
                /\ startswith (lower (H := latin1_only) full)
                     (strip (H := latin1_only) (lower (H := latin1_only) (u "João")))
                   = true).
Proof.
  apply (search_more.find_book_index_sound (H := latin1_only) two_books (u "João") 1).
  vm_compute. reflexivity.
Defined.

Lemma search_by_reference_in_range_example :
  0 <= book_index john_3_16 < get_book_count john_three
  /\ (exists n, get_chapter_count john_three (book_index john_3_16) = Ok n
                /\ 0 <= chapter_index john_3_16 < n)
  /\ (verse_index john_3_16 = 0
      \/ exists n, get_verse_count john_three (book_index john_3_16)
                     (chapter_index john_3_16) = Ok n
                   /\ 0 <= verse_index john_3_16 < n)
  /\ get_verse john_three (book_index john_3_16) (chapter_index john_3_16)
       (verse_index john_3_16)
     = Ok (verse_text john_3_16)
  /\ get_reference (H := latin1_only) john_three (book_index john_3_16)
       (chapter_index john_3_16) (verse_index john_3_16)
     = Ok (reference john_3_16)
  /\ highlight john_3_16 = None.
Proof.
  apply (search_more.search_by_reference_in_range
           (H := latin1_only) john_three (u "João 3:16") john_3_16).
  vm_compute. reflexivity.
Defined.

Lemma get_all_books_agrees_example :
  exists e,
    Py.getitem (get_all_books (H := latin1_only) two_books) 1 = Ok e
    /\ entry_index e = 1
    /\ get_book_abbrev two_books 1 = Ok (entry_abbrev e)
    /\ get_book_name (H := latin1_only) two_books 1 = Ok (entry_name e)
    /\ get_chapter_count two_books 1 = Ok (entry_chapters e).
Proof.
  apply (search_more.get_all_books_agrees (H := latin1_only) two_books).
  unfold get_book_count, len. cbn. lia.
Defined.

Lemma search_is_complete_example :
  exists r, In r deus_hits
            /\ position_and_text r = (1, 0, 1, u "E o Verbo estava com Deus.").
Proof.
  apply (search_more.search_is_complete
           (H := latin1_only) two_books (u "deus") 5 false deus_hits 1 0 1
           (u "E o Verbo estava com Deus.")).
  - vm_compute. discriminate.
  - vm_compute. reflexivity.
  - vm_compute. reflexivity.
  - split; [| split].
    + unfold get_book_count, len. cbn. lia.
    + exists 3. split; [reflexivity | lia].
    + exists 2. split; [reflexivity | lia].
  - vm_compute. reflexivity.
  - vm_compute. reflexivity.
Defined.

Lemma search_hits_in_reading_order_example :
  StronglySorted
    (fun r1 r2 =>
       reads_before (book_index r1, chapter_index r1, verse_index r1)
                    (book_index r2, chapter_index r2, verse_index r2))
    deus_hits.
Proof.
  apply (search_more.search_hits_in_reading_order
           (H := latin1_only) two_books (u "deus") 5 false deus_hits).
  vm_compute. reflexivity.
Defined.

Lemma reference_round_trip_example :
  exists ref text,
    get_reference (H := latin1_only) two_books 1 2 1 = Ok ref
    /\ get_verse two_books 1 2 1 = Ok text
    /\ search_by_reference (H := latin1_only) two_books ref
       = Ok (Some {| book_index := 1; chapter_index := 2; verse_index := 1;
                     verse_text := text; reference := ref; highlight := None |}).
Proof.
  apply (round_trip.reference_round_trip (H := latin1_only) two_books 1 2 1).
  - split.
    + cbn. repeat constructor; cbn; intuition discriminate.
    + repeat constructor.
      * exists (u "Gênesis"). vm_compute. left. reflexivity.
      * exists (u "João"). vm_compute.
        repeat (first [left; reflexivity | right]).
  - exact two_books_valid_1_2_1.
Defined.

End examples_more.
